(** * Ledger engine of the bullion back office: a shallow embedding

    The development follows [src/services/modules/MetalTransactionService.js]
    (totals, mode resolution, posting builders, balance mutation, delete) and
    the fixing service (cancel and delete of a fixing transaction).

    Modelling conventions.
    - A JavaScript number is [jsnum]: [Num q], the rational value of a
      binary64 number, or [NaN].  The sums and products of amounts are
      rounded to the nearest binary64 number, ties to even ([round64]); a
      decimal literal stands for the binary64 number nearest to it
      ([double]).  There is no largest number (no overflow to an infinity)
      and no signed zero.  An absent property ([undefined]) is [None].
    - Dates ([new Date()]) are left out of every record.
    - Identifiers of documents (ObjectId) are natural numbers.
    - A store call made with a session is appended to the session's write log;
      a store call made without one is applied to the committed store at once.
*)

From Stdlib Require Import QArith Qcanon Qround ZArith Lqa Ascii String.
From stdpp Require Import base numbers strings list gmap pretty.

Local Open Scope Qc_scope.

(* ================================================================== *)
(** ** JavaScript numbers *)
(* ================================================================== *)

Module Js.

Inductive jsnum : Type :=
| Num (q : Qc)
| NaN.

#[global] Instance jsnum_eq_dec : EqDecision jsnum.
Proof. solve_decision. Defined.

Definition qc (n : Z) (d : positive) : Qc := Q2Qc (n # d).

Definition zero : jsnum := Num 0.

(** [2^e]. *)
Definition pow2 (e : Z) : Q := Qpower (2 # 1) e.

(** The largest [e] with [2^e <= x], for [x] above zero: the logarithms of
    numerator and denominator give it up to one. *)
Definition floor_log2 (x : Q) : Z :=
  let e := (Z.log2 (Qnum x) - Z.log2 (Zpos (Qden x)))%Z in
  if Qle_bool (pow2 e) x then e else (e - 1)%Z.

(** The integer nearest to [x], the even one on a tie. *)
Definition round_half_even (x : Q) : Z :=
  let f := Qfloor x in
  match (x - inject_Z f ?= 1 # 2)%Q with
  | Lt => f
  | Gt => (f + 1)%Z
  | Eq => if Z.even f then f else (f + 1)%Z
  end.

(** The binary64 number nearest to a rational that is not below zero, ties
    to even: 53 significant bits from [2^-1022] on, the multiples of
    [2^-1074] below. *)
Definition nearest64 (x : Q) : Q :=
  let p := Z.max (floor_log2 x - 52) (-1074) in
  (inject_Z (round_half_even (x / pow2 p)) * pow2 p)%Q.

Definition magnitude64 (x : Qc) : Qc := Q2Qc (nearest64 (this x)).

(** Rounding to binary64: the magnitude is rounded and the sign put
    back. *)
Definition round64 (x : Qc) : Qc :=
  if bool_decide (x < 0) then - magnitude64 (- x) else magnitude64 x.

(** The number that the decimal literal [n / d] denotes. *)
Definition double (n : Z) (d : positive) : Qc := round64 (qc n d).

(** [a + b] on numbers: the number itself when the other one is [0], the
    rounded sum otherwise. *)
Definition add (a b : jsnum) : jsnum :=
  match a, b with
  | Num x, Num y =>
      Num (if bool_decide (y = 0) then x
           else if bool_decide (x = 0) then y
           else round64 (x + y))
  | _, _ => NaN
  end.

(** [a + b] where [b] may be [undefined]: [ToNumber(undefined)] is [NaN]. *)
Definition add_undef (a : jsnum) (b : option jsnum) : jsnum :=
  match b with
  | Some y => add a y
  | None => NaN
  end.

(** [a * b], rounded. *)
Definition mul (a b : jsnum) : jsnum :=
  match a, b with
  | Num x, Num y => Num (round64 (x * y))
  | _, _ => NaN
  end.

(** Unary minus. *)
Definition neg (a : jsnum) : jsnum :=
  match a with
  | Num x => Num (- x)
  | NaN => NaN
  end.

(** [a - b]: binary64 subtraction is the addition of the negated number. *)
Definition sub (a b : jsnum) : jsnum := add a (neg b).

(** [a > 0]; every comparison with [NaN] is false. *)
Definition gt0 (a : jsnum) : bool :=
  match a with
  | Num x => bool_decide (0 < x)
  | NaN => false
  end.

(** [a < 0]. *)
Definition lt0 (a : jsnum) : bool :=
  match a with
  | Num x => bool_decide (x < 0)
  | NaN => false
  end.

(** [a <= 0]. *)
Definition le0 (a : jsnum) : bool :=
  match a with
  | Num x => bool_decide (x <= 0)
  | NaN => false
  end.

(** [a !== 0]; [NaN !== 0] holds. *)
Definition ne0 (a : jsnum) : bool :=
  match a with
  | Num x => bool_decide (x <> 0)
  | NaN => true
  end.

(** Truthiness of a possibly absent number: [undefined], [0] and [NaN] are
    falsy. *)
Definition truthy (a : option jsnum) : bool :=
  match a with
  | Some (Num x) => bool_decide (x <> 0)
  | Some NaN => false
  | None => false
  end.

(** [a || b] with a number on the right. *)
Definition or_else (a : option jsnum) (b : jsnum) : jsnum :=
  match a with
  | Some v => if truthy a then v else b
  | None => b
  end.

(** [Math.abs]. *)
Definition abs (a : jsnum) : jsnum :=
  match a with
  | Num x => if bool_decide (x < 0) then Num (- x) else Num x
  | NaN => NaN
  end.

(** [parseFloat(a) || 0]: the number itself, and [0] for [NaN] and
    [undefined]. *)
Definition parseFloat_or0 (a : option jsnum) : Qc :=
  match a with
  | Some (Num x) => x
  | _ => 0
  end.

(** The integer [n] for which [n / 100 - x] is closest to zero, the larger
    one on a tie ([Number.prototype.toFixed] on a non-negative [x]),
    divided by 100 again. *)
Definition round_half_up_2 (x : Qc) : Qc :=
  Q2Qc (inject_Z (Qfloor (this x * 100 + (1 # 2))%Q) / 100)%Q.

(** [10^21], from which on [toFixed] prints the number as [ToString]
    does. *)
Definition toFixedLimit : Qc := qc 1000000000000000000000 1.

(** [parseFloat(x.toFixed(2))]: [toFixed] rounds the magnitude of the
    number to hundredths and puts the sign back, and [parseFloat] reads the
    decimal as the binary64 number nearest to it.  From [10^21] on the
    number is printed in full and read back as it was. *)
Definition toFixed2 (a : jsnum) : jsnum :=
  match a with
  | Num x =>
      if bool_decide (x < 0) then
        if bool_decide (toFixedLimit <= - x) then Num x
        else Num (- round64 (round_half_up_2 (- x)))
      else
        if bool_decide (toFixedLimit <= x) then Num x
        else Num (round64 (round_half_up_2 x))
  | NaN => NaN
  end.

(** A number with at most two decimals. *)
Definition two_decimals (a : jsnum) : Prop :=
  match a with
  | Num x => exists n : Z, x = qc n 100
  | NaN => False
  end.

(** [toUpperCase] on the letters a to z. *)
Definition upper_ascii (c : ascii) : ascii :=
  let n := nat_of_ascii c in
  if (97 <=? n)%nat && (n <=? 122)%nat then ascii_of_nat (n - 32) else c.

Fixpoint toUpperCase (s : string) : string :=
  match s with
  | EmptyString => EmptyString
  | String c rest => String (upper_ascii c) (toUpperCase rest)
  end.

(** [Math.floor(r * 900) + 100] for [r] drawn by [Math.random()]. *)
Definition random3 (r : Qc) : Z := (Qfloor (this r * 900)%Q + 100)%Z.

End Js.

Export Js.

(* ================================================================== *)
(** ** Documents *)
(* ================================================================== *)

Definition ObjectId : Type := nat.
Bind Scope nat_scope with ObjectId.

(** The properties of a stock item that the service reads.  A nested access
    such as [item.itemTotal?.baseAmount] is one optional field. *)
Module Item.
Record t : Type := mk {
  makingChargesTotal : option jsnum;   (* item.itemTotal?.makingChargesTotal *)
  makingChargesAmount : option jsnum;  (* item.makingCharges?.amount *)
  premiumTotal : option jsnum;         (* item.itemTotal?.premiumTotal *)
  premiumAmount : option jsnum;        (* item.premium?.amount *)
  vatAmount : option jsnum;            (* item.vat?.amount *)
  otherChargesAmount : option jsnum;   (* item.otherCharges?.amount *)
  otherChargesDescription : string;    (* item.otherCharges.description, as
                                          a template literal renders it *)
  baseAmount : option jsnum;           (* item.itemTotal?.baseAmount *)
  pureWeight : option jsnum;
  purity : option jsnum;
  grossWeight : option jsnum;
  rate : option jsnum                  (* item.metalRateRequirements?.rate *)
}.
End Item.

Module Totals.
Record t : Type := mk {
  makingCharges : jsnum;
  premium : jsnum;
  vatAmount : jsnum;
  otherChargesAmount : jsnum;
  discount : jsnum;
  goldValue : jsnum;
  pureWeight : jsnum;
  grossWeight : jsnum;
  purity : jsnum;
  goldBidValue : jsnum;
  totalAmount : jsnum
}.
End Totals.

Module Changes.
Record t : Type := mk {
  goldBalance : jsnum;
  goldValue : jsnum;
  cashBalance : jsnum;
  premiumBalance : jsnum;
  discountBalance : jsnum;
  otherCharges : jsnum
}.
End Changes.

(** The [$inc] part of an update of an Account; the [$set] part only holds
    dates.  [None] is a key that is not present. *)
Module UpdateOps.
Record t : Type := mk {
  inc_totalGrams : option jsnum;   (* "balances.goldBalance.totalGrams" *)
  inc_totalValue : option jsnum;   (* "balances.goldBalance.totalValue" *)
  inc_cashAmount : option jsnum    (* "balances.cashBalance.amount" *)
}.
End UpdateOps.

(** What a call can throw. *)
Inductive exn : Type :=
| ReferenceError (identifier : string)
| TypeError (message : string)
| AppError (message : string) (statusCode : nat) (code : string)
| StoreError (operation : string).

(** [error.message]. *)
Definition message_of (e : exn) : string :=
  match e with
  | ReferenceError identifier => identifier +:+ " is not defined"
  | TypeError message => message
  | AppError message _ _ => message
  | StoreError operation => operation
  end.

Inductive result (A : Type) : Type :=
| Ok (a : A)
| Throw (e : exn).
Arguments Ok {A} a.
Arguments Throw {A} e.

(** The party as the posting builders read it. *)
Module Party.
Record t : Type := mk {
  _id : ObjectId;
  customerName : string;   (* the empty string when absent *)
  accountCode : string
}.

(** [party.customerName || party.accountCode]. *)
Definition partyName (party : t) : string :=
  if String.eqb (customerName party) "" then accountCode party
  else customerName party.
End Party.

(** A Registry posting as [createRegistryEntry] builds it, without its two
    time stamps ([transactionDate] and [createdAt], both [new Date()]). *)
Module Entry.
Record t : Type := mk {
  transactionId : string;
  metalTransactionId : ObjectId;
  type : string;
  description : string;
  party : option ObjectId;
  isBullion : bool;
  value : Qc;
  credit : Qc;
  cashDebit : Qc;
  goldCredit : Qc;
  cashCredit : Qc;
  goldDebit : Qc;
  debit : Qc;
  goldBidValue : option jsnum;
  reference : string;
  createdBy : ObjectId;
  grossWeight : option jsnum;
  pureWeight : option jsnum;
  purity : option jsnum
}.
End Entry.

(** The fields of a metal transaction that the service reads;
    [totalAmountAED] is [totalAmountSession?.totalAmountAED]. *)
Module MetalTransaction.
Record t : Type := mk {
  _id : ObjectId;
  transactionType : string;
  fixed : bool;
  unfix : bool;
  partyCode : ObjectId;
  stockItems : list Item.t;
  totalAmountAED : option jsnum;
  voucherNumber : string;
  isActive : bool
}.
End MetalTransaction.

(** A party account with the balance fields of its schema. *)
Module Account.
Record t : Type := mk {
  _id : ObjectId;
  isActive : bool;
  customerName : string;
  accountCode : string;
  totalGrams : jsnum;    (* balances.goldBalance.totalGrams *)
  totalValue : jsnum;    (* balances.goldBalance.totalValue *)
  cashAmount : jsnum     (* balances.cashBalance.amount *)
}.
End Account.

(** A fixing transaction. *)
Module TransactionFixing.
Record order : Type := mkOrder {
  price : jsnum;
  quantityGm : jsnum
}.
Record t : Type := mk {
  _id : ObjectId;
  type : string;
  partyId : ObjectId;
  orders : list order;
  status : string;
  isActive : bool;
  updatedBy : option ObjectId
}.
End TransactionFixing.

(** A stored Registry row: the link to its owner and the posting. *)
Module Registry.
Record t : Type := mk {
  metalTransactionId : option ObjectId;
  fixingTransactionId : option ObjectId;
  transactionId : string;
  type : string;
  party : option ObjectId;
  value : Qc;
  debit : Qc;
  credit : Qc
}.

(** The row that [insertMany] stores for a built entry. *)
Definition ofEntry (e : Entry.t) : t :=
  {| metalTransactionId := Some (Entry.metalTransactionId e);
     fixingTransactionId := None;
     transactionId := Entry.transactionId e;
     type := Entry.type e;
     party := Entry.party e;
     value := Entry.value e;
     debit := Entry.debit e;
     credit := Entry.credit e |}.
End Registry.

(** *** Request data *)

(** A value used as the reference to a document: absent (or falsy in
    another way), a well-formed ObjectId, or anything else. *)
Inductive reference : Type :=
| NoReference
| ValidReference (id : ObjectId)
| InvalidReference.

(** A stock item as a request carries it.  A numeric field is [None] when
    its value is not of type number. *)
Module RawItem.
Record t : Type := mk {
  stockCode : reference;
  metalRate : reference;
  pureWeight : option jsnum;
  grossWeight : option jsnum;
  purity : option jsnum
}.
End RawItem.

(** The [stockItems] of a request: falsy, truthy but no array, or an
    array. *)
Inductive stockItemsValue : Type :=
| NoStockItems
| NotAnArray
| StockItemsArray (items : list RawItem.t).

(** The fields of the request that [validateTransactionData] reads; a
    string field is [None] when it is absent. *)
Module TransactionData.
Record t : Type := mk {
  partyCode : reference;
  transactionType : option string;
  stockItems : stockItemsValue;
  voucherDate : option string;
  voucherNumber : option string;
  partyCurrency : reference;
  itemCurrency : reference;
  baseCurrency : reference
}.
End TransactionData.

(** A stock item together with its [stockCode], which [Item.t] leaves
    out. *)
Module StockLine.
Record t : Type := mk {
  stockCode : ObjectId;
  item : Item.t
}.
End StockLine.

(** What [getPremiumDiscountBreakdown] returns. *)
Module Breakdown.
Record entry : Type := mkEntry {
  stockCode : ObjectId;
  amount : jsnum;
  type : string
}.
Record t : Type := mk {
  totalPremium : jsnum;
  totalDiscount : jsnum;
  premiumItems : list entry;
  discountItems : list entry
}.
End Breakdown.

(** The [updateData] of an update request, where it is an object: its
    own keys and the two properties that are validated. *)
Module UpdateData.
Record t : Type := mk {
  keys : list string;
  partyCode : reference;
  stockItems : stockItemsValue
}.
End UpdateData.

(** The [updateData] argument: falsy or not of type object, or an
    object. *)
Inductive updateDataValue : Type :=
| NoUpdateData
| UpdateDataObject (object : UpdateData.t).

(* ================================================================== *)
(** ** The store and its sessions *)
(* ================================================================== *)

Module Store.

Record t : Type := mk {
  accounts : gmap ObjectId Account.t;
  registry : list Registry.t;
  metalTransactions : gmap ObjectId MetalTransaction.t;
  transactionFixings : gmap ObjectId TransactionFixing.t
}.

(** The writes the two services issue. *)
Inductive write : Type :=
| AccountUpdate (id : ObjectId) (ops : UpdateOps.t)
    (* Account.findByIdAndUpdate(id, { $inc, $set }) *)
| AccountSave (account : Account.t)
    (* account.save() *)
| RegistryInsertMany (rows : list Registry.t)
    (* Registry.insertMany(entries) *)
| RegistryDeleteByMetalTransaction (id : ObjectId)
    (* Registry.deleteMany({ metalTransactionId: id }) *)
| RegistryDeleteByFixing (id : ObjectId)
    (* Registry.deleteMany({ fixingTransactionId: id }) *)
| MetalTransactionDeleteOne (id : ObjectId)
    (* MetalTransaction.deleteOne({ _id: id }) *)
| TransactionFixingDeleteOne (id : ObjectId)
    (* TransactionFixing.deleteOne({ _id: id }) *)
| TransactionFixingCancel (id : ObjectId) (adminId : ObjectId).
    (* TransactionFixing.findByIdAndUpdate(id,
         { status: "cancelled", updatedBy: adminId }) *)

(** [field += increment] when the key is in [$inc]. *)
Definition inc (field : jsnum) (increment : option jsnum) : jsnum :=
  match increment with
  | Some v => add field v
  | None => field
  end.

Definition applyOps (ops : UpdateOps.t) (a : Account.t) : Account.t :=
  {| Account._id := Account._id a;
     Account.isActive := Account.isActive a;
     Account.customerName := Account.customerName a;
     Account.accountCode := Account.accountCode a;
     Account.totalGrams :=
       inc (Account.totalGrams a) (UpdateOps.inc_totalGrams ops);
     Account.totalValue :=
       inc (Account.totalValue a) (UpdateOps.inc_totalValue ops);
     Account.cashAmount :=
       inc (Account.cashAmount a) (UpdateOps.inc_cashAmount ops) |}.

Definition cancelled (adminId : ObjectId) (f : TransactionFixing.t)
    : TransactionFixing.t :=
  {| TransactionFixing._id := TransactionFixing._id f;
     TransactionFixing.type := TransactionFixing.type f;
     TransactionFixing.partyId := TransactionFixing.partyId f;
     TransactionFixing.orders := TransactionFixing.orders f;
     TransactionFixing.status := "cancelled";
     TransactionFixing.isActive := TransactionFixing.isActive f;
     TransactionFixing.updatedBy := Some adminId |}.

Definition apply (w : write) (s : t) : t :=
  match w with
  | AccountUpdate id ops =>
      mk (alter (applyOps ops) id (accounts s)) (registry s)
         (metalTransactions s) (transactionFixings s)
  | AccountSave a =>
      mk (<[Account._id a := a]> (accounts s)) (registry s)
         (metalTransactions s) (transactionFixings s)
  | RegistryInsertMany rows =>
      mk (accounts s) (registry s ++ rows) (metalTransactions s)
         (transactionFixings s)
  | RegistryDeleteByMetalTransaction id =>
      mk (accounts s)
         (filter (fun r => Registry.metalTransactionId r <> Some id)
            (registry s))
         (metalTransactions s) (transactionFixings s)
  | RegistryDeleteByFixing id =>
      mk (accounts s)
         (filter (fun r => Registry.fixingTransactionId r <> Some id)
            (registry s))
         (metalTransactions s) (transactionFixings s)
  | MetalTransactionDeleteOne id =>
      mk (accounts s) (registry s) (delete id (metalTransactions s))
         (transactionFixings s)
  | TransactionFixingDeleteOne id =>
      mk (accounts s) (registry s) (metalTransactions s)
         (delete id (transactionFixings s))
  | TransactionFixingCancel id adminId =>
      mk (accounts s) (registry s) (metalTransactions s)
         (alter (cancelled adminId) id (transactionFixings s))
  end.

(** The committed store and the writes of the open session, oldest
    first. *)
Record world : Type := mkWorld {
  committed : t;
  pending : list write
}.

(** What a read made with the session sees. *)
Definition view (w : world) : t :=
  fold_left (fun s x => apply x s) (pending w) (committed w).

(** The store calls that can be rejected by the infrastructure. *)
Inductive call : Type :=
| MetalTransaction_findById
| Registry_insertMany
| Registry_deleteMany
| Account_findById
| Account_findByIdAndUpdate
| Account_save
| MetalTransaction_deleteOne
| TransactionFixing_findById
| TransactionFixing_findByIdAndUpdate
| TransactionFixing_deleteOne
| Session_commitTransaction.

#[global] Instance call_eq_dec : EqDecision call.
Proof. solve_decision. Defined.

(** A computation over the world that returns or throws. *)
Definition M (A : Type) : Type := world -> result A * world.

Definition ret {A : Type} (a : A) : M A := fun w => (Ok a, w).

Definition throw {A : Type} (e : exn) : M A := fun w => (Throw e, w).

Definition bind {A B : Type} (m : M A) (k : A -> M B) : M B :=
  fun w =>
    match m w with
    | (Ok a, w') => k a w'
    | (Throw e, w') => (Throw e, w')
    end.

(** [try { m } catch (error) { handler(error) }]. *)
Definition try_catch {A : Type} (m : M A) (handler : exn -> M A) : M A :=
  fun w =>
    match m w with
    | (Ok a, w') => (Ok a, w')
    | (Throw e, w') => handler e w'
    end.

Section Calls.

(** The calls that the infrastructure rejects in a run. *)
Variable faulty : call -> bool.

(** An awaited store call: rejected, or carried out. *)
Definition await {A : Type} (c : call) (m : M A) : M A :=
  if faulty c then throw (StoreError "rejected") else m.

(** A read, with the session or without. *)
Definition read {A : Type} (session : bool) (f : t -> A) : M A :=
  fun w => (Ok (f (if session then view w else committed w)), w).

(** A write: logged in the session, or applied at once without one. *)
Definition store (session : bool) (x : write) : M unit :=
  fun w =>
    if session
    then (Ok tt, mkWorld (committed w) (pending w ++ [x]))
    else (Ok tt, mkWorld (apply x (committed w)) (pending w)).

(** [session.startTransaction()]. *)
Definition startTransaction : M unit :=
  fun w => (Ok tt, mkWorld (committed w) []).

(** [session.commitTransaction()]: the logged writes reach the store. *)
Definition commitTransaction : M unit :=
  await Session_commitTransaction
    (fun w => (Ok tt, mkWorld (view w) [])).

(** [session.abortTransaction()]: the logged writes are dropped. *)
Definition abortTransaction : M unit :=
  fun w => (Ok tt, mkWorld (committed w) []).

End Calls.

End Store.

Notation "x <- m ;; k" := (Store.bind m (fun x => k))
  (at level 100, m at next level, right associativity).
Notation "m ;;; k" := (Store.bind m (fun _ => k))
  (at level 100, right associativity).

(* ================================================================== *)
(** ** MetalTransactionService: totals, mode and balance mutation *)
(* ================================================================== *)

Module MetalTransactionService.

(** [getTransactionMode(fixed, unfix)], the four tests in source order. *)
Definition getTransactionMode (fixed unfix : bool) : string :=
  if fixed && negb unfix then "fix"
  else if unfix && negb fixed then "unfix"
  else if negb fixed && negb unfix then "unfix"
  else "fix".

(** The accumulator the reduction starts from.  The source adds
    [totalAmount] to the object after the reduction; it is [0] until then. *)
Definition initialTotals : Totals.t :=
  {| Totals.makingCharges := zero;
     Totals.premium := zero;
     Totals.vatAmount := zero;
     Totals.otherChargesAmount := zero;
     Totals.discount := zero;
     Totals.goldValue := zero;
     Totals.pureWeight := zero;
     Totals.grossWeight := zero;
     Totals.purity := zero;
     Totals.goldBidValue := zero;
     Totals.totalAmount := zero |}.

(** The callback of [stockItems.reduce]. *)
Definition reducer (acc : Totals.t) (item : Item.t) : Totals.t :=
  let makingChargesAmount :=
    or_else (Item.makingChargesTotal item)
      (or_else (Item.makingChargesAmount item) zero) in
  let premiumDiscountAmount :=
    or_else (Item.premiumTotal item)
      (or_else (Item.premiumAmount item) zero) in
  let vatAmount := Item.vatAmount item in
  let otherChargesAmount := Item.otherChargesAmount item in
  let goldValue := or_else (Item.baseAmount item) zero in
  let pureWeight := or_else (Item.pureWeight item) zero in
  let purity := or_else (Item.purity item) zero in
  let grossWeight := or_else (Item.grossWeight item) zero in
  let premium :=
    if gt0 premiumDiscountAmount then premiumDiscountAmount else zero in
  let discount :=
    if lt0 premiumDiscountAmount then abs premiumDiscountAmount else zero in
  {| Totals.makingCharges := add (Totals.makingCharges acc) makingChargesAmount;
     Totals.premium := add (Totals.premium acc) premium;
     Totals.vatAmount := add_undef (Totals.vatAmount acc) vatAmount;
     Totals.otherChargesAmount :=
       add_undef (Totals.otherChargesAmount acc) otherChargesAmount;
     Totals.discount := add (Totals.discount acc) discount;
     Totals.goldValue := add (Totals.goldValue acc) goldValue;
     Totals.pureWeight := add (Totals.pureWeight acc) pureWeight;
     Totals.grossWeight := add (Totals.grossWeight acc) grossWeight;
     Totals.purity := add (Totals.purity acc) purity;
     Totals.goldBidValue :=
       or_else (Some (Totals.goldBidValue acc))
         (or_else (Item.rate item) zero);
     Totals.totalAmount := Totals.totalAmount acc |}.

Definition setTotalAmount (t : Totals.t) (v : jsnum) : Totals.t :=
  {| Totals.makingCharges := Totals.makingCharges t;
     Totals.premium := Totals.premium t;
     Totals.vatAmount := Totals.vatAmount t;
     Totals.otherChargesAmount := Totals.otherChargesAmount t;
     Totals.discount := Totals.discount t;
     Totals.goldValue := Totals.goldValue t;
     Totals.pureWeight := Totals.pureWeight t;
     Totals.grossWeight := Totals.grossWeight t;
     Totals.purity := Totals.purity t;
     Totals.goldBidValue := Totals.goldBidValue t;
     Totals.totalAmount := v |}.

(** [calculateTotals(stockItems, totalAmountSession)]; the second argument
    is [totalAmountSession?.totalAmountAED]. *)
Definition calculateTotals (stockItems : list Item.t)
    (totalAmountAED : option jsnum) : Totals.t :=
  setTotalAmount (fold_left reducer stockItems initialTotals)
    (or_else totalAmountAED zero).

Definition noChanges : Changes.t :=
  {| Changes.goldBalance := zero;
     Changes.goldValue := zero;
     Changes.cashBalance := zero;
     Changes.premiumBalance := zero;
     Changes.discountBalance := zero;
     Changes.otherCharges := zero |}.

(** [balanceMatrix[transactionType]?.[mode]]: the eight rows, written out
    per kind and mode as in the source; [None] where the lookup is
    [undefined]. *)
Definition balanceMatrix (totals : Totals.t) (transactionType mode : string)
    : option Changes.t :=
  if String.eqb transactionType "purchase" then
    if String.eqb mode "unfix" then
      Some {| Changes.goldBalance := Totals.pureWeight totals;
              Changes.goldValue := Totals.goldValue totals;
              Changes.cashBalance := Totals.makingCharges totals;
              Changes.premiumBalance := Totals.premium totals;
              Changes.discountBalance := neg (Totals.discount totals);
              Changes.otherCharges := Totals.otherChargesAmount totals |}
    else if String.eqb mode "fix" then
      Some {| Changes.goldBalance := zero;
              Changes.goldValue := zero;
              Changes.cashBalance := Totals.totalAmount totals;
              Changes.premiumBalance := zero;
              Changes.discountBalance := zero;
              Changes.otherCharges := zero |}
    else None
  else if String.eqb transactionType "sale" then
    if String.eqb mode "unfix" then
      Some {| Changes.goldBalance := neg (Totals.pureWeight totals);
              Changes.goldValue := neg (Totals.goldValue totals);
              Changes.cashBalance := neg (Totals.makingCharges totals);
              Changes.premiumBalance := neg (Totals.premium totals);
              Changes.discountBalance := Totals.discount totals;
              Changes.otherCharges := neg (Totals.otherChargesAmount totals) |}
    else if String.eqb mode "fix" then
      Some {| Changes.goldBalance := zero;
              Changes.goldValue := zero;
              Changes.cashBalance := neg (Totals.totalAmount totals);
              Changes.premiumBalance := zero;
              Changes.discountBalance := zero;
              Changes.otherCharges := zero |}
    else None
  else if String.eqb transactionType "purchaseReturn" then
    if String.eqb mode "unfix" then
      Some {| Changes.goldBalance := neg (Totals.pureWeight totals);
              Changes.goldValue := neg (Totals.goldValue totals);
              Changes.cashBalance := neg (Totals.makingCharges totals);
              Changes.premiumBalance := neg (Totals.premium totals);
              Changes.discountBalance := Totals.discount totals;
              Changes.otherCharges := neg (Totals.otherChargesAmount totals) |}
    else if String.eqb mode "fix" then
      Some {| Changes.goldBalance := zero;
              Changes.goldValue := zero;
              Changes.cashBalance := neg (Totals.totalAmount totals);
              Changes.premiumBalance := zero;
              Changes.discountBalance := zero;
              Changes.otherCharges := zero |}
    else None
  else if String.eqb transactionType "saleReturn" then
    if String.eqb mode "unfix" then
      Some {| Changes.goldBalance := Totals.pureWeight totals;
              Changes.goldValue := Totals.goldValue totals;
              Changes.cashBalance := Totals.makingCharges totals;
              Changes.premiumBalance := Totals.premium totals;
              Changes.discountBalance := neg (Totals.discount totals);
              Changes.otherCharges := Totals.otherChargesAmount totals |}
    else if String.eqb mode "fix" then
      Some {| Changes.goldBalance := zero;
              Changes.goldValue := zero;
              Changes.cashBalance := Totals.totalAmount totals;
              Changes.premiumBalance := zero;
              Changes.discountBalance := zero;
              Changes.otherCharges := zero |}
    else None
  else None.

(** [calculateBalanceChanges(transactionType, mode, totals)]:
    [balanceMatrix[transactionType]?.[mode] || { all zero }]. *)
Definition calculateBalanceChanges (transactionType mode : string)
    (totals : Totals.t) : Changes.t :=
  match balanceMatrix totals transactionType mode with
  | Some c => c
  | None => noChanges
  end.

(** [cashBalance + premiumBalance + discountBalance]. *)
Definition netCashChange (balanceChanges : Changes.t) : jsnum :=
  add (add (Changes.cashBalance balanceChanges)
           (Changes.premiumBalance balanceChanges))
      (Changes.discountBalance balanceChanges).

(** [buildUpdateOperations(balanceChanges)]. *)
Definition buildUpdateOperations (balanceChanges : Changes.t) : UpdateOps.t :=
  let gold := ne0 (Changes.goldBalance balanceChanges) in
  let net := netCashChange balanceChanges in
  {| UpdateOps.inc_totalGrams :=
       if gold then Some (Changes.goldBalance balanceChanges) else None;
     UpdateOps.inc_totalValue :=
       if gold then Some (Changes.goldValue balanceChanges) else None;
     UpdateOps.inc_cashAmount :=
       if ne0 net then Some (toFixed2 net) else None |}.

(** What an [$inc] adds to a field: the increment, or nothing when the key
    is not in the update. *)
Definition increment (o : option jsnum) : jsnum :=
  match o with
  | Some v => v
  | None => zero
  end.

(** *** Posting builder *)

(** An object literal passed as the options of [createRegistryEntry]: its
    own properties in source order. *)
Definition options : Type := list (string * jsnum).

(** Reading a property of the options; [undefined] when it is not there. *)
Fixpoint property (key : string) (o : options) : option jsnum :=
  match o with
  | [] => None
  | (k, v) :: rest => if String.eqb k key then Some v else property key rest
  end.

(** [createRegistryEntry]; [null] is [None].  The two time stamps are left
    out, see [Entry.t]. *)
Definition createRegistryEntry (baseId : string)
    (metalTransactionId : ObjectId) (suffix type description : string)
    (partyId : option ObjectId) (isBullion : bool) (value credit : jsnum)
    (o : options) (reference : string) (adminId : ObjectId)
    : option Entry.t :=
  if le0 value
     && negb (bool_decide (In type ["sales-fixing"; "sale-return-fixing"]))
  then None
  else Some
    {| Entry.transactionId := baseId +:+ "-" +:+ suffix;
       Entry.metalTransactionId := metalTransactionId;
       Entry.type := type;
       Entry.description := description;
       Entry.party := partyId;
       Entry.isBullion := isBullion;
       Entry.value := parseFloat_or0 (Some value);
       Entry.credit := parseFloat_or0 (Some credit);
       Entry.cashDebit := parseFloat_or0 (property "cashDebit" o);
       Entry.goldCredit := parseFloat_or0 (property "goldCredit" o);
       Entry.cashCredit := parseFloat_or0 (property "cashCredit" o);
       Entry.goldDebit := parseFloat_or0 (property "goldDebit" o);
       Entry.debit := parseFloat_or0 (property "debit" o);
       Entry.goldBidValue := property "goldBidValue" o;
       Entry.reference := reference;
       Entry.createdBy := adminId;
       Entry.grossWeight := property "grossWeight" o;
       Entry.pureWeight := property "pureWeight" o;
       Entry.purity := property "purity" o |}.

(** [if (c) entries.push(e)] as the list of what was pushed. *)
Definition push_if (c : bool) (e : option Entry.t) : list (option Entry.t) :=
  if c then [e] else [].

(** [buildPurchaseFixEntries], source line 417. *)
Definition buildPurchaseFixEntries (totals : Totals.t)
    (metalTransactionId : ObjectId)
    (party : Party.t) (baseTransactionId voucherNumber : string)
    (adminId : ObjectId) (item : Item.t) : list (option Entry.t) :=
  let partyName := Party.partyName party in
  push_if (gt0 (Totals.pureWeight totals))
    (createRegistryEntry baseTransactionId metalTransactionId
       "PARTY-GOLD" "purchase-fixing"
       ("Party gold balance - Purchase from " +:+ partyName)
       (Some (Party._id party)) true
       (Totals.pureWeight totals) (Totals.pureWeight totals)
       [("debit", zero);
        ("goldCredit", Totals.pureWeight totals);
        ("cashDebit", Totals.goldValue totals);
        ("grossWeight", Totals.grossWeight totals);
        ("goldBidValue", Totals.goldBidValue totals)]
       voucherNumber adminId)
  ++ push_if (gt0 (Totals.goldValue totals))
    (createRegistryEntry baseTransactionId metalTransactionId
       "001" "PARTY_CASH_BALANCE"
       ("Party cash balance - Purchase from " +:+ partyName)
       (Some (Party._id party)) false
       (Totals.goldValue totals) (Totals.goldValue totals)
       [("goldDebit", Totals.grossWeight totals);
        ("cashDebit", Totals.goldValue totals);
        ("grossWeight", Totals.grossWeight totals);
        ("goldBidValue", Totals.goldBidValue totals)]
       voucherNumber adminId)
  ++ push_if (gt0 (Totals.makingCharges totals))
    (createRegistryEntry baseTransactionId metalTransactionId
       "002" "MAKING_CHARGES"
       ("Party making charges - Purchase from " +:+ partyName)
       (Some (Party._id party)) false
       (Totals.makingCharges totals) (Totals.makingCharges totals)
       [("goldDebit", Totals.grossWeight totals);
        ("cashDebit", Totals.goldValue totals);
        ("grossWeight", Totals.grossWeight totals);
        ("goldBidValue", Totals.goldBidValue totals)]
       voucherNumber adminId)
  ++ push_if (gt0 (Totals.otherChargesAmount totals))
    (createRegistryEntry baseTransactionId metalTransactionId
       "008" "OTHER_CHARGES"
       (Item.otherChargesDescription item
        +:+ " charges - Purchase from " +:+ partyName)
       (Some (Party._id party)) false
       (Totals.otherChargesAmount totals) (Totals.otherChargesAmount totals)
       [("goldDebit", Totals.grossWeight totals);
        ("cashDebit", Totals.goldValue totals);
        ("grossWeight", Totals.grossWeight totals);
        ("goldBidValue", Totals.goldBidValue totals)]
       voucherNumber adminId)
  ++ push_if (gt0 (Totals.vatAmount totals))
    (createRegistryEntry baseTransactionId metalTransactionId
       "009" "VAT_AMOUNT"
       ("Party Vat amount - Purchase from " +:+ partyName)
       (Some (Party._id party)) false
       (Totals.vatAmount totals) (Totals.vatAmount totals)
       [("goldDebit", Totals.grossWeight totals);
        ("cashDebit", Totals.goldValue totals);
        ("grossWeight", Totals.grossWeight totals);
        ("goldBidValue", Totals.goldBidValue totals)]
       voucherNumber adminId)
  ++ push_if (gt0 (Totals.premium totals))
    (createRegistryEntry baseTransactionId metalTransactionId
       "003" "PREMIUM"
       ("Party premium - Purchase from " +:+ partyName)
       (Some (Party._id party)) false
       (Totals.premium totals) (Totals.premium totals)
       [("goldDebit", Totals.grossWeight totals);
        ("cashDebit", Totals.goldValue totals);
        ("grossWeight", Totals.grossWeight totals);
        ("goldBidValue", Totals.goldBidValue totals)]
       voucherNumber adminId)
  ++ push_if (gt0 (Totals.discount totals))
    (createRegistryEntry baseTransactionId metalTransactionId
       "007" "DISCOUNT"
       ("Party discount - Purchase from " +:+ partyName)
       (Some (Party._id party)) false
       (Totals.discount totals) zero
       [("debit", Totals.discount totals);
        ("goldDebit", Totals.grossWeight totals);
        ("cashDebit", Totals.goldValue totals);
        ("grossWeight", Totals.grossWeight totals);
        ("goldBidValue", Totals.goldBidValue totals)]
       voucherNumber adminId)
  ++ push_if (gt0 (Totals.pureWeight totals))
    (createRegistryEntry baseTransactionId metalTransactionId
       "004" "GOLD"
       ("Gold inventory - Purchase from " +:+ partyName)
       None true
       (Totals.pureWeight totals) zero
       [("debit", Totals.pureWeight totals);
        ("goldDebit", Totals.grossWeight totals);
        ("cashDebit", Totals.goldValue totals);
        ("grossWeight", Totals.grossWeight totals);
        ("pureWeight", Totals.pureWeight totals);
        ("purity", Totals.purity totals);
        ("goldBidValue", Totals.goldBidValue totals)]
       voucherNumber adminId)
  ++ push_if (gt0 (Totals.grossWeight totals))
    (createRegistryEntry baseTransactionId metalTransactionId
       "005" "GOLD_STOCK"
       ("Gold stock - Purchase from " +:+ partyName)
       None true
       (Totals.grossWeight totals) zero
       [("debit", Totals.grossWeight totals);
        ("goldDebit", Totals.grossWeight totals);
        ("cashDebit", Totals.goldValue totals);
        ("grossWeight", Totals.grossWeight totals);
        ("pureWeight", Totals.pureWeight totals);
        ("purity", Totals.purity totals);
        ("goldBidValue", Totals.goldBidValue totals)]
       voucherNumber adminId).

(** [buildPurchaseUnfixEntries], source line 668. *)
Definition buildPurchaseUnfixEntries (totals : Totals.t)
    (metalTransactionId : ObjectId)
    (party : Party.t) (baseTransactionId voucherNumber : string)
    (adminId : ObjectId) (item : Item.t) : list (option Entry.t) :=
  let partyName := Party.partyName party in
  push_if (gt0 (Totals.pureWeight totals))
    (createRegistryEntry baseTransactionId metalTransactionId
       "001" "PARTY_GOLD_BALANCE"
       ("Party gold balance - Unfix purchase from " +:+ partyName)
       (Some (Party._id party)) false
       (Totals.pureWeight totals) (Totals.pureWeight totals)
       [("debit", zero);
        ("grossWeight", Totals.grossWeight totals);
        ("goldBidValue", Totals.goldBidValue totals)]
       voucherNumber adminId)
  ++ push_if (gt0 (Totals.makingCharges totals))
    (createRegistryEntry baseTransactionId metalTransactionId
       "003" "MAKING_CHARGES"
       ("Party making charges - Unfix purchase from " +:+ partyName)
       (Some (Party._id party)) false
       (Totals.makingCharges totals) (Totals.makingCharges totals)
       [("debit", zero);
        ("grossWeight", Totals.grossWeight totals);
        ("goldBidValue", Totals.goldBidValue totals)]
       voucherNumber adminId)
  ++ push_if (gt0 (Totals.otherChargesAmount totals))
    (createRegistryEntry baseTransactionId metalTransactionId
       "008" "OTHER_CHARGES"
       (Item.otherChargesDescription item
        +:+ " charges - Purchase from " +:+ partyName)
       (Some (Party._id party)) false
       (Totals.otherChargesAmount totals) (Totals.otherChargesAmount totals)
       [("goldDebit", Totals.grossWeight totals);
        ("cashDebit", Totals.goldValue totals);
        ("grossWeight", Totals.grossWeight totals);
        ("goldBidValue", Totals.goldBidValue totals)]
       voucherNumber adminId)
  ++ push_if (gt0 (Totals.vatAmount totals))
    (createRegistryEntry baseTransactionId metalTransactionId
       "009" "VAT_AMOUNT"
       ("Party Vat amount - Purchase from " +:+ partyName)
       (Some (Party._id party)) false
       (Totals.vatAmount totals) (Totals.vatAmount totals)
       [("goldDebit", Totals.grossWeight totals);
        ("cashDebit", Totals.goldValue totals);
        ("grossWeight", Totals.grossWeight totals);
        ("goldBidValue", Totals.goldBidValue totals)]
       voucherNumber adminId)
  ++ push_if (gt0 (Totals.premium totals))
    (createRegistryEntry baseTransactionId metalTransactionId
       "004" "PREMIUM"
       ("Party premium - Unfix purchase from " +:+ partyName)
       (Some (Party._id party)) false
       (Totals.premium totals) (Totals.premium totals)
       [("debit", zero);
        ("grossWeight", Totals.grossWeight totals);
        ("goldBidValue", Totals.goldBidValue totals)]
       voucherNumber adminId)
  ++ push_if (gt0 (Totals.discount totals))
    (createRegistryEntry baseTransactionId metalTransactionId
       "007" "DISCOUNT"
       ("Party discount - Unfix purchase from " +:+ partyName)
       (Some (Party._id party)) false
       (Totals.discount totals) zero
       [("debit", Totals.discount totals);
        ("grossWeight", Totals.grossWeight totals);
        ("goldBidValue", Totals.goldBidValue totals)]
       voucherNumber adminId)
  ++ push_if (gt0 (Totals.pureWeight totals))
    (createRegistryEntry baseTransactionId metalTransactionId
       "005" "GOLD"
       ("Gold inventory - Unfix purchase from " +:+ partyName)
       None true
       (Totals.pureWeight totals) zero
       [("debit", Totals.pureWeight totals);
        ("grossWeight", Totals.grossWeight totals);
        ("goldBidValue", Totals.goldBidValue totals)]
       voucherNumber adminId)
  ++ push_if (gt0 (Totals.grossWeight totals))
    (createRegistryEntry baseTransactionId metalTransactionId
       "006" "GOLD_STOCK"
       ("Gold stock - Unfix purchase from " +:+ partyName)
       None true
       (Totals.grossWeight totals) zero
       [("debit", Totals.grossWeight totals);
        ("grossWeight", Totals.grossWeight totals);
        ("pureWeight", Totals.pureWeight totals);
        ("purity", Totals.purity totals);
        ("goldBidValue", Totals.goldBidValue totals)]
       voucherNumber adminId).

(** [buildPurchaseReturnFixEntries], source line 868. *)
Definition buildPurchaseReturnFixEntries (totals : Totals.t)
    (metalTransactionId : ObjectId)
    (party : Party.t) (baseTransactionId voucherNumber : string)
    (adminId : ObjectId) (item : Item.t) : list (option Entry.t) :=
  let partyName := Party.partyName party in
  push_if (gt0 (Totals.pureWeight totals))
    (createRegistryEntry baseTransactionId metalTransactionId
       "PARTY-GOLD" "purchase-fixing"
       ("Party gold balance - Purchase return from " +:+ partyName)
       (Some (Party._id party)) true
       (Totals.pureWeight totals) zero
       [("debit", Totals.pureWeight totals);
        ("goldDebit", Totals.pureWeight totals);
        ("cashCredit", Totals.goldValue totals);
        ("grossWeight", Totals.grossWeight totals);
        ("pureWeight", Totals.pureWeight totals);
        ("purity", Totals.purity totals);
        ("goldBidValue", Totals.goldBidValue totals)]
       voucherNumber adminId)
  ++ push_if (gt0 (Totals.totalAmount totals))
    (createRegistryEntry baseTransactionId metalTransactionId
       "001" "PARTY_CASH_BALANCE"
       ("Party cash balance - Purchase return from " +:+ partyName)
       (Some (Party._id party)) false
       (Totals.totalAmount totals) zero
       [("debit", Totals.totalAmount totals);
        ("goldDebit", Totals.grossWeight totals);
        ("cashCredit", Totals.goldValue totals);
        ("grossWeight", Totals.grossWeight totals);
        ("pureWeight", Totals.pureWeight totals);
        ("purity", Totals.purity totals);
        ("goldBidValue", Totals.goldBidValue totals)]
       voucherNumber adminId)
  ++ push_if (gt0 (Totals.makingCharges totals))
    (createRegistryEntry baseTransactionId metalTransactionId
       "002" "MAKING_CHARGES"
       ("Party making charges - Purchase return from " +:+ partyName)
       (Some (Party._id party)) false
       (Totals.makingCharges totals) zero
       [("debit", Totals.makingCharges totals);
        ("goldDebit", Totals.grossWeight totals);
        ("cashCredit", Totals.goldValue totals);
        ("grossWeight", Totals.grossWeight totals);
        ("pureWeight", Totals.pureWeight totals);
        ("purity", Totals.purity totals);
        ("goldBidValue", Totals.goldBidValue totals)]
       voucherNumber adminId)
  ++ push_if (gt0 (Totals.otherChargesAmount totals))
    (createRegistryEntry baseTransactionId metalTransactionId
       "008" "OTHER_CHARGES"
       (Item.otherChargesDescription item
        +:+ " charges - Purchase from " +:+ partyName)
       (Some (Party._id party)) false
       (Totals.otherChargesAmount totals) (Totals.otherChargesAmount totals)
       [("goldDebit", Totals.grossWeight totals);
        ("cashDebit", Totals.goldValue totals);
        ("grossWeight", Totals.grossWeight totals);
        ("goldBidValue", Totals.goldBidValue totals)]
       voucherNumber adminId)
  ++ push_if (gt0 (Totals.vatAmount totals))
    (createRegistryEntry baseTransactionId metalTransactionId
       "009" "VAT_AMOUNT"
       ("Party Vat amount - Purchase from " +:+ partyName)
       (Some (Party._id party)) false
       (Totals.vatAmount totals) zero
       [("debit", Totals.vatAmount totals);
        ("goldDebit", Totals.grossWeight totals);
        ("cashDebit", Totals.goldValue totals);
        ("grossWeight", Totals.grossWeight totals);
        ("goldBidValue", Totals.goldBidValue totals)]
       voucherNumber adminId)
  ++ push_if (gt0 (Totals.premium totals))
    (createRegistryEntry baseTransactionId metalTransactionId
       "003" "PREMIUM"
       ("Party premium - Purchase return from " +:+ partyName)
       (Some (Party._id party)) false
       (Totals.premium totals) zero
       [("debit", Totals.premium totals);
        ("goldDebit", Totals.grossWeight totals);
        ("cashCredit", Totals.goldValue totals);
        ("grossWeight", Totals.grossWeight totals);
        ("pureWeight", Totals.pureWeight totals);
        ("purity", Totals.purity totals);
        ("goldBidValue", Totals.goldBidValue totals)]
       voucherNumber adminId)
  ++ push_if (gt0 (Totals.discount totals))
    (createRegistryEntry baseTransactionId metalTransactionId
       "007" "DISCOUNT"
       ("Party discount - Purchase return from " +:+ partyName)
       (Some (Party._id party)) false
       (Totals.discount totals) (Totals.discount totals)
       [("goldDebit", Totals.grossWeight totals);
        ("cashCredit", Totals.goldValue totals);
        ("grossWeight", Totals.grossWeight totals);
        ("pureWeight", Totals.pureWeight totals);
        ("purity", Totals.purity totals);
        ("goldBidValue", Totals.goldBidValue totals)]
       voucherNumber adminId)
  ++ push_if (gt0 (Totals.pureWeight totals))
    (createRegistryEntry baseTransactionId metalTransactionId
       "004" "GOLD"
       ("Gold inventory - Purchase return from " +:+ partyName)
       None true
       (Totals.pureWeight totals) (Totals.pureWeight totals)
       [("goldDebit", Totals.grossWeight totals);
        ("cashCredit", Totals.goldValue totals);
        ("grossWeight", Totals.grossWeight totals);
        ("pureWeight", Totals.pureWeight totals);
        ("purity", Totals.purity totals);
        ("goldBidValue", Totals.goldBidValue totals)]
       voucherNumber adminId)
  ++ push_if (gt0 (Totals.grossWeight totals))
    (createRegistryEntry baseTransactionId metalTransactionId
       "005" "GOLD_STOCK"
       ("Gold stock - Purchase return from " +:+ partyName)
       None true
       (Totals.grossWeight totals) (Totals.grossWeight totals)
       [("goldDebit", Totals.grossWeight totals);
        ("cashCredit", Totals.goldValue totals);
        ("grossWeight", Totals.grossWeight totals);
        ("pureWeight", Totals.pureWeight totals);
        ("purity", Totals.purity totals);
        ("goldBidValue", Totals.goldBidValue totals)]
       voucherNumber adminId).

(** [buildPurchaseReturnUnfixEntries], source line 1132. *)
Definition buildPurchaseReturnUnfixEntries (totals : Totals.t)
    (metalTransactionId : ObjectId)
    (party : Party.t) (baseTransactionId voucherNumber : string)
    (adminId : ObjectId) (item : Item.t) : result (list (option Entry.t)) :=
  let partyName := Party.partyName party in
  let before :=
  push_if (gt0 (Totals.pureWeight totals))
    (createRegistryEntry baseTransactionId metalTransactionId
       "001" "PARTY_GOLD_BALANCE"
       ("Party gold balance - Unfix purchase return from " +:+ partyName)
       (Some (Party._id party)) false
       (Totals.pureWeight totals) zero
       [("debit", Totals.pureWeight totals);
        ("grossWeight", Totals.grossWeight totals);
        ("pureWeight", Totals.pureWeight totals);
        ("purity", Totals.purity totals);
        ("goldBidValue", Totals.goldBidValue totals)]
       voucherNumber adminId)
  ++ push_if (gt0 (Totals.makingCharges totals))
    (createRegistryEntry baseTransactionId metalTransactionId
       "003" "MAKING_CHARGES"
       ("Party making charges - Unfix purchase return from " +:+ partyName)
       (Some (Party._id party)) false
       (Totals.makingCharges totals) zero
       [("debit", Totals.makingCharges totals);
        ("grossWeight", Totals.grossWeight totals);
        ("pureWeight", Totals.pureWeight totals);
        ("purity", Totals.purity totals);
        ("goldBidValue", Totals.goldBidValue totals)]
       voucherNumber adminId)
  ++ push_if (gt0 (Totals.otherChargesAmount totals))
    (createRegistryEntry baseTransactionId metalTransactionId
       "008" "OTHER_CHARGES"
       (Item.otherChargesDescription item
        +:+ " charges - Purchase from " +:+ partyName)
       (Some (Party._id party)) false
       (Totals.otherChargesAmount totals) zero
       [("goldDebit", Totals.grossWeight totals);
        ("cashDebit", Totals.goldValue totals);
        ("grossWeight", Totals.grossWeight totals);
        ("goldBidValue", Totals.goldBidValue totals)]
       voucherNumber adminId)
  ++ push_if (gt0 (Totals.vatAmount totals))
    (createRegistryEntry baseTransactionId metalTransactionId
       "009" "VAT_AMOUNT"
       ("Party Vat amount - Purchase from " +:+ partyName)
       (Some (Party._id party)) false
       (Totals.vatAmount totals) (Totals.vatAmount totals)
       [("goldDebit", Totals.grossWeight totals);
        ("cashDebit", Totals.goldValue totals);
        ("grossWeight", Totals.grossWeight totals);
        ("goldBidValue", Totals.goldBidValue totals)]
       voucherNumber adminId) in
  let after :=
  push_if (gt0 (Totals.discount totals))
    (createRegistryEntry baseTransactionId metalTransactionId
       "007" "DISCOUNT"
       ("Party discount - Unfix purchase return from " +:+ partyName)
       (Some (Party._id party)) false
       (Totals.discount totals) (Totals.discount totals)
       []
       voucherNumber adminId)
  ++ push_if (gt0 (Totals.pureWeight totals))
    (createRegistryEntry baseTransactionId metalTransactionId
       "005" "GOLD"
       ("Gold inventory - Unfix purchase return from " +:+ partyName)
       None true
       (Totals.pureWeight totals) (Totals.pureWeight totals)
       []
       voucherNumber adminId)
  ++ push_if (gt0 (Totals.grossWeight totals))
    (createRegistryEntry baseTransactionId metalTransactionId
       "006" "GOLD_STOCK"
       ("Gold stock - Unfix purchase return from " +:+ partyName)
       None true
       (Totals.grossWeight totals) (Totals.grossWeight totals)
       [("grossWeight", Totals.grossWeight totals);
        ("pureWeight", Totals.pureWeight totals);
        ("purity", Totals.purity totals);
        ("goldBidValue", Totals.goldBidValue totals)]
       voucherNumber adminId) in
  (* the options of the premium leg name [goldBidValue], an identifier
     that is bound nowhere: evaluating them throws *)
  if gt0 (Totals.premium totals) then Throw (ReferenceError "goldBidValue")
  else Ok (before ++ after).

(** [buildSaleFixEntries], source line 1334. *)
Definition buildSaleFixEntries (totals : Totals.t)
    (metalTransactionId : ObjectId)
    (party : Party.t) (baseTransactionId voucherNumber : string)
    (adminId : ObjectId) (item : Item.t) : list (option Entry.t) :=
  let partyName := Party.partyName party in
  push_if (gt0 (Totals.pureWeight totals))
    (createRegistryEntry baseTransactionId metalTransactionId
       "PARTY-GOLD" "sales-fixing"
       ("Party gold balance - Sale to " +:+ partyName)
       (Some (Party._id party)) true
       (Totals.pureWeight totals) zero
       [("debit", Totals.pureWeight totals);
        ("goldDebit", Totals.pureWeight totals);
        ("cashCredit", Totals.goldValue totals);
        ("grossWeight", Totals.grossWeight totals);
        ("goldBidValue", Totals.goldBidValue totals)]
       voucherNumber adminId)
  ++ push_if (gt0 (Totals.totalAmount totals))
    (createRegistryEntry baseTransactionId metalTransactionId
       "001" "PARTY_CASH_BALANCE"
       ("Party cash balance - Sale to " +:+ partyName)
       (Some (Party._id party)) false
       (Totals.totalAmount totals) zero
       [("debit", Totals.totalAmount totals);
        ("goldCredit", Totals.grossWeight totals);
        ("cashCredit", Totals.goldValue totals);
        ("grossWeight", Totals.grossWeight totals);
        ("goldBidValue", Totals.goldBidValue totals)]
       voucherNumber adminId)
  ++ push_if (gt0 (Totals.makingCharges totals))
    (createRegistryEntry baseTransactionId metalTransactionId
       "002" "MAKING_CHARGES"
       ("Party making charges - Sale to " +:+ partyName)
       (Some (Party._id party)) false
       (Totals.makingCharges totals) zero
       [("debit", Totals.makingCharges totals);
        ("goldCredit", Totals.grossWeight totals);
        ("cashCredit", Totals.goldValue totals);
        ("grossWeight", Totals.grossWeight totals);
        ("goldBidValue", Totals.goldBidValue totals)]
       voucherNumber adminId)
  ++ push_if (gt0 (Totals.otherChargesAmount totals))
    (createRegistryEntry baseTransactionId metalTransactionId
       "008" "OTHER_CHARGES"
       (Item.otherChargesDescription item
        +:+ " charges - sale to " +:+ partyName)
       (Some (Party._id party)) false
       (Totals.otherChargesAmount totals) zero
       [("debit", Totals.otherChargesAmount totals);
        ("goldDebit", Totals.grossWeight totals);
        ("cashDebit", Totals.goldValue totals);
        ("grossWeight", Totals.grossWeight totals);
        ("goldBidValue", Totals.goldBidValue totals)]
       voucherNumber adminId)
  ++ push_if (gt0 (Totals.vatAmount totals))
    (createRegistryEntry baseTransactionId metalTransactionId
       "009" "VAT_AMOUNT"
       ("Party Vat amount - sale to " +:+ partyName)
       (Some (Party._id party)) false
       (Totals.vatAmount totals) zero
       [("debit", Totals.vatAmount totals);
        ("goldDebit", Totals.grossWeight totals);
        ("cashDebit", Totals.goldValue totals);
        ("grossWeight", Totals.grossWeight totals);
        ("goldBidValue", Totals.goldBidValue totals)]
       voucherNumber adminId)
  ++ push_if (gt0 (Totals.premium totals))
    (createRegistryEntry baseTransactionId metalTransactionId
       "003" "PREMIUM"
       ("Party premium - Sale to " +:+ partyName)
       (Some (Party._id party)) false
       (Totals.premium totals) zero
       [("debit", Totals.premium totals);
        ("goldCredit", Totals.grossWeight totals);
        ("cashCredit", Totals.goldValue totals);
        ("grossWeight", Totals.grossWeight totals);
        ("goldBidValue", Totals.goldBidValue totals)]
       voucherNumber adminId)
  ++ push_if (gt0 (Totals.discount totals))
    (createRegistryEntry baseTransactionId metalTransactionId
       "007" "DISCOUNT"
       ("Party discount - Sale to " +:+ partyName)
       (Some (Party._id party)) false
       (Totals.discount totals) (Totals.discount totals)
       [("goldCredit", Totals.grossWeight totals);
        ("cashCredit", Totals.goldValue totals);
        ("grossWeight", Totals.grossWeight totals);
        ("goldBidValue", Totals.goldBidValue totals)]
       voucherNumber adminId)
  ++ push_if (gt0 (Totals.pureWeight totals))
    (createRegistryEntry baseTransactionId metalTransactionId
       "004" "GOLD"
       ("Gold inventory - Sale to " +:+ partyName)
       None true
       (Totals.pureWeight totals) (Totals.pureWeight totals)
       [("goldCredit", Totals.grossWeight totals);
        ("cashCredit", Totals.goldValue totals);
        ("grossWeight", Totals.grossWeight totals);
        ("goldBidValue", Totals.goldBidValue totals)]
       voucherNumber adminId)
  ++ push_if (gt0 (Totals.grossWeight totals))
    (createRegistryEntry baseTransactionId metalTransactionId
       "005" "GOLD_STOCK"
       ("Gold stock - Sale to " +:+ partyName)
       None true
       (Totals.grossWeight totals) (Totals.grossWeight totals)
       [("goldCredit", Totals.grossWeight totals);
        ("cashCredit", Totals.goldValue totals);
        ("grossWeight", Totals.grossWeight totals);
        ("pureWeight", Totals.pureWeight totals);
        ("purity", Totals.purity totals);
        ("goldBidValue", Totals.goldBidValue totals)]
       voucherNumber adminId).

(** [buildSaleUnfixEntries], source line 1583. *)
Definition buildSaleUnfixEntries (totals : Totals.t)
    (metalTransactionId : ObjectId)
    (party : Party.t) (baseTransactionId voucherNumber : string)
    (adminId : ObjectId) (item : Item.t) : list (option Entry.t) :=
  let partyName := Party.partyName party in
  push_if (gt0 (Totals.pureWeight totals))
    (createRegistryEntry baseTransactionId metalTransactionId
       "001" "PARTY_GOLD_BALANCE"
       ("Party gold balance - Unfix Sale return from " +:+ partyName)
       (Some (Party._id party)) false
       (Totals.pureWeight totals) zero
       [("debit", Totals.pureWeight totals);
        ("grossWeight", Totals.grossWeight totals);
        ("goldBidValue", Totals.goldBidValue totals)]
       voucherNumber adminId)
  ++ push_if (gt0 (Totals.makingCharges totals))
    (createRegistryEntry baseTransactionId metalTransactionId
       "003" "MAKING_CHARGES"
       ("Party making charges - Unfix Sale return from " +:+ partyName)
       (Some (Party._id party)) false
       (Totals.makingCharges totals) zero
       [("debit", Totals.makingCharges totals);
        ("grossWeight", Totals.grossWeight totals);
        ("goldBidValue", Totals.goldBidValue totals)]
       voucherNumber adminId)
  ++ push_if (gt0 (Totals.otherChargesAmount totals))
    (createRegistryEntry baseTransactionId metalTransactionId
       "008" "OTHER_CHARGES"
       (Item.otherChargesDescription item
        +:+ " charges - Unfix Sale return from " +:+ partyName)
       (Some (Party._id party)) false
       (Totals.otherChargesAmount totals) zero
       [("debit", Totals.otherChargesAmount totals);
        ("goldDebit", Totals.grossWeight totals);
        ("cashDebit", Totals.goldValue totals);
        ("grossWeight", Totals.grossWeight totals);
        ("goldBidValue", Totals.goldBidValue totals)]
       voucherNumber adminId)
  ++ push_if (gt0 (Totals.vatAmount totals))
    (createRegistryEntry baseTransactionId metalTransactionId
       "009" "VAT_AMOUNT"
       ("Party Vat amount - Unfix Sale return from " +:+ partyName)
       (Some (Party._id party)) false
       (Totals.vatAmount totals) zero
       [("debit", Totals.vatAmount totals);
        ("goldDebit", Totals.grossWeight totals);
        ("cashDebit", Totals.goldValue totals);
        ("grossWeight", Totals.grossWeight totals);
        ("goldBidValue", Totals.goldBidValue totals)]
       voucherNumber adminId)
  ++ push_if (gt0 (Totals.premium totals))
    (createRegistryEntry baseTransactionId metalTransactionId
       "004" "PREMIUM"
       ("Party premium - Unfix Sale return from " +:+ partyName)
       (Some (Party._id party)) false
       (Totals.premium totals) zero
       [("debit", Totals.premium totals);
        ("grossWeight", Totals.grossWeight totals);
        ("goldBidValue", Totals.goldBidValue totals)]
       voucherNumber adminId)
  ++ push_if (gt0 (Totals.discount totals))
    (createRegistryEntry baseTransactionId metalTransactionId
       "007" "DISCOUNT"
       ("Party discount - Unfix Sale return from " +:+ partyName)
       (Some (Party._id party)) false
       (Totals.discount totals) (Totals.discount totals)
       [("grossWeight", Totals.grossWeight totals);
        ("goldBidValue", Totals.goldBidValue totals)]
       voucherNumber adminId)
  ++ push_if (gt0 (Totals.pureWeight totals))
    (createRegistryEntry baseTransactionId metalTransactionId
       "005" "GOLD"
       ("Gold inventory - Unfix Sale return from " +:+ partyName)
       None true
       (Totals.pureWeight totals) (Totals.pureWeight totals)
       [("grossWeight", Totals.grossWeight totals);
        ("goldBidValue", Totals.goldBidValue totals)]
       voucherNumber adminId)
  ++ push_if (gt0 (Totals.grossWeight totals))
    (createRegistryEntry baseTransactionId metalTransactionId
       "006" "GOLD_STOCK"
       ("Gold stock - Unfix Sale return from " +:+ partyName)
       None true
       (Totals.grossWeight totals) (Totals.grossWeight totals)
       [("grossWeight", Totals.grossWeight totals);
        ("pureWeight", Totals.pureWeight totals);
        ("purity", Totals.purity totals);
        ("goldBidValue", Totals.goldBidValue totals)]
       voucherNumber adminId).

(** [buildSaleReturnUnfixEntries], source line 1793. *)
Definition buildSaleReturnUnfixEntries (totals : Totals.t)
    (metalTransactionId : ObjectId)
    (party : Party.t) (baseTransactionId voucherNumber : string)
    (adminId : ObjectId) (item : Item.t) : list (option Entry.t) :=
  let partyName := Party.partyName party in
  push_if (gt0 (Totals.pureWeight totals))
    (createRegistryEntry baseTransactionId metalTransactionId
       "001" "PARTY_GOLD_BALANCE"
       ("Party gold balance - Unfix sale return from " +:+ partyName)
       (Some (Party._id party)) false
       (Totals.pureWeight totals) (Totals.pureWeight totals)
       [("grossWeight", Totals.grossWeight totals);
        ("goldBidValue", Totals.goldBidValue totals)]
       voucherNumber adminId)
  ++ push_if (gt0 (Totals.makingCharges totals))
    (createRegistryEntry baseTransactionId metalTransactionId
       "003" "MAKING_CHARGES"
       ("Party making charges - Unfix sale return from " +:+ partyName)
       (Some (Party._id party)) false
       (Totals.makingCharges totals) (Totals.makingCharges totals)
       [("grossWeight", Totals.grossWeight totals);
        ("goldBidValue", Totals.goldBidValue totals)]
       voucherNumber adminId)
  ++ push_if (gt0 (Totals.otherChargesAmount totals))
    (createRegistryEntry baseTransactionId metalTransactionId
       "008" "OTHER_CHARGES"
       (Item.otherChargesDescription item
        +:+ " charges - Unfix Sale return from " +:+ partyName)
       (Some (Party._id party)) false
       (Totals.otherChargesAmount totals) (Totals.otherChargesAmount totals)
       [("goldDebit", Totals.grossWeight totals);
        ("cashDebit", Totals.goldValue totals);
        ("grossWeight", Totals.grossWeight totals);
        ("goldBidValue", Totals.goldBidValue totals)]
       voucherNumber adminId)
  ++ push_if (gt0 (Totals.vatAmount totals))
    (createRegistryEntry baseTransactionId metalTransactionId
       "009" "VAT_AMOUNT"
       ("Party Vat amount - Unfix Sale return from " +:+ partyName)
       (Some (Party._id party)) false
       (Totals.vatAmount totals) (Totals.vatAmount totals)
       [("goldDebit", Totals.grossWeight totals);
        ("cashDebit", Totals.goldValue totals);
        ("grossWeight", Totals.grossWeight totals);
        ("goldBidValue", Totals.goldBidValue totals)]
       voucherNumber adminId)
  ++ push_if (gt0 (Totals.premium totals))
    (createRegistryEntry baseTransactionId metalTransactionId
       "004" "PREMIUM"
       ("Party premium - Unfix sale return from " +:+ partyName)
       (Some (Party._id party)) false
       (Totals.premium totals) (Totals.premium totals)
       [("grossWeight", Totals.grossWeight totals);
        ("goldBidValue", Totals.goldBidValue totals)]
       voucherNumber adminId)
  ++ push_if (gt0 (Totals.discount totals))
    (createRegistryEntry baseTransactionId metalTransactionId
       "007" "DISCOUNT"
       ("Party discount - Unfix sale return from " +:+ partyName)
       (Some (Party._id party)) false
       (Totals.discount totals) zero
       [("debit", Totals.discount totals);
        ("grossWeight", Totals.grossWeight totals);
        ("goldBidValue", Totals.goldBidValue totals)]
       voucherNumber adminId)
  ++ push_if (gt0 (Totals.pureWeight totals))
    (createRegistryEntry baseTransactionId metalTransactionId
       "005" "GOLD"
       ("Gold inventory - Unfix sale return from " +:+ partyName)
       None true
       (Totals.pureWeight totals) zero
       [("debit", Totals.pureWeight totals);
        ("grossWeight", Totals.grossWeight totals);
        ("goldBidValue", Totals.goldBidValue totals)]
       voucherNumber adminId)
  ++ push_if (gt0 (Totals.grossWeight totals))
    (createRegistryEntry baseTransactionId metalTransactionId
       "006" "GOLD_STOCK"
       ("Gold stock - Unfix sale return from " +:+ partyName)
       None true
       (Totals.grossWeight totals) zero
       [("debit", Totals.grossWeight totals);
        ("grossWeight", Totals.grossWeight totals);
        ("pureWeight", Totals.pureWeight totals);
        ("purity", Totals.purity totals);
        ("goldBidValue", Totals.goldBidValue totals)]
       voucherNumber adminId).

(** [buildSaleReturnFixEntries], source line 1985. *)
Definition buildSaleReturnFixEntries (totals : Totals.t)
    (metalTransactionId : ObjectId)
    (party : Party.t) (baseTransactionId voucherNumber : string)
    (adminId : ObjectId) (item : Item.t) : list (option Entry.t) :=
  let partyName := Party.partyName party in
  push_if (gt0 (Totals.pureWeight totals))
    (createRegistryEntry baseTransactionId metalTransactionId
       "PARTY-GOLD" "sale-fixing"
       ("Party gold balance - Sale return from " +:+ partyName)
       (Some (Party._id party)) true
       (Totals.pureWeight totals) (Totals.pureWeight totals)
       [("debit", zero);
        ("goldCredit", Totals.pureWeight totals);
        ("cashDebit", Totals.goldValue totals);
        ("grossWeight", Totals.grossWeight totals);
        ("goldBidValue", Totals.goldBidValue totals)]
       voucherNumber adminId)
  ++ push_if (gt0 (Totals.totalAmount totals))
    (createRegistryEntry baseTransactionId metalTransactionId
       "001" "PARTY_CASH_BALANCE"
       ("Party cash balance - Sale return from " +:+ partyName)
       (Some (Party._id party)) false
       (Totals.totalAmount totals) (Totals.totalAmount totals)
       [("goldCredit", Totals.grossWeight totals);
        ("cashDebit", Totals.goldValue totals);
        ("grossWeight", Totals.grossWeight totals);
        ("goldBidValue", Totals.goldBidValue totals)]
       voucherNumber adminId)
  ++ push_if (gt0 (Totals.makingCharges totals))
    (createRegistryEntry baseTransactionId metalTransactionId
       "002" "MAKING_CHARGES"
       ("Party making charges - Sale return from " +:+ partyName)
       (Some (Party._id party)) false
       (Totals.makingCharges totals) (Totals.makingCharges totals)
       [("goldCredit", Totals.grossWeight totals);
        ("cashDebit", Totals.goldValue totals);
        ("grossWeight", Totals.grossWeight totals);
        ("goldBidValue", Totals.goldBidValue totals)]
       voucherNumber adminId)
  ++ push_if (gt0 (Totals.otherChargesAmount totals))
    (createRegistryEntry baseTransactionId metalTransactionId
       "008" "OTHER_CHARGES"
       (Item.otherChargesDescription item
        +:+ " charges -  Sale return from " +:+ partyName)
       (Some (Party._id party)) false
       (Totals.otherChargesAmount totals) (Totals.otherChargesAmount totals)
       [("goldDebit", Totals.grossWeight totals);
        ("cashDebit", Totals.goldValue totals);
        ("grossWeight", Totals.grossWeight totals);
        ("goldBidValue", Totals.goldBidValue totals)]
       voucherNumber adminId)
  ++ push_if (gt0 (Totals.vatAmount totals))
    (createRegistryEntry baseTransactionId metalTransactionId
       "009" "VAT_AMOUNT"
       ("Party Vat amount -  Sale return from " +:+ partyName)
       (Some (Party._id party)) false
       (Totals.vatAmount totals) (Totals.vatAmount totals)
       [("goldDebit", Totals.grossWeight totals);
        ("cashDebit", Totals.goldValue totals);
        ("grossWeight", Totals.grossWeight totals);
        ("goldBidValue", Totals.goldBidValue totals)]
       voucherNumber adminId)
  ++ push_if (gt0 (Totals.premium totals))
    (createRegistryEntry baseTransactionId metalTransactionId
       "003" "PREMIUM"
       ("Party premium - Sale return from " +:+ partyName)
       (Some (Party._id party)) false
       (Totals.premium totals) (Totals.premium totals)
       [("goldCredit", Totals.grossWeight totals);
        ("cashDebit", Totals.goldValue totals);
        ("grossWeight", Totals.grossWeight totals);
        ("goldBidValue", Totals.goldBidValue totals)]
       voucherNumber adminId)
  ++ push_if (gt0 (Totals.discount totals))
    (createRegistryEntry baseTransactionId metalTransactionId
       "007" "DISCOUNT"
       ("Party discount - Sale return from " +:+ partyName)
       (Some (Party._id party)) false
       (Totals.discount totals) zero
       [("debit", Totals.discount totals);
        ("goldCredit", Totals.grossWeight totals);
        ("cashDebit", Totals.goldValue totals);
        ("grossWeight", Totals.grossWeight totals);
        ("goldBidValue", Totals.goldBidValue totals)]
       voucherNumber adminId)
  ++ push_if (gt0 (Totals.pureWeight totals))
    (createRegistryEntry baseTransactionId metalTransactionId
       "004" "GOLD"
       ("Gold inventory - Sale return from " +:+ partyName)
       None true
       (Totals.pureWeight totals) zero
       [("debit", Totals.pureWeight totals);
        ("goldCredit", Totals.grossWeight totals);
        ("cashDebit", Totals.goldValue totals);
        ("purity", Totals.purity totals);
        ("grossWeight", Totals.grossWeight totals);
        ("goldBidValue", Totals.goldBidValue totals)]
       voucherNumber adminId)
  ++ push_if (gt0 (Totals.grossWeight totals))
    (createRegistryEntry baseTransactionId metalTransactionId
       "005" "GOLD_STOCK"
       ("Gold stock - Sale return from " +:+ partyName)
       None true
       (Totals.grossWeight totals) zero
       [("debit", Totals.grossWeight totals);
        ("goldCredit", Totals.grossWeight totals);
        ("cashDebit", Totals.goldValue totals);
        ("grossWeight", Totals.grossWeight totals);
        ("pureWeight", Totals.pureWeight totals);
        ("purity", Totals.purity totals);
        ("goldBidValue", Totals.goldBidValue totals)]
       voucherNumber adminId).

(** [buildPurchaseEntries], [buildSaleEntries],
    [buildPurchaseReturnEntries], [buildSaleReturnEntries]: the choice
    [mode === "fix" ? ... : ...]. *)
Definition buildPurchaseEntries (mode : string) (metalTransactionId : ObjectId)
    (totals : Totals.t) (party : Party.t)
    (baseTransactionId voucherNumber : string) (adminId : ObjectId)
    (item : Item.t) : result (list (option Entry.t)) :=
  if String.eqb mode "fix"
  then Ok (buildPurchaseFixEntries totals metalTransactionId party
             baseTransactionId voucherNumber adminId item)
  else Ok (buildPurchaseUnfixEntries totals metalTransactionId party
             baseTransactionId voucherNumber adminId item).

Definition buildSaleEntries (mode : string) (metalTransactionId : ObjectId)
    (totals : Totals.t) (party : Party.t)
    (baseTransactionId voucherNumber : string) (adminId : ObjectId)
    (item : Item.t) : result (list (option Entry.t)) :=
  if String.eqb mode "fix"
  then Ok (buildSaleFixEntries totals metalTransactionId party
             baseTransactionId voucherNumber adminId item)
  else Ok (buildSaleUnfixEntries totals metalTransactionId party
             baseTransactionId voucherNumber adminId item).

Definition buildPurchaseReturnEntries (mode : string)
    (metalTransactionId : ObjectId) (totals : Totals.t) (party : Party.t)
    (baseTransactionId voucherNumber : string) (adminId : ObjectId)
    (item : Item.t) : result (list (option Entry.t)) :=
  if String.eqb mode "fix"
  then Ok (buildPurchaseReturnFixEntries totals metalTransactionId party
             baseTransactionId voucherNumber adminId item)
  else buildPurchaseReturnUnfixEntries totals metalTransactionId party
         baseTransactionId voucherNumber adminId item.

Definition buildSaleReturnEntries (mode : string)
    (metalTransactionId : ObjectId) (totals : Totals.t) (party : Party.t)
    (baseTransactionId voucherNumber : string) (adminId : ObjectId)
    (item : Item.t) : result (list (option Entry.t)) :=
  if String.eqb mode "fix"
  then Ok (buildSaleReturnFixEntries totals metalTransactionId party
             baseTransactionId voucherNumber adminId item)
  else Ok (buildSaleReturnUnfixEntries totals metalTransactionId party
             baseTransactionId voucherNumber adminId item).

(** The [switch (transactionType)] of [buildRegistryEntries]: what one
    stock item pushes; a kind outside the four cases pushes nothing. *)
Definition entriesOfItem (transactionType mode : string)
    (metalTransactionId : ObjectId) (totals : Totals.t) (party : Party.t)
    (baseTransactionId voucherNumber : string) (adminId : ObjectId)
    (item : Item.t) : result (list (option Entry.t)) :=
  if String.eqb transactionType "purchase" then
    buildPurchaseEntries mode metalTransactionId totals party
      baseTransactionId voucherNumber adminId item
  else if String.eqb transactionType "sale" then
    buildSaleEntries mode metalTransactionId totals party
      baseTransactionId voucherNumber adminId item
  else if String.eqb transactionType "purchaseReturn" then
    buildPurchaseReturnEntries mode metalTransactionId totals party
      baseTransactionId voucherNumber adminId item
  else if String.eqb transactionType "saleReturn" then
    buildSaleReturnEntries mode metalTransactionId totals party
      baseTransactionId voucherNumber adminId item
  else Ok [].

(** [generateTransactionId()]; the year of the clock and the draw of
    [Math.random()] are its inputs. *)
Definition generateTransactionId (currentYear : nat) (random : Qc) : string :=
  "TXN-" +:+ pretty currentYear +:+ "-" +:+ pretty (random3 random).

(** The loop over the stock items: each item is totalled on its own and
    its postings are appended; an exception leaves the loop. *)
Fixpoint pushItems (transactionType mode : string)
    (metalTransactionId : ObjectId) (totalAmountAED : option jsnum)
    (party : Party.t) (baseTransactionId voucherNumber : string)
    (adminId : ObjectId) (stockItems : list Item.t)
    (entries : list (option Entry.t)) : result (list (option Entry.t)) :=
  match stockItems with
  | [] => Ok entries
  | item :: rest =>
      let totals := calculateTotals [item] totalAmountAED in
      match entriesOfItem transactionType mode metalTransactionId totals
              party baseTransactionId voucherNumber adminId item with
      | Ok pushed =>
          pushItems transactionType mode metalTransactionId totalAmountAED
            party baseTransactionId voucherNumber adminId rest
            (entries ++ pushed)
      | Throw e => Throw e
      end
  end.

(** [entries.filter(Boolean)]. *)
Definition filterBoolean (entries : list (option Entry.t)) : list Entry.t :=
  omap id entries.

(** [buildRegistryEntries(metalTransaction, party, adminId)]. *)
Definition buildRegistryEntries (currentYear : nat) (random : Qc)
    (metalTransaction : MetalTransaction.t) (party : Party.t)
    (adminId : ObjectId) : result (list Entry.t) :=
  let baseTransactionId := generateTransactionId currentYear random in
  let mode := getTransactionMode (MetalTransaction.fixed metalTransaction)
                (MetalTransaction.unfix metalTransaction) in
  match pushItems (MetalTransaction.transactionType metalTransaction) mode
          (MetalTransaction._id metalTransaction)
          (MetalTransaction.totalAmountAED metalTransaction) party
          baseTransactionId
          (MetalTransaction.voucherNumber metalTransaction) adminId
          (MetalTransaction.stockItems metalTransaction) [] with
  | Ok entries => Ok (filterBoolean entries)
  | Throw e => Throw e
  end.

(** *** Balance updates and delete *)

(** The [$inc] part that [updateTradeDebtorsBalances] builds from the
    balance changes; [balances.summary] and
    [balances.lastTransactionDate] are not paths of the Account schema. *)
Definition tradeDebtorsOps (isReversal : bool) (balanceChanges : Changes.t)
    : UpdateOps.t :=
  let gold := ne0 (Changes.goldBalance balanceChanges)
              || ne0 (Changes.goldValue balanceChanges) in
  let net := netCashChange balanceChanges in
  {| UpdateOps.inc_totalGrams :=
       if gold
       then Some (if isReversal
                  then neg (Changes.goldBalance balanceChanges)
                  else Changes.goldBalance balanceChanges)
       else None;
     UpdateOps.inc_totalValue :=
       if gold
       then Some (if isReversal
                  then neg (Changes.goldValue balanceChanges)
                  else Changes.goldValue balanceChanges)
       else None;
     UpdateOps.inc_cashAmount :=
       if ne0 net
       then Some (if isReversal then neg net else net)
       else None |}.

(** The balance changes of a transaction, as every caller computes
    them. *)
Definition balanceChangesOf (transaction : MetalTransaction.t) : Changes.t :=
  let totals := calculateTotals (MetalTransaction.stockItems transaction)
                  (MetalTransaction.totalAmountAED transaction) in
  let mode := getTransactionMode (MetalTransaction.fixed transaction)
                (MetalTransaction.unfix transaction) in
  calculateBalanceChanges (MetalTransaction.transactionType transaction)
    mode totals.

Section Lifecycle.

Variable faulty : Store.call -> bool.

(** [updateAccountBalances(party, metalTransaction, session)]; the update
    always has keys, [$set] holds [balances.lastBalanceUpdate]. *)
Definition updateAccountBalances (party : Party.t)
    (metalTransaction : MetalTransaction.t) (session : bool)
    : Store.M unit :=
  let updateOps := buildUpdateOperations (balanceChangesOf metalTransaction) in
  Store.await faulty Store.Account_findByIdAndUpdate
    (Store.store session (Store.AccountUpdate (Party._id party) updateOps)).

(** [createRegistryEntries(metalTransaction, party, adminId, session)];
    the result is the list of inserted entries. *)
Definition createRegistryEntries (currentYear : nat) (random : Qc)
    (metalTransaction : MetalTransaction.t) (party : Party.t)
    (adminId : ObjectId) (session : bool) : Store.M (list Entry.t) :=
  match buildRegistryEntries currentYear random metalTransaction party
          adminId with
  | Throw e => Store.throw e
  | Ok entries =>
      if bool_decide (length entries = 0%nat) then Store.ret []
      else
        Store.await faulty Store.Registry_insertMany
          (Store.store session
             (Store.RegistryInsertMany (map Registry.ofEntry entries))) ;;;
        Store.ret entries
  end.

(** [updateTradeDebtorsBalances(partyId, transaction, session, isUpdate,
    isReversal)].  The closing [party.save()] writes nothing: the loaded
    document was not modified. *)
Definition updateTradeDebtorsBalances (partyId : ObjectId)
    (transaction : MetalTransaction.t) (session isUpdate isReversal : bool)
    : Store.M unit :=
  party <- Store.await faulty Store.Account_findById
             (Store.read session (fun s => Store.accounts s !! partyId)) ;;
  match party with
  | None => Store.throw (AppError "Party not found" 404 "PARTY_NOT_FOUND")
  | Some _ =>
      let updateOps :=
        tradeDebtorsOps isReversal (balanceChangesOf transaction) in
      Store.await faulty Store.Account_findByIdAndUpdate
        (Store.store session (Store.AccountUpdate partyId updateOps)) ;;;
      Store.await faulty Store.Account_save (Store.ret tt)
  end.

(** [deleteRegistryEntry(metalTransaction, session = null)]. *)
Definition deleteRegistryEntry (metalTransaction : MetalTransaction.t)
    (session : bool) : Store.M unit :=
  Store.try_catch
    (Store.await faulty Store.Registry_deleteMany
       (Store.store session
          (Store.RegistryDeleteByMetalTransaction
             (MetalTransaction._id metalTransaction))))
    (fun error =>
       Store.throw
         (AppError ("Failed to delete registry entries: "
                    +:+ message_of error)
            500 "DELETE_REGISTRY_FAILED")).

(** [deleteMetalTransaction(transactionId, adminId)]. *)
Definition deleteMetalTransaction (transactionId adminId : ObjectId)
    : Store.M string :=
  Store.try_catch
    (Store.startTransaction ;;;
     transaction <- Store.await faulty Store.MetalTransaction_findById
                      (Store.read true
                         (fun s => Store.metalTransactions s
                                   !! transactionId)) ;;
     match transaction with
     | None =>
         Store.throw
           (AppError "Metal transaction not found" 404
              "TRANSACTION_NOT_FOUND")
     | Some transaction =>
         if negb (MetalTransaction.isActive transaction)
         then Store.throw
                (AppError "Metal transaction not found" 404
                   "TRANSACTION_NOT_FOUND")
         else
           (* the session is not passed on *)
           deleteRegistryEntry transaction false ;;;
           party <- Store.await faulty Store.Account_findById
                      (Store.read true
                         (fun s => Store.accounts s
                                   !! MetalTransaction.partyCode
                                        transaction)) ;;
           match party with
           | None =>
               (* [party._id] on [null] *)
               Store.throw
                 (TypeError "Cannot read properties of null")
           | Some party =>
               updateTradeDebtorsBalances (Account._id party) transaction
                 true false true ;;;
               Store.await faulty Store.MetalTransaction_deleteOne
                 (Store.store true
                    (Store.MetalTransactionDeleteOne transactionId)) ;;;
               Store.commitTransaction faulty ;;;
               Store.ret "Metal transaction deleted successfully"
           end
     end)
    (fun error => Store.abortTransaction ;;; Store.throw error).

End Lifecycle.

(** *** Validation of a request *)

Definition truthyString (s : option string) : bool :=
  match s with
  | Some s => negb (String.eqb s "")
  | None => false
  end.

Definition truthyReference (r : reference) : bool :=
  match r with
  | NoReference => false
  | _ => true
  end.

(** [mongoose.isValidObjectId(value)]. *)
Definition isValidObjectId (r : reference) : bool :=
  match r with
  | ValidReference _ => true
  | _ => false
  end.

Definition truthyStockItems (v : stockItemsValue) : bool :=
  match v with
  | NoStockItems => false
  | _ => true
  end.

(** [required.filter((field) => !transactionData[field])]. *)
Definition missingFields (transactionData : TransactionData.t)
    : list string :=
  map fst
    (List.filter (fun '(_, isTruthy) => negb isTruthy)
       [("partyCode",
         truthyReference (TransactionData.partyCode transactionData));
        ("transactionType",
         truthyString (TransactionData.transactionType transactionData));
        ("stockItems",
         truthyStockItems (TransactionData.stockItems transactionData));
        ("voucherDate",
         truthyString (TransactionData.voucherDate transactionData));
        ("voucherNumber",
         truthyString (TransactionData.voucherNumber transactionData))]).

(** [a > 1]. *)
Definition gt1 (a : jsnum) : bool :=
  match a with
  | Num x => bool_decide (1 < x)
  | NaN => false
  end.

(** [typeof x !== "number" || x < 0]. *)
Definition notNumberOrNegative (x : option jsnum) : bool :=
  match x with
  | Some v => lt0 v
  | None => true
  end.

(** [typeof x !== "number" || x <= 0 || x > 1]. *)
Definition notFraction (x : option jsnum) : bool :=
  match x with
  | Some v => le0 v || gt1 v
  | None => true
  end.

(** The [forEach] over the object id fields: the first field whose value
    is truthy and no valid ObjectId throws. *)
Fixpoint validateObjectIds (fields : list (string * reference))
    : result unit :=
  match fields with
  | [] => Ok tt
  | (field, value) :: rest =>
      if truthyReference value && negb (isValidObjectId value)
      then Throw (AppError ("Invalid " +:+ field +:+ " format") 400
                    ("INVALID_" +:+ toUpperCase field))
      else validateObjectIds rest
  end.

(** The [forEach] over the stock items, from a given index on. *)
Fixpoint validateStockItems (items : list RawItem.t) (index : nat)
    : result unit :=
  match items with
  | [] => Ok tt
  | item :: rest =>
      if negb (truthyReference (RawItem.stockCode item))
         || negb (isValidObjectId (RawItem.stockCode item))
      then Throw (AppError ("Invalid stockCode for stock item at index "
                            +:+ pretty index)
                    400 "INVALID_STOCK_CODE")
      else if truthyReference (RawItem.metalRate item)
              && negb (isValidObjectId (RawItem.metalRate item))
      then Throw (AppError ("Invalid metalRate for stock item at index "
                            +:+ pretty index)
                    400 "INVALID_METAL_RATE")
      else if notNumberOrNegative (RawItem.pureWeight item)
      then Throw (AppError ("Invalid pureWeight for stock item at index "
                            +:+ pretty index)
                    400 "INVALID_PURE_WEIGHT")
      else if notNumberOrNegative (RawItem.grossWeight item)
      then Throw (AppError ("Invalid grossWeight for stock item at index "
                            +:+ pretty index)
                    400 "INVALID_GROSS_WEIGHT")
      else if notFraction (RawItem.purity item)
      then Throw (AppError ("Invalid purity for stock item at index "
                            +:+ pretty index)
                    400 "INVALID_PURITY")
      else validateStockItems rest (S index)
  end.

(** [validateTransactionData(transactionData, adminId)]. *)
Definition validateTransactionData (transactionData : TransactionData.t)
    (adminId : reference) : result bool :=
  let missing := missingFields transactionData in
  if negb (bool_decide (length missing = 0%nat))
  then Throw (AppError ("Missing required fields: "
                        +:+ String.concat ", " missing)
                400 "MISSING_REQUIRED_FIELDS")
  else if negb (bool_decide
                  (In (default "" (TransactionData.transactionType
                                     transactionData))
                      ["purchase"; "sale"; "purchaseReturn"; "saleReturn"]))
  then Throw (AppError
                "Transaction type must be 'purchase', 'sale', 'purchaseReturn', or 'saleReturn'"
                400 "INVALID_TRANSACTION_TYPE")
  else
    match TransactionData.stockItems transactionData with
    | StockItemsArray (item :: rest) =>
        match validateObjectIds
                [("partyCode", TransactionData.partyCode transactionData);
                 ("partyCurrency",
                  TransactionData.partyCurrency transactionData);
                 ("itemCurrency",
                  TransactionData.itemCurrency transactionData);
                 ("baseCurrency",
                  TransactionData.baseCurrency transactionData);
                 ("adminId", adminId)] with
        | Throw e => Throw e
        | Ok _ =>
            match validateStockItems (item :: rest) 0 with
            | Throw e => Throw e
            | Ok _ => Ok true
            end
        end
    | _ =>
        Throw (AppError "Stock items must be a non-empty array" 400
                 "INVALID_STOCK_ITEMS")
    end.

(** *** Premium and discount breakdown *)

(** The callback of the reduction in [getPremiumDiscountBreakdown]. *)
Definition breakdownStep (acc : Breakdown.t) (line : StockLine.t)
    : Breakdown.t :=
  let item := StockLine.item line in
  let premiumDiscountAmount :=
    or_else (Item.premiumTotal item)
      (or_else (Item.premiumAmount item) zero) in
  if gt0 premiumDiscountAmount then
    {| Breakdown.totalPremium :=
         add (Breakdown.totalPremium acc) premiumDiscountAmount;
       Breakdown.totalDiscount := Breakdown.totalDiscount acc;
       Breakdown.premiumItems :=
         Breakdown.premiumItems acc
         ++ [Breakdown.mkEntry (StockLine.stockCode line)
               premiumDiscountAmount "premium"];
       Breakdown.discountItems := Breakdown.discountItems acc |}
  else if lt0 premiumDiscountAmount then
    let discountAmount := abs premiumDiscountAmount in
    {| Breakdown.totalPremium := Breakdown.totalPremium acc;
       Breakdown.totalDiscount :=
         add (Breakdown.totalDiscount acc) discountAmount;
       Breakdown.premiumItems := Breakdown.premiumItems acc;
       Breakdown.discountItems :=
         Breakdown.discountItems acc
         ++ [Breakdown.mkEntry (StockLine.stockCode line)
               discountAmount "discount"] |}
  else acc.

(** [getPremiumDiscountBreakdown(stockItems)]. *)
Definition getPremiumDiscountBreakdown (stockItems : list StockLine.t)
    : Breakdown.t :=
  fold_left breakdownStep stockItems
    {| Breakdown.totalPremium := zero;
       Breakdown.totalDiscount := zero;
       Breakdown.premiumItems := [];
       Breakdown.discountItems := [] |}.

(** *** Allow-list of an update *)

Definition allowedFields : list string :=
  ["partyCode"; "stockItems"; "totalAmountSession"; "voucherDate";
   "voucherNumber"; "transactionType"; "fixed"; "unfix"].

(** [applyTransactionUpdates(transaction, updateData)], over documents
    read as maps from property names to values; [updateData] is given as
    [Object.entries] lists it. *)
Definition applyTransactionUpdates {V : Type}
    (transaction : gmap string V) (updateData : list (string * V))
    : gmap string V :=
  fold_left
    (fun t '(key, value) =>
       if bool_decide (In key allowedFields) then <[key := value]> t else t)
    updateData transaction.

(** *** Validation of an update *)

(** [!Array.isArray(x) || x.length === 0]. *)
Definition notNonEmptyArray (v : stockItemsValue) : bool :=
  match v with
  | StockItemsArray items => bool_decide (length items = 0%nat)
  | _ => true
  end.

(** [validateUpdateInputs(transactionId, updateData, adminId)]. *)
Definition validateUpdateInputs (transactionId : reference)
    (updateData : updateDataValue) (adminId : reference) : result unit :=
  if negb (isValidObjectId transactionId)
  then Throw (AppError "Invalid transaction ID" 400
                "INVALID_TRANSACTION_ID")
  else if negb (isValidObjectId adminId)
  then Throw (AppError "Invalid admin ID" 400 "INVALID_ADMIN_ID")
  else
    match updateData with
    | NoUpdateData =>
        Throw (AppError "Update data must be a valid object" 400
                 "INVALID_UPDATE_DATA")
    | UpdateDataObject object =>
        if bool_decide (length (UpdateData.keys object) = 0%nat)
        then Throw (AppError "No update data provided" 400 "NO_UPDATE_DATA")
        else if truthyReference (UpdateData.partyCode object)
                && negb (isValidObjectId (UpdateData.partyCode object))
        then Throw (AppError "Invalid party code" 400 "INVALID_PARTY_CODE")
        else if truthyStockItems (UpdateData.stockItems object)
                && notNonEmptyArray (UpdateData.stockItems object)
        then Throw (AppError "Stock items must be a non-empty array" 400
                      "INVALID_STOCK_ITEMS")
        else Ok tt
    end.

(** *** Reversal postings and reversal of balances *)

(** The callback of [originalEntries.map] in
    [createReversalRegistryEntries]: debit and credit are swapped. *)
Definition reversalOf (entry : Entry.t) : Entry.t :=
  {| Entry.transactionId := Entry.transactionId entry +:+ "-REV";
     Entry.metalTransactionId := Entry.metalTransactionId entry;
     Entry.type := Entry.type entry;
     Entry.description := "REVERSAL - " +:+ Entry.description entry;
     Entry.party := Entry.party entry;
     Entry.isBullion := Entry.isBullion entry;
     Entry.value := Entry.value entry;
     Entry.credit := Entry.debit entry;
     Entry.cashDebit := Entry.cashDebit entry;
     Entry.goldCredit := Entry.goldCredit entry;
     Entry.cashCredit := Entry.cashCredit entry;
     Entry.goldDebit := Entry.goldDebit entry;
     Entry.debit := Entry.credit entry;
     Entry.goldBidValue := Entry.goldBidValue entry;
     Entry.reference := "REV-" +:+ Entry.reference entry;
     Entry.createdBy := Entry.createdBy entry;
     Entry.grossWeight := Entry.grossWeight entry;
     Entry.pureWeight := Entry.pureWeight entry;
     Entry.purity := Entry.purity entry |}.

(** The balances that [updateReverseAccountBalances] writes on the loaded
    party before it saves it. *)
Definition reversedBalances (party : Account.t)
    (originalData : MetalTransaction.t) : Account.t :=
  let balanceChanges := balanceChangesOf originalData in
  {| Account._id := Account._id party;
     Account.isActive := Account.isActive party;
     Account.customerName := Account.customerName party;
     Account.accountCode := Account.accountCode party;
     Account.totalGrams :=
       sub (Account.totalGrams party) (Changes.goldBalance balanceChanges);
     Account.totalValue :=
       sub (Account.totalValue party) (Changes.goldValue balanceChanges);
     Account.cashAmount :=
       sub (Account.cashAmount party)
         (add (add (Changes.cashBalance balanceChanges)
                   (Changes.premiumBalance balanceChanges))
              (Changes.discountBalance balanceChanges)) |}.

Section Reversal.

Variable faulty : Store.call -> bool.

(** [createReversalRegistryEntries(transaction, party, adminId, session)];
    the builder is called anew and draws its own base identifier. *)
Definition createReversalRegistryEntries (currentYear : nat) (random : Qc)
    (transaction : MetalTransaction.t) (party : Party.t)
    (adminId : ObjectId) (session : bool) : Store.M unit :=
  match buildRegistryEntries currentYear random transaction party
          adminId with
  | Throw e => Store.throw e
  | Ok originalEntries =>
      let reversalEntries := map reversalOf originalEntries in
      if bool_decide (0 < length reversalEntries)%nat
      then Store.await faulty Store.Registry_insertMany
             (Store.store session
                (Store.RegistryInsertMany
                   (map Registry.ofEntry reversalEntries)))
      else Store.ret tt
  end.

(** [updateReverseAccountBalances(party, originalData, session)]. *)
Definition updateReverseAccountBalances (party : Account.t)
    (originalData : MetalTransaction.t) (session : bool) : Store.M unit :=
  Store.try_catch
    (Store.await faulty Store.Account_save
       (Store.store session
          (Store.AccountSave (reversedBalances party originalData))))
    (fun error =>
       Store.throw
         (AppError ("Failed to reverse balances: " +:+ message_of error)
            500 "REVERSE_BALANCES_FAILED")).

End Reversal.

End MetalTransactionService.

(* ================================================================== *)
(** ** TransactionFixingService: cancel and delete *)
(* ================================================================== *)

Module TransactionFixingService.

(** The reverse changes of gold grams and cash that [deleteTransaction]
    accumulates over the orders. *)
Definition reverseChanges (type : string)
    (orders : list TransactionFixing.order) : jsnum * jsnum :=
  fold_left
    (fun '(totalGoldGramsChange, totalCashBalanceChange) order =>
       let totalValue :=
         mul (TransactionFixing.price order)
             (TransactionFixing.quantityGm order) in
       if String.eqb (toUpperCase type) "PURCHASE" then
         (add totalGoldGramsChange (TransactionFixing.quantityGm order),
          sub totalCashBalanceChange totalValue)
       else if String.eqb (toUpperCase type) "SELL" then
         (sub totalGoldGramsChange (TransactionFixing.quantityGm order),
          add totalCashBalanceChange totalValue)
       else (totalGoldGramsChange, totalCashBalanceChange))
    orders (zero, zero).

(** The changes of gold grams and cash that the order loop of
    [createTransaction] accumulates. *)
Definition creationChanges (type : string)
    (orders : list TransactionFixing.order) : jsnum * jsnum :=
  fold_left
    (fun '(totalGoldGramsChange, totalCashBalanceChange) order =>
       let totalValue :=
         mul (TransactionFixing.price order)
             (TransactionFixing.quantityGm order) in
       if String.eqb (toUpperCase type) "PURCHASE" then
         (sub totalGoldGramsChange (TransactionFixing.quantityGm order),
          add totalCashBalanceChange totalValue)
       else if String.eqb (toUpperCase type) "SELL" then
         (add totalGoldGramsChange (TransactionFixing.quantityGm order),
          sub totalCashBalanceChange totalValue)
       else (totalGoldGramsChange, totalCashBalanceChange))
    orders (zero, zero).

(** The account as [createTransaction] saves it after the order loop. *)
Definition createdAccount (account : Account.t) (type : string)
    (orders : list TransactionFixing.order) : Account.t :=
  let '(totalGoldGramsChange, totalCashBalanceChange) :=
    creationChanges type orders in
  let currentGoldGrams := or_else (Some (Account.totalGrams account)) zero in
  let currentCashBalance :=
    or_else (Some (Account.cashAmount account)) zero in
  {| Account._id := Account._id account;
     Account.isActive := Account.isActive account;
     Account.customerName := Account.customerName account;
     Account.accountCode := Account.accountCode account;
     Account.totalGrams := add currentGoldGrams totalGoldGramsChange;
     Account.totalValue := zero;
     Account.cashAmount := add currentCashBalance totalCashBalanceChange |}.

Section Service.

Variable faulty : Store.call -> bool.

(** [cancelTransaction(id, adminId)]: no session is opened; the handler
    only renames a cast error, which a well-formed id does not raise. *)
Definition cancelTransaction (id adminId : ObjectId)
    : Store.M (option TransactionFixing.t) :=
  Store.try_catch
    (transaction <- Store.await faulty Store.TransactionFixing_findById
                      (Store.read false
                         (fun s => Store.transactionFixings s !! id)) ;;
     match transaction with
     | None => Store.throw (AppError "Transaction not found" 404 "NOT_FOUND")
     | Some _ =>
         Store.await faulty Store.TransactionFixing_findByIdAndUpdate
           (Store.store false (Store.TransactionFixingCancel id adminId)) ;;;
         (* [{ new: true }]: the updated document is returned *)
         Store.read false (fun s => Store.transactionFixings s !! id)
     end)
    (fun error => Store.throw error).

(** [deleteTransaction(id, adminId)]: the transaction is started before
    the [try]. *)
Definition deleteTransaction (id adminId : ObjectId)
    : Store.M TransactionFixing.t :=
  Store.startTransaction ;;;
  Store.try_catch
    (transaction <- Store.await faulty Store.TransactionFixing_findById
                      (Store.read true
                         (fun s => Store.transactionFixings s !! id)) ;;
     match transaction with
     | None => Store.throw (AppError "Transaction not found" 404 "NOT_FOUND")
     | Some transaction =>
         account <- Store.await faulty Store.Account_findById
                      (Store.read true
                         (fun s => Store.accounts s
                                   !! TransactionFixing.partyId
                                        transaction)) ;;
         match account with
         | None =>
             Store.throw
               (AppError "Account not found" 404 "ACCOUNT_NOT_FOUND")
         | Some account =>
             let '(totalGoldGramsChange, totalCashBalanceChange) :=
               reverseChanges (TransactionFixing.type transaction)
                 (TransactionFixing.orders transaction) in
             let currentGoldGrams :=
               or_else (Some (Account.totalGrams account)) zero in
             let currentCashBalance :=
               or_else (Some (Account.cashAmount account)) zero in
             let updated :=
               {| Account._id := Account._id account;
                  Account.isActive := Account.isActive account;
                  Account.customerName := Account.customerName account;
                  Account.accountCode := Account.accountCode account;
                  Account.totalGrams :=
                    add currentGoldGrams totalGoldGramsChange;
                  Account.totalValue := zero;
                  Account.cashAmount :=
                    add currentCashBalance totalCashBalanceChange |} in
             Store.await faulty Store.Account_save
               (Store.store true (Store.AccountSave updated)) ;;;
             Store.await faulty Store.Registry_deleteMany
               (Store.store true
                  (Store.RegistryDeleteByFixing
                     (TransactionFixing._id transaction))) ;;;
             Store.await faulty Store.TransactionFixing_deleteOne
               (Store.store true
                  (Store.TransactionFixingDeleteOne
                     (TransactionFixing._id transaction))) ;;;
             Store.commitTransaction faulty ;;;
             Store.ret transaction
         end
     end)
    (fun error => Store.abortTransaction ;;; Store.throw error).

End Service.

End TransactionFixingService.

Import MetalTransactionService.

(* ================================================================== *)
(** ** Vocabulary of the statements *)
(* ================================================================== *)

(** The four transaction kinds. *)
Definition kinds : list string :=
  ["purchase"; "sale"; "purchaseReturn"; "saleReturn"].

(** The sign with which a kind moves cash in fix mode. *)
Definition fix_cash (kind : string) (amount : jsnum) : jsnum :=
  if bool_decide (kind = "purchase" \/ kind = "saleReturn")
  then amount else neg amount.

(** The totals component that a posting of a given type carries as its
    value: the cash leg of a fixed purchase carries the gold value, the
    cash leg of the other fixed kinds the session total. *)
Definition leg_component (transactionType type : string)
    (totals : Totals.t) : jsnum :=
  if bool_decide (In type ["purchase-fixing"; "sales-fixing"; "sale-fixing";
                           "PARTY_GOLD_BALANCE"; "GOLD"])
  then Totals.pureWeight totals
  else if String.eqb type "PARTY_CASH_BALANCE" then
    if String.eqb transactionType "purchase"
    then Totals.goldValue totals else Totals.totalAmount totals
  else if String.eqb type "MAKING_CHARGES" then Totals.makingCharges totals
  else if String.eqb type "OTHER_CHARGES"
  then Totals.otherChargesAmount totals
  else if String.eqb type "VAT_AMOUNT" then Totals.vatAmount totals
  else if String.eqb type "PREMIUM" then Totals.premium totals
  else if String.eqb type "DISCOUNT" then Totals.discount totals
  else if String.eqb type "GOLD_STOCK" then Totals.grossWeight totals
  else NaN.

(** What holds of a pushed element: it is a posting, it carries the
    component of its type, and that component is positive. *)
Definition carries_positive (transactionType : string) (totals : Totals.t)
    (pushed : option Entry.t) : Prop :=
  match pushed with
  | Some e =>
      leg_component transactionType (Entry.type e) totals
      = Num (Entry.value e)
      /\ 0 < Entry.value e
  | None => False
  end.

(** A pushed element that is a posting of positive value. *)
Definition positive_posting (pushed : option Entry.t) : Prop :=
  match pushed with
  | Some e => 0 < Entry.value e
  | None => False
  end.

(** The leg suffixes of the builders of a mode, in source order. *)
Definition suffixes (mode : string) : list string :=
  if String.eqb mode "fix"
  then ["PARTY-GOLD"; "001"; "002"; "008"; "009"; "003"; "007"; "004"; "005"]
  else ["001"; "003"; "008"; "009"; "004"; "007"; "005"; "006"].

(** The identifier of the leg with a given suffix. *)
Definition leg_id (baseId suffix : string) : string :=
  baseId +:+ "-" +:+ suffix.

(** *** The totals as sums *)

(** The sum of a list of numbers, for the totals of the specification
    ([totals_as_sums]); the code adds from the left, see [runningSum]. *)
Definition sum (l : list jsnum) : jsnum := foldr add zero l.

(** An amount that counts as [0] when it is absent, [0] or [NaN]
    ([x || 0]). *)
Definition amount (a : option jsnum) : jsnum := or_else a zero.

(** An amount that counts as [0] only when it is absent. *)
Definition amount_if_present (a : option jsnum) : jsnum :=
  match a with
  | Some v => v
  | None => zero
  end.

(** The premium/discount amount of an item: its premium total, else its
    premium amount. *)
Definition premiumDiscount (item : Item.t) : jsnum :=
  or_else (Item.premiumTotal item) (amount (Item.premiumAmount item)).

Definition positive_part (a : jsnum) : jsnum := if gt0 a then a else zero.

Definition negative_magnitude (a : jsnum) : jsnum :=
  if lt0 a then abs a else zero.

(** The first rate that is neither absent nor zero, [0] when there is
    none. *)
Fixpoint first_rate (stockItems : list Item.t) : jsnum :=
  match stockItems with
  | [] => zero
  | item :: rest =>
      if truthy (Item.rate item) then amount (Item.rate item)
      else first_rate rest
  end.

(** The totals record as section 4.1 of the specification words it, each
    field a sum over the stock items, with an absent amount counting as
    nothing.  This follows the specification, not the code: the code is
    [calculateTotals], which C5 sets against it. *)
Definition totals_as_sums (stockItems : list Item.t)
    (totalAmountAED : option jsnum) : Totals.t :=
  {| Totals.makingCharges :=
       sum (map (fun i => or_else (Item.makingChargesTotal i)
                            (amount (Item.makingChargesAmount i)))
              stockItems);
     Totals.premium :=
       sum (map (fun i => positive_part (premiumDiscount i)) stockItems);
     Totals.vatAmount :=
       sum (map (fun i => amount_if_present (Item.vatAmount i)) stockItems);
     Totals.otherChargesAmount :=
       sum (map (fun i => amount_if_present (Item.otherChargesAmount i))
              stockItems);
     Totals.discount :=
       sum (map (fun i => negative_magnitude (premiumDiscount i))
              stockItems);
     Totals.goldValue :=
       sum (map (fun i => amount (Item.baseAmount i)) stockItems);
     Totals.pureWeight :=
       sum (map (fun i => amount (Item.pureWeight i)) stockItems);
     Totals.grossWeight :=
       sum (map (fun i => amount (Item.grossWeight i)) stockItems);
     Totals.purity :=
       sum (map (fun i => amount (Item.purity i)) stockItems);
     Totals.goldBidValue := first_rate stockItems;
     Totals.totalAmount := amount totalAmountAED |}.

(** *** Running sums *)

(** [ToNumber] of a possibly absent number: [undefined] is [NaN]. *)
Definition numberOf (a : option jsnum) : jsnum :=
  match a with
  | Some v => v
  | None => NaN
  end.

(** The sum of a list of numbers as a loop accumulates it: from [0], left
    to right, each addition rounded. *)
Definition runningSum (l : list jsnum) : jsnum := fold_left add l zero.

(** *** Sample documents *)

(** A line of 100 g pure gold, 105 g gross, making charges 50, a discount
    of 3, base amount 1000, no VAT and no other charges. *)
Definition sampleItem : Item.t :=
  {| Item.makingChargesTotal := Some (Num (qc 50 1));
     Item.makingChargesAmount := Some (Num (qc 50 1));
     Item.premiumTotal := Some (Num (qc (-3) 1));
     Item.premiumAmount := Some (Num (qc (-3) 1));
     Item.vatAmount := Some zero;
     Item.otherChargesAmount := Some zero;
     Item.otherChargesDescription := "null";
     Item.baseAmount := Some (Num (qc 1000 1));
     Item.pureWeight := Some (Num (qc 100 1));
     Item.purity := Some (Num (qc 1 1));
     Item.grossWeight := Some (Num (qc 105 1));
     Item.rate := Some (Num (qc 250 1)) |}.

(** The sample line without a VAT amount ([item.vat?.amount] is
    [undefined]). *)
Definition sampleItemNoVat : Item.t :=
  {| Item.makingChargesTotal := Item.makingChargesTotal sampleItem;
     Item.makingChargesAmount := Item.makingChargesAmount sampleItem;
     Item.premiumTotal := Item.premiumTotal sampleItem;
     Item.premiumAmount := Item.premiumAmount sampleItem;
     Item.vatAmount := None;
     Item.otherChargesAmount := Item.otherChargesAmount sampleItem;
     Item.otherChargesDescription := Item.otherChargesDescription sampleItem;
     Item.baseAmount := Item.baseAmount sampleItem;
     Item.pureWeight := Item.pureWeight sampleItem;
     Item.purity := Item.purity sampleItem;
     Item.grossWeight := Item.grossWeight sampleItem;
     Item.rate := Item.rate sampleItem |}.

Definition sampleParty : Party.t :=
  {| Party._id := 7;
     Party.customerName := "Acme";
     Party.accountCode := "AC1" |}.

(** A fixed purchase of two such lines. *)
Definition samplePurchase : MetalTransaction.t :=
  {| MetalTransaction._id := 1;
     MetalTransaction.transactionType := "purchase";
     MetalTransaction.fixed := true;
     MetalTransaction.unfix := false;
     MetalTransaction.partyCode := 7;
     MetalTransaction.stockItems := [sampleItem; sampleItem];
     MetalTransaction.totalAmountAED := Some (Num (qc 1994 1));
     MetalTransaction.voucherNumber := "PUR-0001";
     MetalTransaction.isActive := true |}.

(** *** A posted transaction *)

(** A line of 100 g pure gold with making charges of 10.125. *)
Definition sampleUnfixItem : Item.t :=
  {| Item.makingChargesTotal := Some (Num (qc 81 8));
     Item.makingChargesAmount := Some (Num (qc 81 8));
     Item.premiumTotal := Some zero;
     Item.premiumAmount := Some zero;
     Item.vatAmount := Some zero;
     Item.otherChargesAmount := Some zero;
     Item.otherChargesDescription := "null";
     Item.baseAmount := Some (Num (qc 1000 1));
     Item.pureWeight := Some (Num (qc 100 1));
     Item.purity := Some (Num (qc 1 1));
     Item.grossWeight := Some (Num (qc 105 1));
     Item.rate := Some (Num (qc 250 1)) |}.

(** An unfixed purchase of that line from party 7. *)
Definition sampleUnfixPurchase : MetalTransaction.t :=
  {| MetalTransaction._id := 2;
     MetalTransaction.transactionType := "purchase";
     MetalTransaction.fixed := false;
     MetalTransaction.unfix := true;
     MetalTransaction.partyCode := 7;
     MetalTransaction.stockItems := [sampleUnfixItem];
     MetalTransaction.totalAmountAED := Some (Num (qc 8081 8));
     MetalTransaction.voucherNumber := "PUR-0002";
     MetalTransaction.isActive := true |}.

Definition sampleAccount : Account.t :=
  {| Account._id := 7;
     Account.isActive := true;
     Account.customerName := "Acme";
     Account.accountCode := "AC1";
     Account.totalGrams := zero;
     Account.totalValue := zero;
     Account.cashAmount := zero |}.

(** The store once the transaction row is saved, before its postings and
    balances. *)
Definition savedStore : Store.t :=
  {| Store.accounts := {[ 7%nat := sampleAccount ]};
     Store.registry := [];
     Store.metalTransactions := {[ 2%nat := sampleUnfixPurchase ]};
     Store.transactionFixings := ∅ |}.

(** No call is rejected. *)
Definition reliable (c : Store.call) : bool := false.

(** Only the given call is rejected. *)
Definition rejecting (failing c : Store.call) : bool :=
  bool_decide (c = failing).

(** The rest of the create unit: postings, balances, commit. *)
Definition postSample : Store.M unit :=
  Store.startTransaction ;;;
  createRegistryEntries reliable 2025 (qc 1 2) sampleUnfixPurchase
    sampleParty 9 true ;;;
  updateAccountBalances reliable sampleParty sampleUnfixPurchase true ;;;
  Store.commitTransaction reliable.

(** The store with the transaction posted. *)
Definition postedStore : Store.t :=
  Store.committed (snd (postSample (Store.mkWorld savedStore []))).

(** A fixing purchase of 10 g at 250 from party 7, with one posting. *)
Definition sampleFixing : TransactionFixing.t :=
  {| TransactionFixing._id := 3;
     TransactionFixing.type := "purchase";
     TransactionFixing.partyId := 7;
     TransactionFixing.orders :=
       [TransactionFixing.mkOrder (Num (qc 250 1)) (Num (qc 10 1))];
     TransactionFixing.status := "active";
     TransactionFixing.isActive := true;
     TransactionFixing.updatedBy := None |}.

Definition sampleFixingRow : Registry.t :=
  {| Registry.metalTransactionId := None;
     Registry.fixingTransactionId := Some 3%nat;
     Registry.transactionId := "PUR123-PARTY-GOLD-1";
     Registry.type := "PARTY_GOLD_BALANCE";
     Registry.party := Some 7%nat;
     Registry.value := qc 10 1;
     Registry.debit := qc 10 1;
     Registry.credit := qc 0 1 |}.

Definition fixingStore : Store.t :=
  {| Store.accounts := {[ 7%nat := sampleAccount ]};
     Store.registry := [sampleFixingRow];
     Store.metalTransactions := ∅;
     Store.transactionFixings := {[ 3%nat := sampleFixing ]} |}.

(** *** Acceptable requests *)

(** A stock item that the validation lets through: a valid stock code, a
    metal rate that is absent or valid, weights that are numbers and not
    below zero, a purity that is a number, not at or below zero and not
    above one. *)
Definition acceptableItem (item : RawItem.t) : Prop :=
  (exists id : ObjectId, RawItem.stockCode item = ValidReference id)
  /\ RawItem.metalRate item <> InvalidReference
  /\ (exists w : jsnum, RawItem.pureWeight item = Some w /\ lt0 w = false)
  /\ (exists w : jsnum, RawItem.grossWeight item = Some w /\ lt0 w = false)
  /\ (exists f : jsnum,
        RawItem.purity item = Some f /\ le0 f = false /\ gt1 f = false).

(** A request that the validation lets through. *)
Definition acceptable (transactionData : TransactionData.t)
    (adminId : reference) : Prop :=
  (exists id : ObjectId,
     TransactionData.partyCode transactionData = ValidReference id)
  /\ (exists kind : string,
        TransactionData.transactionType transactionData = Some kind
        /\ In kind kinds)
  /\ truthyString (TransactionData.voucherDate transactionData) = true
  /\ truthyString (TransactionData.voucherNumber transactionData) = true
  /\ (exists items : list RawItem.t,
        TransactionData.stockItems transactionData = StockItemsArray items
        /\ items <> []
        /\ Forall acceptableItem items)
  /\ TransactionData.partyCurrency transactionData <> InvalidReference
  /\ TransactionData.itemCurrency transactionData <> InvalidReference
  /\ TransactionData.baseCurrency transactionData <> InvalidReference
  /\ adminId <> InvalidReference.

(** An error of status 400. *)
Definition badRequest (e : exn) : Prop :=
  exists message code : string, e = AppError message 400 code.

(** *** Further sample documents *)

(** The sample line with a premium of 12 instead of the discount. *)
Definition samplePremiumItem : Item.t :=
  {| Item.makingChargesTotal := Item.makingChargesTotal sampleItem;
     Item.makingChargesAmount := Item.makingChargesAmount sampleItem;
     Item.premiumTotal := Some (Num (qc 12 1));
     Item.premiumAmount := Some (Num (qc 12 1));
     Item.vatAmount := Item.vatAmount sampleItem;
     Item.otherChargesAmount := Item.otherChargesAmount sampleItem;
     Item.otherChargesDescription := Item.otherChargesDescription sampleItem;
     Item.baseAmount := Item.baseAmount sampleItem;
     Item.pureWeight := Item.pureWeight sampleItem;
     Item.purity := Item.purity sampleItem;
     Item.grossWeight := Item.grossWeight sampleItem;
     Item.rate := Item.rate sampleItem |}.

(** A transaction of party 7 with a given kind, flags and stock items. *)
Definition sampleTransaction (transactionType : string)
    (fixed unfix : bool) (stockItems : list Item.t) : MetalTransaction.t :=
  {| MetalTransaction._id := 4;
     MetalTransaction.transactionType := transactionType;
     MetalTransaction.fixed := fixed;
     MetalTransaction.unfix := unfix;
     MetalTransaction.partyCode := 7;
     MetalTransaction.stockItems := stockItems;
     MetalTransaction.totalAmountAED := Some (Num (qc 2100 1));
     MetalTransaction.voucherNumber := "VCH-0004";
     MetalTransaction.isActive := true |}.

(** *** What a posting carries *)

(** The types of the legs booked on the house side, without a party. *)
Definition houseTypes : list string := ["GOLD"; "GOLD_STOCK"].

(** The types of the legs flagged as bullion. *)
Definition bullionTypes : list string :=
  ["purchase-fixing"; "sales-fixing"; "sale-fixing"; "GOLD"; "GOLD_STOCK"].

(** A posting that links back to its transaction, voucher and creator,
    names the party unless it is a house leg, and is flagged as bullion
    by its type. *)
Definition provenance (metalTransactionId : ObjectId) (party : Party.t)
    (voucherNumber : string) (adminId : ObjectId) (e : Entry.t) : Prop :=
  Entry.metalTransactionId e = metalTransactionId
  /\ Entry.reference e = voucherNumber
  /\ Entry.createdBy e = adminId
  /\ Entry.party e
     = (if bool_decide (In (Entry.type e) houseTypes)
        then None else Some (Party._id party))
  /\ Entry.isBullion e = bool_decide (In (Entry.type e) bullionTypes).

(** A posting whose value stands on one side: as its debit with no
    credit, or as its credit with no debit.  The other-charges leg of an
    unfixed purchase return has neither. *)
Definition one_sided (transactionType mode : string) (e : Entry.t) : Prop :=
  (Entry.debit e = Entry.value e /\ Entry.credit e = 0)
  \/ (Entry.debit e = 0 /\ Entry.credit e = Entry.value e)
  \/ (transactionType = "purchaseReturn" /\ mode <> "fix"
      /\ Entry.type e = "OTHER_CHARGES"
      /\ Entry.debit e = 0 /\ Entry.credit e = 0).

(** A property of postings lifted to what a builder pushes. *)
Definition pushed_with (P : Entry.t -> Prop) (x : option Entry.t) : Prop :=
  match x with
  | Some e => P e
  | None => True
  end.

(** The values of the cash legs among what was pushed. *)
Definition cash_values (pushed : list (option Entry.t)) : list Qc :=
  map Entry.value
    (List.filter
       (fun e => String.eqb (Entry.type e) "PARTY_CASH_BALANCE")
       (filterBoolean pushed)).

(** *** Acceptable updates *)

(** An update request that [validateUpdateInputs] lets through. *)
Definition acceptableUpdate (transactionId : reference)
    (updateData : updateDataValue) (adminId : reference) : Prop :=
  (exists id : ObjectId, transactionId = ValidReference id)
  /\ (exists id : ObjectId, adminId = ValidReference id)
  /\ exists object : UpdateData.t,
       updateData = UpdateDataObject object
       /\ UpdateData.keys object <> []
       /\ UpdateData.partyCode object <> InvalidReference
       /\ (UpdateData.stockItems object = NoStockItems
           \/ exists (item : RawItem.t) (rest : list RawItem.t),
                UpdateData.stockItems object
                = StockItemsArray (item :: rest)).

(** *** Balances over a create and its reversal *)

(** The account after the increments of a create
    ([updateAccountBalances]) and then those of its reversal
    ([updateTradeDebtorsBalances] with [isReversal]). *)
Definition createdThenReversed (balanceChanges : Changes.t)
    (account : Account.t) : Account.t :=
  Store.applyOps (tradeDebtorsOps true balanceChanges)
    (Store.applyOps (buildUpdateOperations balanceChanges) account).

(** An update that has no [$inc] key. *)
Definition noIncrements : UpdateOps.t :=
  {| UpdateOps.inc_totalGrams := None;
     UpdateOps.inc_totalValue := None;
     UpdateOps.inc_cashAmount := None |}.

(** The rows of a registry that belong to a metal transaction. *)
Definition rowsOf (metalTransactionId : ObjectId)
    (registry : list Registry.t) : list Registry.t :=
  List.filter
    (fun r => bool_decide (Registry.metalTransactionId r
                           = Some metalTransactionId))
    registry.

(** *** The account after the delete of a fixing transaction *)

(** The account as [deleteTransaction] of the fixing service saves it. *)
Definition reversedAccount (account : Account.t) (type : string)
    (orders : list TransactionFixing.order) : Account.t :=
  let '(totalGoldGramsChange, totalCashBalanceChange) :=
    TransactionFixingService.reverseChanges type orders in
  {| Account._id := Account._id account;
     Account.isActive := Account.isActive account;
     Account.customerName := Account.customerName account;
     Account.accountCode := Account.accountCode account;
     Account.totalGrams :=
       add (or_else (Some (Account.totalGrams account)) zero)
         totalGoldGramsChange;
     Account.totalValue := zero;
     Account.cashAmount :=
       add (or_else (Some (Account.cashAmount account)) zero)
         totalCashBalanceChange |}.

(** *** Postings up to their identifier *)

(** A posting without its identifier. *)
Definition anonymous (e : Entry.t) : Entry.t :=
  {| Entry.transactionId := "";
     Entry.metalTransactionId := Entry.metalTransactionId e;
     Entry.type := Entry.type e;
     Entry.description := Entry.description e;
     Entry.party := Entry.party e;
     Entry.isBullion := Entry.isBullion e;
     Entry.value := Entry.value e;
     Entry.credit := Entry.credit e;
     Entry.cashDebit := Entry.cashDebit e;
     Entry.goldCredit := Entry.goldCredit e;
     Entry.cashCredit := Entry.cashCredit e;
     Entry.goldDebit := Entry.goldDebit e;
     Entry.debit := Entry.debit e;
     Entry.goldBidValue := Entry.goldBidValue e;
     Entry.reference := Entry.reference e;
     Entry.createdBy := Entry.createdBy e;
     Entry.grossWeight := Entry.grossWeight e;
     Entry.pureWeight := Entry.pureWeight e;
     Entry.purity := Entry.purity e |}.

(** The outcome of a call with a function applied to what it returns. *)
Definition mapResult {A B : Type} (f : A -> B) (r : result A) : result B :=
  match r with
  | Ok a => Ok (f a)
  | Throw e => Throw e
  end.

(** The debits and the credits of a list of rows, summed. *)
Definition totalDebit (rows : list Registry.t) : Qc :=
  foldr (fun r acc => Registry.debit r + acc) 0 rows.

Definition totalCredit (rows : list Registry.t) : Qc :=
  foldr (fun r acc => Registry.credit r + acc) 0 rows.

(** *** Posted values of a type *)

(** The values of the postings of a type. *)
Definition values_of (type : string) (entries : list Entry.t) : list Qc :=
  map Entry.value
    (List.filter (fun e => String.eqb (Entry.type e) type) entries).

(** A stock item whose pure weight is a number not below zero, as the
    validation of a request demands. *)
Definition weighed (item : Item.t) : Prop :=
  exists q : Qc, Item.pureWeight item = Some (Num q) /\ 0 <= q.

(* ================================================================== *)
(** * Properties *)
(* ================================================================== *)


(** ** Arithmetic of JavaScript numbers *)

Section JsFacts.

Lemma Qc_opp_zero : - (0 : Qc) = 0.
Proof. ring. Qed.

Lemma Qc_neg_of_neg (x : Qc) : x < 0 -> ~ (- x < 0).
Proof.
  intros Hx Hn.
  apply Qclt_le_weak, Qcopp_le_compat in Hn.
  rewrite Qcopp_involutive, Qc_opp_zero in Hn.
  exact (Qclt_not_le _ _ Hx Hn).
Qed.

Lemma Qc_lt_irrefl (x : Qc) : ~ (x < x).
Proof. intros H. exact (Qclt_not_le _ _ H (Qcle_refl x)). Qed.

Lemma Qc_zero_of_not_neg (x : Qc) : ~ (x < 0) -> ~ (- x < 0) -> x = 0.
Proof.
  intros H1 H2.
  apply Qcle_antisym.
  - apply Qcnot_lt_le in H2.
    apply Qcopp_le_compat in H2.
    rewrite Qcopp_involutive, Qc_opp_zero in H2. exact H2.
  - apply Qcnot_lt_le. exact H1.
Qed.

Lemma neg_neg (a : jsnum) : neg (neg a) = a.
Proof. destruct a as [x|]; simpl; [now rewrite Qcopp_involutive | reflexivity]. Qed.

Lemma neg_zero : neg zero = zero.
Proof. unfold zero; simpl. now rewrite Qc_opp_zero. Qed.

Lemma Qc_opp_eq_zero (x : Qc) : - x = 0 <-> x = 0.
Proof.
  split; intros H.
  - rewrite <- (Qcopp_involutive x), H. apply Qc_opp_zero.
  - subst x. apply Qc_opp_zero.
Qed.

Lemma magnitude64_zero : magnitude64 0 = 0.
Proof. apply Qc_is_canon. reflexivity. Qed.

Lemma round64_zero : round64 0 = 0.
Proof.
  unfold round64.
  rewrite bool_decide_eq_false_2 by apply Qc_lt_irrefl.
  apply magnitude64_zero.
Qed.

(** Rounding to binary64 rounds the magnitude, so it commutes with unary
    minus. *)
Lemma round64_opp (x : Qc) : round64 (- x) = - round64 x.
Proof.
  unfold round64. destruct (decide (x < 0)) as [Hx|Hx].
  - rewrite (bool_decide_eq_true_2 _ Hx).
    rewrite bool_decide_eq_false_2 by now apply Qc_neg_of_neg.
    now rewrite Qcopp_involutive.
  - rewrite (bool_decide_eq_false_2 _ Hx).
    destruct (decide (- x < 0)) as [Hn|Hn].
    + rewrite (bool_decide_eq_true_2 _ Hn). now rewrite Qcopp_involutive.
    + rewrite (bool_decide_eq_false_2 _ Hn).
      rewrite (Qc_zero_of_not_neg x Hx Hn).
      now rewrite Qc_opp_zero, magnitude64_zero, Qc_opp_zero.
Qed.

Lemma neg_add (a b : jsnum) : neg (add a b) = add (neg a) (neg b).
Proof.
  destruct a as [x|], b as [y|]; simpl; try reflexivity.
  f_equal.
  rewrite (bool_decide_ext (- y = 0) (y = 0)) by apply Qc_opp_eq_zero.
  rewrite (bool_decide_ext (- x = 0) (x = 0)) by apply Qc_opp_eq_zero.
  destruct (bool_decide (y = 0)); [reflexivity|].
  destruct (bool_decide (x = 0)); [reflexivity|].
  rewrite <- round64_opp. f_equal. ring.
Qed.

Lemma add_neg (a b : jsnum) : add a (neg b) = sub a b.
Proof. reflexivity. Qed.

Lemma ne0_false (a : jsnum) : ne0 a = false -> a = zero.
Proof.
  destruct a as [x|]; simpl; [|discriminate].
  intros H. apply bool_decide_eq_false in H.
  destruct (decide (x = 0)) as [->|Hne]; [reflexivity | contradiction].
Qed.

Lemma ne0_neg (a : jsnum) : ne0 (neg a) = ne0 a.
Proof.
  destruct a as [x|]; simpl; [|reflexivity].
  apply bool_decide_ext. split; intros H E; apply H.
  - subst x. apply Qc_opp_zero.
  - rewrite <- (Qcopp_involutive x), E. apply Qc_opp_zero.
Qed.

Lemma round_half_up_2_zero : round_half_up_2 0 = 0.
Proof. apply Qc_is_canon. reflexivity. Qed.

Lemma zero_below_limit : ~ (toFixedLimit <= 0).
Proof. intros H. apply H. reflexivity. Qed.

Lemma toFixed2_zero : toFixed2 zero = zero.
Proof.
  unfold zero, toFixed2.
  rewrite bool_decide_eq_false_2 by apply Qc_lt_irrefl.
  rewrite bool_decide_eq_false_2 by apply zero_below_limit.
  now rewrite round_half_up_2_zero, round64_zero.
Qed.

(** [toFixed] rounds the magnitude, so it commutes with unary minus. *)
Lemma toFixed2_neg (a : jsnum) : toFixed2 (neg a) = neg (toFixed2 a).
Proof.
  destruct a as [x|]; [|reflexivity].
  cbn [neg toFixed2]. destruct (decide (x < 0)) as [Hx|Hx].
  - rewrite (bool_decide_eq_true_2 _ Hx).
    rewrite bool_decide_eq_false_2 by now apply Qc_neg_of_neg.
    destruct (bool_decide (toFixedLimit <= - x)); cbn [neg];
      [reflexivity | now rewrite Qcopp_involutive].
  - rewrite (bool_decide_eq_false_2 _ Hx).
    destruct (decide (- x < 0)) as [Hn|Hn].
    + rewrite (bool_decide_eq_true_2 _ Hn), Qcopp_involutive.
      destruct (bool_decide (toFixedLimit <= x)); reflexivity.
    + rewrite (bool_decide_eq_false_2 _ Hn).
      rewrite (Qc_zero_of_not_neg x Hx Hn), Qc_opp_zero.
      rewrite bool_decide_eq_false_2 by apply zero_below_limit.
      cbn [neg].
      now rewrite round_half_up_2_zero, round64_zero, Qc_opp_zero.
Qed.

(** An [$inc] that is left out when the amount is [0] adds the amount. *)
Lemma increment_guarded (a : jsnum) :
  increment (if ne0 a then Some a else None) = a.
Proof.
  destruct (ne0 a) eqn:E; simpl; [reflexivity|].
  symmetry. now apply ne0_false.
Qed.

Lemma increment_rounded (a : jsnum) :
  increment (if ne0 a then Some (toFixed2 a) else None) = toFixed2 a.
Proof.
  destruct (ne0 a) eqn:E; simpl; [reflexivity|].
  apply ne0_false in E. subst a. symmetry. apply toFixed2_zero.
Qed.

End JsFacts.

(** ** Balance mutator *)

Section BalanceMutator.

Variable t : Totals.t.

(** The net cash change of an unfixed purchase. *)
Lemma netCashChange_purchase_unfix :
  netCashChange (calculateBalanceChanges "purchase" "unfix" t)
  = add (add (Totals.makingCharges t) (Totals.premium t))
        (neg (Totals.discount t)).
Proof. reflexivity. Qed.

Lemma netCashChange_sale_unfix :
  netCashChange (calculateBalanceChanges "sale" "unfix" t)
  = neg (netCashChange (calculateBalanceChanges "purchase" "unfix" t)).
Proof.
  rewrite netCashChange_purchase_unfix.
  rewrite !neg_add, neg_neg. reflexivity.
Qed.

(** C1. Unfixed purchase: the gold delta is [+pureWeight], as computed and
    as applied to the account; the cash delta applied to the account is
    [makingCharges + premium - discount] put through [toFixed(2)].  The
    unfixed sale with the same totals has every component negated, and so
    are the increments applied to the account. *)
Theorem C1_purchase_unfix_and_sale_negation :
  let p := calculateBalanceChanges "purchase" "unfix" t in
  let s := calculateBalanceChanges "sale" "unfix" t in
  let up := buildUpdateOperations p in
  let us := buildUpdateOperations s in
  (Changes.goldBalance p = Totals.pureWeight t
   /\ increment (UpdateOps.inc_totalGrams up) = Totals.pureWeight t
   /\ increment (UpdateOps.inc_cashAmount up)
      = toFixed2 (add (add (Totals.makingCharges t) (Totals.premium t))
                      (neg (Totals.discount t))))
  /\ (Changes.goldBalance s = neg (Changes.goldBalance p)
      /\ Changes.goldValue s = neg (Changes.goldValue p)
      /\ Changes.cashBalance s = neg (Changes.cashBalance p)
      /\ Changes.premiumBalance s = neg (Changes.premiumBalance p)
      /\ Changes.discountBalance s = neg (Changes.discountBalance p)
      /\ Changes.otherCharges s = neg (Changes.otherCharges p))
  /\ (increment (UpdateOps.inc_totalGrams us)
      = neg (increment (UpdateOps.inc_totalGrams up))
      /\ increment (UpdateOps.inc_cashAmount us)
         = neg (increment (UpdateOps.inc_cashAmount up))).
Proof.
  intros p s up us. split; [|split].
  - split; [reflexivity|]. split.
    + apply increment_guarded.
    + unfold up, buildUpdateOperations; simpl UpdateOps.inc_cashAmount.
      rewrite increment_rounded. reflexivity.
  - repeat split; try reflexivity.
    simpl. now rewrite neg_neg.
  - split.
    + unfold us, up, buildUpdateOperations; simpl UpdateOps.inc_totalGrams.
      rewrite !increment_guarded. reflexivity.
    + unfold us, up, buildUpdateOperations; simpl UpdateOps.inc_cashAmount.
      rewrite !increment_rounded.
      unfold s, p. rewrite netCashChange_sale_unfix. apply toFixed2_neg.
Qed.

(** Making charges of 1 and a premium of 0.005: the sum that the code
    forms is [1.00499999999999989], below the decimal 1.005, and the cash
    increment is [1]. *)
Lemma cash_increment_of_1_and_0_005 :
  let totals :=
    {| Totals.makingCharges := Num 1;
       Totals.premium := Num (double 5 1000);
       Totals.vatAmount := zero;
       Totals.otherChargesAmount := zero;
       Totals.discount := zero;
       Totals.goldValue := zero;
       Totals.pureWeight := zero;
       Totals.grossWeight := zero;
       Totals.purity := zero;
       Totals.goldBidValue := zero;
       Totals.totalAmount := zero |} in
  let changes := calculateBalanceChanges "purchase" "unfix" totals in
  netCashChange changes = Num (qc 1131529406376837 1125899906842624)
  /\ UpdateOps.inc_cashAmount (buildUpdateOperations changes) = Some (Num 1).
Proof. cbv zeta. split; compute_done. Qed.

End BalanceMutator.

Section FixMode.

Variable t : Totals.t.

(** C2. In fix mode, for each of the four kinds, the gold balance, gold
    value, premium, discount and other-charges deltas are exactly [0] and
    the cash delta is [+totalAmount] for purchase and saleReturn and
    [-totalAmount] for sale and purchaseReturn; [totalAmount] is the
    session's [totalAmountAED]. *)
Theorem C2_fix_mode_delta (kind : string) :
  In kind kinds ->
  let c := calculateBalanceChanges kind "fix" t in
  Changes.goldBalance c = zero
  /\ Changes.goldValue c = zero
  /\ Changes.premiumBalance c = zero
  /\ Changes.discountBalance c = zero
  /\ Changes.otherCharges c = zero
  /\ Changes.cashBalance c = fix_cash kind (Totals.totalAmount t)
  /\ forall (stockItems : list Item.t) (q : Qc),
       Totals.totalAmount (calculateTotals stockItems (Some (Num q))) = Num q.
Proof.
  intros Hk.
  assert (Hset : forall (stockItems : list Item.t) (q : Qc),
    Totals.totalAmount (calculateTotals stockItems (Some (Num q))) = Num q).
  { intros items q. unfold calculateTotals, setTotalAmount; simpl.
    destruct (bool_decide (q <> 0)) eqn:E; [reflexivity|].
    apply bool_decide_eq_false in E.
    destruct (decide (q = 0)) as [->|Hne]; [reflexivity | contradiction]. }
  simpl in Hk.
  destruct Hk as [<-|[<-|[<-|[<-|[]]]]]; cbn; repeat split; auto.
Qed.

End FixMode.

(** C2 at a fixed sale with a session total of 5000: no gold moves and
    the cash delta is [-5000]. *)
Lemma C2_fix_mode_delta_witness :
  In "sale" kinds
  /\ Changes.goldBalance
       (calculateBalanceChanges "sale" "fix"
          (calculateTotals [] (Some (Num (qc 5000 1))))) = zero
  /\ Changes.cashBalance
       (calculateBalanceChanges "sale" "fix"
          (calculateTotals [] (Some (Num (qc 5000 1)))))
     = fix_cash "sale"
         (Totals.totalAmount (calculateTotals [] (Some (Num (qc 5000 1))))).
Proof.
  assert (H : In "sale" kinds) by (simpl; auto).
  pose proof (C2_fix_mode_delta
                (calculateTotals [] (Some (Num (qc 5000 1)))) "sale" H) as T.
  split; [exact H|].
  split; [exact (proj1 T)|].
  exact (proj1 (proj2 (proj2 (proj2 (proj2 (proj2 T)))))).
Defined.

Section ModeResolution.

(** C4, as the code has it: the mode is ["fix"] exactly when [fixed] is
    set, whatever [unfix] is, and ["unfix"] exactly when [fixed] is not
    set; both flags false give ["unfix"], both flags true give ["fix"]. *)
Theorem C4_mode_follows_fixed (fixed unfix : bool) :
  (getTransactionMode fixed unfix = "fix" <-> fixed = true)
  /\ (getTransactionMode fixed unfix = "unfix" <-> fixed = false)
  /\ getTransactionMode false false = "unfix"
  /\ getTransactionMode true true = "fix".
Proof.
  destruct fixed, unfix; cbn; repeat split; intros; try reflexivity;
    discriminate.
Qed.

(** C4 as stated fails when both flags are set: the mode is ["fix"] there
    although [fixed && !unfix] is false. *)
Lemma C4_both_flags_set :
  ~ (forall fixed unfix : bool,
       (getTransactionMode fixed unfix = "fix"
        <-> fixed && negb unfix = true)
       /\ (fixed && negb unfix = false
           -> getTransactionMode fixed unfix = "unfix")).
Proof.
  intros H. destruct (H true true) as [_ H2].
  specialize (H2 eq_refl). cbn in H2. discriminate.
Qed.

End ModeResolution.

Section ReturnKinds.

(** C10. For every mode (["fix"], ["unfix"], and any other string, where
    both sides are the all-zero record) a purchase return has the deltas
    of a sale and a sale return has the deltas of a purchase. *)
Theorem C10_returns_mirror_opposite_kind (mode : string) (t : Totals.t) :
  calculateBalanceChanges "purchaseReturn" mode t
  = calculateBalanceChanges "sale" mode t
  /\ calculateBalanceChanges "saleReturn" mode t
     = calculateBalanceChanges "purchase" mode t.
Proof. split; reflexivity. Qed.

End ReturnKinds.

(** ** Posting builder *)

Section PostingBuilder.

Lemma gt0_Num (v : jsnum) :
  gt0 v = true -> exists q : Qc, v = Num q /\ 0 < q.
Proof.
  destruct v as [q|]; simpl; [|discriminate].
  intros H. apply bool_decide_eq_true in H. eauto.
Qed.

Lemma le0_of_gt0 (v : jsnum) : gt0 v = true -> le0 v = false.
Proof.
  intros H. destruct (gt0_Num v H) as (q & -> & Hq). simpl.
  apply bool_decide_eq_false. now apply Qclt_not_le.
Qed.

(** A leg guarded by [v > 0] whose value is [v]. *)
Lemma push_if_carries (k : string) (totals : Totals.t) (base : string)
    (mt : ObjectId) (sfx ty d : string) (p : option ObjectId) (ib : bool)
    (v c : jsnum) (o : options) (r : string) (a : ObjectId) :
  leg_component k ty totals = v ->
  Forall (carries_positive k totals)
    (push_if (gt0 v) (createRegistryEntry base mt sfx ty d p ib v c o r a)).
Proof.
  intros Hc. unfold push_if. destruct (gt0 v) eqn:G; [|constructor].
  constructor; [|constructor].
  unfold createRegistryEntry. rewrite (le0_of_gt0 v G). simpl.
  destruct (gt0_Num v G) as (q & -> & Hq). simpl. split; assumption.
Qed.

Ltac legs :=
  repeat (apply Forall_app; split);
  apply push_if_carries; reflexivity.

Lemma entriesOfItem_carries (transactionType mode : string)
    (metalTransactionId : ObjectId) (totals : Totals.t) (party : Party.t)
    (baseTransactionId voucherNumber : string) (adminId : ObjectId)
    (item : Item.t) (pushed : list (option Entry.t)) :
  entriesOfItem transactionType mode metalTransactionId totals party
    baseTransactionId voucherNumber adminId item = Ok pushed ->
  Forall (carries_positive transactionType totals) pushed.
Proof.
  unfold entriesOfItem.
  destruct (String.eqb transactionType "purchase") eqn:E1.
  { apply String.eqb_eq in E1; subst transactionType.
    unfold buildPurchaseEntries.
    destruct (String.eqb mode "fix"); intros [= <-].
    - unfold buildPurchaseFixEntries. legs.
    - unfold buildPurchaseUnfixEntries. legs. }
  destruct (String.eqb transactionType "sale") eqn:E2.
  { apply String.eqb_eq in E2; subst transactionType.
    unfold buildSaleEntries.
    destruct (String.eqb mode "fix"); intros [= <-].
    - unfold buildSaleFixEntries. legs.
    - unfold buildSaleUnfixEntries. legs. }
  destruct (String.eqb transactionType "purchaseReturn") eqn:E3.
  { apply String.eqb_eq in E3; subst transactionType.
    unfold buildPurchaseReturnEntries.
    destruct (String.eqb mode "fix").
    - intros [= <-]. unfold buildPurchaseReturnFixEntries. legs.
    - unfold buildPurchaseReturnUnfixEntries.
      destruct (gt0 (Totals.premium totals)); [discriminate|].
      intros [= <-]. legs. }
  destruct (String.eqb transactionType "saleReturn") eqn:E4.
  { apply String.eqb_eq in E4; subst transactionType.
    unfold buildSaleReturnEntries.
    destruct (String.eqb mode "fix"); intros [= <-].
    - unfold buildSaleReturnFixEntries. legs.
    - unfold buildSaleReturnUnfixEntries. legs. }
  intros [= <-]. constructor.
Qed.

(** The unfixed purchase return throws exactly when the premium is
    positive; no other builder throws. *)
Lemma entriesOfItem_throws (transactionType mode : string)
    (metalTransactionId : ObjectId) (totals : Totals.t) (party : Party.t)
    (baseTransactionId voucherNumber : string) (adminId : ObjectId)
    (item : Item.t) (e : exn) :
  entriesOfItem transactionType mode metalTransactionId totals party
    baseTransactionId voucherNumber adminId item = Throw e
  <-> transactionType = "purchaseReturn"
      /\ mode <> "fix"
      /\ gt0 (Totals.premium totals) = true
      /\ e = ReferenceError "goldBidValue".
Proof.
  unfold entriesOfItem, buildPurchaseEntries, buildSaleEntries,
    buildPurchaseReturnEntries, buildSaleReturnEntries,
    buildPurchaseReturnUnfixEntries.
  destruct (String.eqb transactionType "purchase") eqn:E1.
  { apply String.eqb_eq in E1; subst.
    destruct (String.eqb mode "fix"); split;
      [discriminate | intros [[=] _] | discriminate | intros [[=] _]]. }
  destruct (String.eqb transactionType "sale") eqn:E2.
  { apply String.eqb_eq in E2; subst.
    destruct (String.eqb mode "fix"); split;
      [discriminate | intros [[=] _] | discriminate | intros [[=] _]]. }
  destruct (String.eqb transactionType "purchaseReturn") eqn:E3.
  { apply String.eqb_eq in E3; subst.
    destruct (String.eqb mode "fix") eqn:Em.
    - apply String.eqb_eq in Em. split; [discriminate|].
      intros (_ & Hm & _). contradiction.
    - apply String.eqb_neq in Em.
      destruct (gt0 (Totals.premium totals)); split.
      + intros [= <-]. auto.
      + intros (_ & _ & _ & ->). reflexivity.
      + discriminate.
      + intros (_ & _ & [=] & _). }
  destruct (String.eqb transactionType "saleReturn") eqn:E4.
  { apply String.eqb_eq in E4; subst.
    destruct (String.eqb mode "fix"); split;
      [discriminate | intros [[=] _] | discriminate | intros [[=] _]]. }
  apply String.eqb_neq in E3. split; [discriminate|].
  intros (-> & _). contradiction.
Qed.

Lemma carries_positive_posting (k : string) (totals : Totals.t)
    (x : option Entry.t) :
  carries_positive k totals x -> positive_posting x.
Proof. destruct x as [e|]; simpl; [tauto | trivial]. Qed.

(** The loop keeps the invariant that everything pushed so far is a
    posting of positive value. *)
Lemma pushItems_positive (transactionType mode : string)
    (metalTransactionId : ObjectId) (totalAmountAED : option jsnum)
    (party : Party.t) (baseTransactionId voucherNumber : string)
    (adminId : ObjectId) (stockItems : list Item.t) :
  forall entries res : list (option Entry.t),
    Forall positive_posting entries ->
    pushItems transactionType mode metalTransactionId totalAmountAED party
      baseTransactionId voucherNumber adminId stockItems entries = Ok res ->
    Forall positive_posting res.
Proof.
  induction stockItems as [|item rest IH]; intros entries res Hacc; simpl.
  - intros [= <-]. exact Hacc.
  - destruct (entriesOfItem _ _ _ _ _ _ _ _ _) as [pushed|e] eqn:E;
      [|discriminate].
    apply IH. apply Forall_app. split; [exact Hacc|].
    apply entriesOfItem_carries in E.
    eapply Forall_impl; [exact E|].
    intros x. apply carries_positive_posting.
Qed.

Lemma filterBoolean_positive (pushed : list (option Entry.t)) :
  Forall positive_posting pushed ->
  Forall (fun e => 0 < Entry.value e) (filterBoolean pushed)
  /\ length (filterBoolean pushed) = length pushed.
Proof.
  unfold filterBoolean.
  induction 1 as [|x l Hx Hl [IH1 IH2]]; simpl; [split; [constructor|reflexivity]|].
  destruct x as [e|]; simpl in *; [|contradiction].
  split; [constructor; assumption | simpl; f_equal; exact IH2].
Qed.

(** C7. Whatever one stock item pushes, through any of the eight
    builders, is a posting whose value is the totals component of its type
    and that component is strictly positive; hence every entry of the list
    that [buildRegistryEntries] returns has a value above zero, and
    nothing was pushed for a component that is not positive. *)
Theorem C7_postings_only_for_positive_components :
  (forall (transactionType mode : string) (metalTransactionId : ObjectId)
      (totals : Totals.t) (party : Party.t)
      (baseTransactionId voucherNumber : string) (adminId : ObjectId)
      (item : Item.t) (pushed : list (option Entry.t)),
      entriesOfItem transactionType mode metalTransactionId totals party
        baseTransactionId voucherNumber adminId item = Ok pushed ->
      forall x : option Entry.t, In x pushed ->
        exists e : Entry.t,
          x = Some e
          /\ leg_component transactionType (Entry.type e) totals
             = Num (Entry.value e)
          /\ 0 < Entry.value e)
  /\ (forall (currentYear : nat) (random : Qc)
        (metalTransaction : MetalTransaction.t) (party : Party.t)
        (adminId : ObjectId) (entries : list Entry.t),
        buildRegistryEntries currentYear random metalTransaction party
          adminId = Ok entries ->
        forall e : Entry.t, In e entries -> 0 < Entry.value e).
Proof.
  split.
  - intros k m mt totals party base vn admin item pushed E x Hx.
    apply entriesOfItem_carries in E.
    rewrite Forall_forall in E. specialize (E x).
    rewrite list_elem_of_In in E. specialize (E Hx).
    destruct x as [e|]; simpl in E; [|contradiction].
    exists e. tauto.
  - intros year rnd tx party admin entries E e He.
    unfold buildRegistryEntries in E.
    destruct (pushItems _ _ _ _ _ _ _ _ _ _) as [pushed|x] eqn:P;
      [|discriminate].
    injection E as <-.
    apply pushItems_positive in P; [|constructor].
    apply filterBoolean_positive in P. destruct P as [P _].
    rewrite Forall_forall in P. apply P. now apply list_elem_of_In.
Qed.

End PostingBuilder.

(** ** Posting identifiers *)

Section PostingIds.

Lemma push_if_id (c : bool) (base : string) (mt : ObjectId)
    (sfx ty d : string) (p : option ObjectId) (ib : bool) (v cr : jsnum)
    (o : options) (r : string) (a : ObjectId) :
  sublist
    (map Entry.transactionId
       (filterBoolean
          (push_if c (createRegistryEntry base mt sfx ty d p ib v cr o r a))))
    [leg_id base sfx].
Proof.
  unfold push_if, filterBoolean. destruct c; simpl.
  - unfold createRegistryEntry.
    destruct (le0 v && _); simpl.
    + apply sublist_nil_l.
    + reflexivity.
  - apply sublist_nil_l.
Qed.

Lemma ids_app (l1 l2 : list (option Entry.t)) (x : string)
    (k : list string) :
  sublist (map Entry.transactionId (filterBoolean l1)) [x] ->
  sublist (map Entry.transactionId (filterBoolean l2)) k ->
  sublist (map Entry.transactionId (filterBoolean (l1 ++ l2))) (x :: k).
Proof.
  intros H1 H2. unfold filterBoolean in *.
  rewrite omap_app, map_app.
  exact (sublist_app _ [x] _ k H1 H2).
Qed.

Lemma ids_skip (l : list (option Entry.t)) (x : string) (k : list string) :
  sublist (map Entry.transactionId (filterBoolean l)) k ->
  sublist (map Entry.transactionId (filterBoolean l)) (x :: k).
Proof. apply sublist_cons. Qed.

Ltac leg_ids :=
  repeat (apply ids_app; [apply push_if_id|]); apply push_if_id.

(** What one stock item pushes carries, in order, identifiers of the legs
    of its mode. *)
Lemma entriesOfItem_ids (transactionType mode : string)
    (metalTransactionId : ObjectId) (totals : Totals.t) (party : Party.t)
    (baseTransactionId voucherNumber : string) (adminId : ObjectId)
    (item : Item.t) (pushed : list (option Entry.t)) :
  entriesOfItem transactionType mode metalTransactionId totals party
    baseTransactionId voucherNumber adminId item = Ok pushed ->
  sublist (map Entry.transactionId (filterBoolean pushed))
    (map (leg_id baseTransactionId) (suffixes mode)).
Proof.
  unfold entriesOfItem, suffixes.
  destruct (String.eqb transactionType "purchase").
  { unfold buildPurchaseEntries.
    destruct (String.eqb mode "fix"); intros [= <-].
    - unfold buildPurchaseFixEntries. leg_ids.
    - unfold buildPurchaseUnfixEntries. leg_ids. }
  destruct (String.eqb transactionType "sale").
  { unfold buildSaleEntries.
    destruct (String.eqb mode "fix"); intros [= <-].
    - unfold buildSaleFixEntries. leg_ids.
    - unfold buildSaleUnfixEntries. leg_ids. }
  destruct (String.eqb transactionType "purchaseReturn").
  { unfold buildPurchaseReturnEntries.
    destruct (String.eqb mode "fix").
    - intros [= <-]. unfold buildPurchaseReturnFixEntries. leg_ids.
    - unfold buildPurchaseReturnUnfixEntries.
      destruct (gt0 (Totals.premium totals)); [discriminate|].
      intros [= <-]. rewrite <- !app_assoc.
      do 4 (apply ids_app; [apply push_if_id|]).
      apply ids_skip. leg_ids. }
  destruct (String.eqb transactionType "saleReturn").
  { unfold buildSaleReturnEntries.
    destruct (String.eqb mode "fix"); intros [= <-].
    - unfold buildSaleReturnFixEntries. leg_ids.
    - unfold buildSaleReturnUnfixEntries. leg_ids. }
  intros [= <-]. apply sublist_nil_l.
Qed.

Lemma leg_id_inj (base : string) : Inj eq eq (leg_id base).
Proof.
  intros s1 s2 H. unfold leg_id in H.
  apply String.app_inj in H. now apply String.app_inj in H.
Qed.

Lemma suffixes_NoDup (mode : string) : NoDup (suffixes mode).
Proof.
  unfold suffixes. destruct (String.eqb mode "fix"); compute_done.
Qed.

(** The identifiers of the postings of a transaction with one stock item
    are pairwise distinct. *)
Lemma single_item_ids_NoDup (currentYear : nat) (random : Qc)
    (metalTransaction : MetalTransaction.t) (party : Party.t)
    (adminId : ObjectId) (item : Item.t) (entries : list Entry.t) :
  MetalTransaction.stockItems metalTransaction = [item] ->
  buildRegistryEntries currentYear random metalTransaction party adminId
  = Ok entries ->
  NoDup (map Entry.transactionId entries).
Proof.
  intros Hitems. unfold buildRegistryEntries. rewrite Hitems. simpl.
  destruct (entriesOfItem _ _ _ _ _ _ _ _ _) as [pushed|e] eqn:E;
    [|discriminate].
  intros [= <-].
  apply entriesOfItem_ids in E.
  eapply sublist_NoDup; [|exact E].
  apply NoDup_fmap_2_strong; [|apply suffixes_NoDup].
  intros x y _ _. apply leg_id_inj.
Qed.

(** The loop pushes nothing but legs of the one base identifier. *)
Lemma pushItems_ids (transactionType mode : string)
    (metalTransactionId : ObjectId) (totalAmountAED : option jsnum)
    (party : Party.t) (baseTransactionId voucherNumber : string)
    (adminId : ObjectId) (stockItems : list Item.t) :
  forall entries res : list (option Entry.t),
    Forall (fun i => In i (map (leg_id baseTransactionId) (suffixes mode)))
      (map Entry.transactionId (filterBoolean entries)) ->
    pushItems transactionType mode metalTransactionId totalAmountAED party
      baseTransactionId voucherNumber adminId stockItems entries = Ok res ->
    Forall (fun i => In i (map (leg_id baseTransactionId) (suffixes mode)))
      (map Entry.transactionId (filterBoolean res)).
Proof.
  induction stockItems as [|item rest IH]; intros entries res Hacc; simpl.
  - intros [= <-]. exact Hacc.
  - destruct (entriesOfItem _ _ _ _ _ _ _ _ _) as [pushed|e] eqn:E;
      [|discriminate].
    apply IH. unfold filterBoolean in *.
    rewrite omap_app, map_app. apply Forall_app. split; [exact Hacc|].
    apply entriesOfItem_ids in E.
    apply Forall_forall. intros i Hi. apply list_elem_of_In.
    eapply sublist_subseteq; [exact E | exact Hi].
Qed.

Lemma random3_range (random : Qc) :
  0 <= random -> random < 1 -> (100 <= random3 random <= 999)%Z.
Proof.
  intros H0 H1. unfold random3.
  assert (L : (0 <= this random * 900)%Q).
  { apply Qmult_le_0_compat; [exact H0 | discriminate]. }
  assert (U : (this random * 900 < 900)%Q).
  { change (900%Q) with (1 * 900)%Q at 2.
    apply Qmult_lt_compat_r; [reflexivity | exact H1]. }
  pose proof (Qfloor_resp_le _ _ L) as F0.
  change (Qfloor 0) with 0%Z in F0.
  pose proof (Qfloor_le (this random * 900)) as F1.
  assert (F2 : (inject_Z (Qfloor (this random * 900)) < inject_Z 900)%Q).
  { eapply Qle_lt_trans; [exact F1 | exact U]. }
  rewrite <- Zlt_Qlt in F2. lia.
Qed.

(** The shape of the identifiers: one base [TXN-<year>-<n>] with
    [100 <= n <= 999] for the whole call, and every posting's identifier
    is that base followed by [-] and a leg suffix of the mode. *)
Lemma posting_ids_shape (currentYear : nat) (random : Qc)
    (metalTransaction : MetalTransaction.t) (party : Party.t)
    (adminId : ObjectId) (entries : list Entry.t) :
  0 <= random -> random < 1 ->
  buildRegistryEntries currentYear random metalTransaction party adminId
  = Ok entries ->
  exists n : Z,
    (100 <= n <= 999)%Z
    /\ forall e : Entry.t, In e entries ->
         exists suffix : string,
           In suffix
             (suffixes (getTransactionMode
                          (MetalTransaction.fixed metalTransaction)
                          (MetalTransaction.unfix metalTransaction)))
           /\ Entry.transactionId e
              = ("TXN-" +:+ pretty currentYear +:+ "-" +:+ pretty n)
                  +:+ "-" +:+ suffix.
Proof.
  intros H0 H1 E. exists (random3 random).
  split; [now apply random3_range|].
  unfold buildRegistryEntries in E.
  destruct (pushItems _ _ _ _ _ _ _ _ _ _) as [pushed|x] eqn:P;
    [|discriminate].
  injection E as <-.
  apply pushItems_ids in P; [|constructor].
  intros e He. rewrite Forall_forall in P.
  specialize (P (Entry.transactionId e)).
  rewrite list_elem_of_In in P.
  specialize (P (in_map _ _ _ He)).
  apply in_map_iff in P. destruct P as (sfx & Hid & Hs).
  exists sfx. split; [exact Hs|]. symmetry. exact Hid.
Qed.

End PostingIds.

Section PostingExamples.

(** C7 at the sample purchase: the first posting of the first line is the
    fixing leg, it carries the pure weight of the line, 100 g. *)
Lemma C7_postings_only_for_positive_components_witness :
  exists (pushed : list (option Entry.t)) (entries : list Entry.t)
         (e : Entry.t),
    (entriesOfItem "purchase" "fix" 1
       (calculateTotals [sampleItem] (Some (Num (qc 1994 1)))) sampleParty
       "TXN-2025-550" "PUR-0001" 9 sampleItem = Ok pushed
     /\ In (Some e) pushed
     /\ leg_component "purchase" (Entry.type e)
          (calculateTotals [sampleItem] (Some (Num (qc 1994 1))))
        = Num (Entry.value e)
     /\ 0 < Entry.value e)
    /\ (buildRegistryEntries 2025 (qc 1 2) samplePurchase sampleParty 9
        = Ok entries
        /\ In e entries
        /\ 0 < Entry.value e).
Proof.
  destruct C7_postings_only_for_positive_components as [T1 T2].
  assert (H : exists (pushed : list (option Entry.t))
                     (entries : list Entry.t) (e : Entry.t),
    entriesOfItem "purchase" "fix" 1
      (calculateTotals [sampleItem] (Some (Num (qc 1994 1)))) sampleParty
      "TXN-2025-550" "PUR-0001" 9 sampleItem = Ok pushed
    /\ In (Some e) pushed
    /\ buildRegistryEntries 2025 (qc 1 2) samplePurchase sampleParty 9
       = Ok entries
    /\ In e entries).
  { vm_compute. do 3 eexists.
    split; [reflexivity|]. split; [left; reflexivity|].
    split; [reflexivity|]. left; reflexivity. }
  destruct H as (pushed & entries & e & E1 & I1 & E2 & I2).
  exists pushed, entries, e. split.
  - destruct (T1 _ _ _ _ _ _ _ _ _ _ E1 (Some e) I1) as (e' & He & Hc & Hp).
    injection He as <-. repeat split; assumption.
  - repeat split; try assumption. exact (T2 _ _ _ _ _ _ E2 e I2).
Defined.

(** C9 at the sample purchase, which has two stock lines: the twelve
    postings carry six identifiers, each of them twice. *)
Theorem C9_ids_repeat_across_stock_items :
  exists entries : list Entry.t,
    buildRegistryEntries 2025 (qc 1 2) samplePurchase sampleParty 9
    = Ok entries
    /\ map Entry.transactionId entries
       = ["TXN-2025-550-PARTY-GOLD"; "TXN-2025-550-001"; "TXN-2025-550-002";
          "TXN-2025-550-007"; "TXN-2025-550-004"; "TXN-2025-550-005";
          "TXN-2025-550-PARTY-GOLD"; "TXN-2025-550-001"; "TXN-2025-550-002";
          "TXN-2025-550-007"; "TXN-2025-550-004"; "TXN-2025-550-005"]
    /\ ~ NoDup (map Entry.transactionId entries).
Proof.
  eexists. split; [vm_compute; reflexivity|].
  split; [reflexivity|]. compute_done.
Qed.

End PostingExamples.

(** ** Totals calculator *)

Section TotalsCalculator.

(** Adding [0] changes nothing. *)
Lemma add_zero_l (a : jsnum) : add zero a = a.
Proof.
  destruct a as [x|]; [|reflexivity]. unfold zero, add.
  destruct (decide (x = 0)) as [->|Hx].
  - now rewrite bool_decide_eq_true_2.
  - rewrite (bool_decide_eq_false_2 _ Hx).
    now rewrite bool_decide_eq_true_2.
Qed.

Lemma add_zero_r (a : jsnum) : add a zero = a.
Proof.
  destruct a as [x|]; [|reflexivity]. unfold zero, add.
  now rewrite bool_decide_eq_true_2.
Qed.

(** A left fold that adds one number per item is the left fold of the
    addition over the numbers. *)
Lemma fold_left_add (f : Item.t -> jsnum) (stockItems : list Item.t) :
  forall a : jsnum,
    fold_left (fun acc i => add acc (f i)) stockItems a
    = fold_left add (map f stockItems) a.
Proof.
  induction stockItems as [|i rest IH]; intros a; simpl;
    [reflexivity | apply IH].
Qed.

Lemma fold_left_add_undef (f : Item.t -> option jsnum)
    (stockItems : list Item.t) :
  forall a : jsnum,
    fold_left (fun acc i => add_undef acc (f i)) stockItems a
    = fold_left add (map (fun i => numberOf (f i)) stockItems) a.
Proof.
  induction stockItems as [|i rest IH]; intros a; simpl; [reflexivity|].
  rewrite IH. now destruct (f i), a.
Qed.

Lemma or_else_truthy (a b : jsnum) :
  truthy (Some a) = true -> or_else (Some a) b = a.
Proof. intros H. unfold or_else. now rewrite H. Qed.

Lemma or_else_falsy (a : option jsnum) (b : jsnum) :
  truthy a = false -> or_else a b = b.
Proof. intros H. unfold or_else. destruct a; [now rewrite H | reflexivity]. Qed.

Lemma truthy_zero : truthy (Some zero) = false.
Proof. reflexivity. Qed.

Lemma truthy_amount (a : option jsnum) :
  truthy (Some (amount a)) = truthy a.
Proof.
  unfold amount, or_else. destruct a as [v|]; [|apply truthy_zero].
  destruct (truthy (Some v)) eqn:E; [exact E | apply truthy_zero].
Qed.

(** Once a rate was taken it stays. *)
Lemma fold_left_rate_kept (stockItems : list Item.t) :
  forall a : jsnum,
    truthy (Some a) = true ->
    fold_left
      (fun acc i => or_else (Some acc) (or_else (Item.rate i) zero))
      stockItems a
    = a.
Proof.
  induction stockItems as [|i rest IH]; intros a Ha; cbn [fold_left];
    [reflexivity|].
  rewrite (or_else_truthy a _ Ha). now apply IH.
Qed.

(** Until then the next rate that is truthy is taken. *)
Lemma fold_left_rate (stockItems : list Item.t) :
  fold_left
    (fun acc i => or_else (Some acc) (or_else (Item.rate i) zero))
    stockItems zero
  = first_rate stockItems.
Proof.
  induction stockItems as [|i rest IH]; cbn [fold_left first_rate];
    [reflexivity|].
  rewrite (or_else_falsy (Some zero) _ truthy_zero).
  fold (amount (Item.rate i)).
  destruct (truthy (Item.rate i)) eqn:E.
  - apply fold_left_rate_kept. now rewrite truthy_amount.
  - unfold amount. rewrite (or_else_falsy _ _ E). exact IH.
Qed.

(** The reduction, field by field. *)
Lemma fold_left_reducer (stockItems : list Item.t) :
  forall acc : Totals.t,
    fold_left reducer stockItems acc
    = {| Totals.makingCharges :=
           fold_left
             (fun a i => add a (or_else (Item.makingChargesTotal i)
                                  (amount (Item.makingChargesAmount i))))
             stockItems (Totals.makingCharges acc);
         Totals.premium :=
           fold_left (fun a i => add a (positive_part (premiumDiscount i)))
             stockItems (Totals.premium acc);
         Totals.vatAmount :=
           fold_left (fun a i => add_undef a (Item.vatAmount i))
             stockItems (Totals.vatAmount acc);
         Totals.otherChargesAmount :=
           fold_left (fun a i => add_undef a (Item.otherChargesAmount i))
             stockItems (Totals.otherChargesAmount acc);
         Totals.discount :=
           fold_left
             (fun a i => add a (negative_magnitude (premiumDiscount i)))
             stockItems (Totals.discount acc);
         Totals.goldValue :=
           fold_left (fun a i => add a (amount (Item.baseAmount i)))
             stockItems (Totals.goldValue acc);
         Totals.pureWeight :=
           fold_left (fun a i => add a (amount (Item.pureWeight i)))
             stockItems (Totals.pureWeight acc);
         Totals.grossWeight :=
           fold_left (fun a i => add a (amount (Item.grossWeight i)))
             stockItems (Totals.grossWeight acc);
         Totals.purity :=
           fold_left (fun a i => add a (amount (Item.purity i)))
             stockItems (Totals.purity acc);
         Totals.goldBidValue :=
           fold_left
             (fun a i => or_else (Some a) (or_else (Item.rate i) zero))
             stockItems (Totals.goldBidValue acc);
         Totals.totalAmount := Totals.totalAmount acc |}.
Proof.
  induction stockItems as [|i rest IH]; intros acc; simpl.
  - now destruct acc.
  - rewrite IH. reflexivity.
Qed.

(** C5 at a line that has no VAT amount: the code's [vatAmount] is [NaN],
    not the sum, alone and next to a line that has one; the other fields
    are the sums. *)
Theorem C5_absent_vat_amount_is_NaN :
  Totals.vatAmount
    (calculateTotals [sampleItemNoVat] (Some (Num (qc 1994 1)))) = NaN
  /\ Totals.vatAmount
       (calculateTotals [sampleItem; sampleItemNoVat]
          (Some (Num (qc 1994 1)))) = NaN
  /\ Totals.vatAmount
       (totals_as_sums [sampleItem; sampleItemNoVat]
          (Some (Num (qc 1994 1)))) = zero
  /\ Totals.pureWeight
       (calculateTotals [sampleItem; sampleItemNoVat]
          (Some (Num (qc 1994 1)))) = Num (qc 200 1).
Proof.
  split; [reflexivity|]. split; [reflexivity|].
  split; [compute_done | compute_done].
Qed.

End TotalsCalculator.

(** ** Cancel and delete of a fixing transaction *)

Section Cancel.

Import TransactionFixingService.

Variable faulty : Store.call -> bool.

(** C8. Cancelling, whatever its outcome, leaves the accounts (gold grams,
    gold value, cash amount), the Registry postings, the metal
    transactions and every other fixing transaction as they were and logs
    no write in a session; the cancelled document itself differs from the
    stored one in [status] and [updatedBy] only.  When the transaction
    exists and no call is rejected it returns that document, with status
    ["cancelled"]. *)
Theorem C8_cancel_is_status_only (id adminId : ObjectId) (w : Store.world) :
  let r := fst (cancelTransaction faulty id adminId w) in
  let w' := snd (cancelTransaction faulty id adminId w) in
  let before := Store.transactionFixings (Store.committed w) in
  let after := Store.transactionFixings (Store.committed w') in
  Store.accounts (Store.committed w') = Store.accounts (Store.committed w)
  /\ Store.registry (Store.committed w') = Store.registry (Store.committed w)
  /\ Store.metalTransactions (Store.committed w')
     = Store.metalTransactions (Store.committed w)
  /\ Store.pending w' = Store.pending w
  /\ (forall other : ObjectId, other <> id -> after !! other = before !! other)
  /\ (after !! id = before !! id
      \/ after !! id = Store.cancelled adminId <$> before !! id)
  /\ (forall f : TransactionFixing.t,
        TransactionFixing._id (Store.cancelled adminId f)
        = TransactionFixing._id f
        /\ TransactionFixing.type (Store.cancelled adminId f)
           = TransactionFixing.type f
        /\ TransactionFixing.partyId (Store.cancelled adminId f)
           = TransactionFixing.partyId f
        /\ TransactionFixing.orders (Store.cancelled adminId f)
           = TransactionFixing.orders f
        /\ TransactionFixing.isActive (Store.cancelled adminId f)
           = TransactionFixing.isActive f
        /\ TransactionFixing.status (Store.cancelled adminId f) = "cancelled"
        /\ TransactionFixing.updatedBy (Store.cancelled adminId f)
           = Some adminId)
  /\ (forall f : TransactionFixing.t,
        before !! id = Some f ->
        faulty Store.TransactionFixing_findById = false ->
        faulty Store.TransactionFixing_findByIdAndUpdate = false ->
        r = Ok (Some (Store.cancelled adminId f))
        /\ after !! id = Some (Store.cancelled adminId f)).
Proof.
  cbv zeta.
  assert (Fields : forall f : TransactionFixing.t,
    TransactionFixing._id (Store.cancelled adminId f)
    = TransactionFixing._id f
    /\ TransactionFixing.type (Store.cancelled adminId f)
       = TransactionFixing.type f
    /\ TransactionFixing.partyId (Store.cancelled adminId f)
       = TransactionFixing.partyId f
    /\ TransactionFixing.orders (Store.cancelled adminId f)
       = TransactionFixing.orders f
    /\ TransactionFixing.isActive (Store.cancelled adminId f)
       = TransactionFixing.isActive f
    /\ TransactionFixing.status (Store.cancelled adminId f) = "cancelled"
    /\ TransactionFixing.updatedBy (Store.cancelled adminId f)
       = Some adminId).
  { intros f. repeat split; reflexivity. }
  unfold cancelTransaction, Store.try_catch, Store.bind, Store.await,
    Store.read, Store.store, Store.throw.
  destruct w as [s p]. cbn [Store.committed Store.pending].
  destruct (faulty Store.TransactionFixing_findById) eqn:F1;
    cbn [fst snd Store.committed Store.pending].
  { do 4 (split; [reflexivity|]). split; [reflexivity|].
    split; [now left|]. split; [exact Fields|]. intros f _ [=]. }
  destruct (Store.transactionFixings s !! id) as [f0|] eqn:L;
    cbn [fst snd Store.committed Store.pending].
  2:{ do 4 (split; [reflexivity|]). split; [reflexivity|].
      split; [now left|]. split; [exact Fields|]. intros f [=]. }
  destruct (faulty Store.TransactionFixing_findByIdAndUpdate) eqn:F2;
    cbn [fst snd Store.committed Store.pending Store.apply
         Store.accounts Store.registry Store.metalTransactions
         Store.transactionFixings].
  { do 4 (split; [reflexivity|]). split; [reflexivity|].
    split; [now left|]. split; [exact Fields|]. intros f _ _ [=]. }
  do 4 (split; [reflexivity|]).
  split; [intros other Hne; now rewrite lookup_alter_ne|].
  split; [right; now rewrite lookup_alter_eq, L|].
  split; [exact Fields|].
  intros f [= <-] _ _. now rewrite lookup_alter_eq, L.
Qed.

End Cancel.

(** ** Delete of a metal transaction *)

Section Delete.

Variable faulty : Store.call -> bool.

(** What a delete does to the committed store, by outcome.  When it
    returns, the postings of the transaction are gone, its row is gone and
    the party's balances carry the reversal.  When it throws, the accounts
    and the transaction rows are as before, and the postings are either as
    before or already deleted. *)
Lemma deleteMetalTransaction_outcome (transactionId adminId : ObjectId)
    (s : Store.t) :
  let run :=
    deleteMetalTransaction faulty transactionId adminId
      (Store.mkWorld s []) in
  let s' := Store.committed (snd run) in
  Store.pending (snd run) = []
  /\ Store.transactionFixings s' = Store.transactionFixings s
  /\ match fst run with
     | Ok _ =>
         exists (t : MetalTransaction.t) (party : Account.t),
           Store.metalTransactions s !! transactionId = Some t
           /\ Store.accounts s !! MetalTransaction.partyCode t = Some party
           /\ Store.registry s'
              = filter (fun r => Registry.metalTransactionId r
                                 <> Some (MetalTransaction._id t))
                  (Store.registry s)
           /\ Store.metalTransactions s'
              = delete transactionId (Store.metalTransactions s)
           /\ Store.accounts s'
              = alter (Store.applyOps
                         (tradeDebtorsOps true (balanceChangesOf t)))
                  (Account._id party) (Store.accounts s)
     | Throw _ =>
         Store.accounts s' = Store.accounts s
         /\ Store.metalTransactions s' = Store.metalTransactions s
         /\ (Store.registry s' = Store.registry s
             \/ exists t : MetalTransaction.t,
                  Store.metalTransactions s !! transactionId = Some t
                  /\ Store.registry s'
                     = filter (fun r => Registry.metalTransactionId r
                                        <> Some (MetalTransaction._id t))
                         (Store.registry s))
     end.
Proof.
  cbv zeta.
  unfold deleteMetalTransaction, deleteRegistryEntry,
    updateTradeDebtorsBalances, Store.commitTransaction, Store.try_catch,
    Store.bind, Store.await, Store.read, Store.store, Store.throw,
    Store.ret, Store.startTransaction, Store.abortTransaction, Store.view.
  cbn [Store.committed Store.pending fold_left fst snd].
  destruct (faulty Store.MetalTransaction_findById);
    cbn [Store.committed Store.pending fold_left fst snd app];
    [now auto 10|].
  destruct (Store.metalTransactions s !! transactionId) as [t|] eqn:Lt;
    cbn [Store.committed Store.pending fold_left fst snd app];
    [|now auto 10].
  destruct (MetalTransaction.isActive t);
    cbn [negb Store.committed Store.pending fold_left fst snd app];
    [|now auto 10].
  destruct (faulty Store.Registry_deleteMany);
    cbn [Store.committed Store.pending fold_left fst snd app];
    [now auto 10|].
  destruct (faulty Store.Account_findById);
    cbn [Store.committed Store.pending fold_left fst snd app Store.apply
         Store.accounts Store.registry Store.metalTransactions
         Store.transactionFixings];
    [now eauto 10|].
  destruct (Store.accounts s !! MetalTransaction.partyCode t)
    as [party|] eqn:Lp;
    cbn [Store.committed Store.pending fold_left fst snd app Store.apply
         Store.accounts Store.registry Store.metalTransactions
         Store.transactionFixings];
    [|now eauto 10].
  destruct (Store.accounts s !! Account._id party) as [party'|] eqn:Lp';
    cbn [Store.committed Store.pending fold_left fst snd app Store.apply
         Store.accounts Store.registry Store.metalTransactions
         Store.transactionFixings];
    [|now eauto 10].
  destruct (faulty Store.Account_findByIdAndUpdate);
    cbn [Store.committed Store.pending fold_left fst snd app Store.apply
         Store.accounts Store.registry Store.metalTransactions
         Store.transactionFixings];
    [now eauto 10|].
  destruct (faulty Store.Account_save);
    cbn [Store.committed Store.pending fold_left fst snd app Store.apply
         Store.accounts Store.registry Store.metalTransactions
         Store.transactionFixings];
    [now eauto 10|].
  destruct (faulty Store.MetalTransaction_deleteOne);
    cbn [Store.committed Store.pending fold_left fst snd app Store.apply
         Store.accounts Store.registry Store.metalTransactions
         Store.transactionFixings];
    [now eauto 10|].
  destruct (faulty Store.Session_commitTransaction);
    cbn [Store.committed Store.pending fold_left fst snd app Store.apply
         Store.accounts Store.registry Store.metalTransactions
         Store.transactionFixings];
    [now eauto 10|].
  split; [reflexivity|]. split; [reflexivity|].
  exists t, party. auto.
Qed.

End Delete.

Section DeleteExamples.

(** C3 at the posted sample, with the deletion of the transaction row
    rejected by the store: the delete throws and the session is aborted,
    the account and the transaction row are as before, and the four
    postings of the transaction are gone all the same. *)
Theorem C3_aborted_delete_has_deleted_postings :
  let run :=
    deleteMetalTransaction (rejecting Store.MetalTransaction_deleteOne)
      2 9 (Store.mkWorld postedStore []) in
  fst run = Throw (StoreError "rejected")
  /\ map Registry.transactionId (Store.registry postedStore)
     = ["TXN-2025-550-001"; "TXN-2025-550-003"; "TXN-2025-550-005";
        "TXN-2025-550-006"]
  /\ Store.registry (Store.committed (snd run)) = []
  /\ Store.accounts (Store.committed (snd run)) = Store.accounts postedStore
  /\ Store.metalTransactions (Store.committed (snd run))
     = Store.metalTransactions postedStore
  /\ Store.metalTransactions postedStore !! 2%nat = Some sampleUnfixPurchase
  /\ Store.pending (snd run) = [].
Proof. vm_compute. repeat split; reflexivity. Qed.

(** The same when the party's account is missing: [party._id] throws
    after the postings were deleted. *)
Lemma delete_without_party_has_deleted_postings :
  let orphaned :=
    Store.mk ∅ (Store.registry postedStore)
      (Store.metalTransactions postedStore) ∅ in
  let run := deleteMetalTransaction reliable 2 9 (Store.mkWorld orphaned []) in
  fst run = Throw (TypeError "Cannot read properties of null")
  /\ Store.registry (Store.committed (snd run)) = []
  /\ Store.metalTransactions (Store.committed (snd run)) !! 2%nat
     = Some sampleUnfixPurchase.
Proof. vm_compute. repeat split; reflexivity. Qed.

(** With no call rejected the delete returns; postings and row are gone
    and the balances carry the reversal. *)
Lemma delete_of_posted_sample :
  let run := deleteMetalTransaction reliable 2 9 (Store.mkWorld postedStore []) in
  fst run = Ok "Metal transaction deleted successfully"
  /\ Store.registry (Store.committed (snd run)) = []
  /\ Store.metalTransactions (Store.committed (snd run)) !! 2%nat = None
  /\ (Account.totalGrams <$> Store.accounts (Store.committed (snd run)) !! 7%nat)
     = Some zero.
Proof.
  cbv zeta. split; [vm_compute; reflexivity|].
  split; [vm_compute; reflexivity|].
  split; [vm_compute; reflexivity|]. compute_done.
Qed.

End DeleteExamples.

(** ** Rounding of the net cash change *)

Section Rounding.

Lemma round_half_up_2_two_decimals (x : Qc) :
  exists n : Z, round_half_up_2 x = qc n 100.
Proof.
  exists (Qfloor (this x * 100 + (1 # 2))%Q).
  unfold round_half_up_2, qc. apply Q2Qc_eq_iff.
  unfold Qeq, Qdiv, Qmult, Qinv, inject_Z; simpl. lia.
Qed.

Lemma opp_two_decimals (n : Z) : - qc n 100 = qc (- n) 100.
Proof.
  unfold qc. apply Qc_is_canon. simpl.
  rewrite !Qred_correct. reflexivity.
Qed.

(** The rounded magnitude is within half a hundredth of the magnitude,
    the tie going up. *)
Lemma round_half_up_2_near (x : Qc) :
  (this x - (1 # 200) < this (round_half_up_2 x) <= this x + (1 # 200))%Q.
Proof.
  unfold round_half_up_2, Q2Qc. cbn [this]. rewrite Qred_correct.
  set (y := (this x * 100 + (1 # 2))%Q).
  pose proof (Qfloor_le y) as L.
  pose proof (Qlt_floor y) as U.
  rewrite inject_Z_plus in U.
  set (f := inject_Z (Qfloor y)) in *.
  unfold y in *. clearbody f. clear y.
  change (inject_Z 1) with 1%Q in U.
  unfold Qdiv. change (/ 100)%Q with (1 # 100)%Q.
  split; lra.
Qed.

Lemma this_opp (x : Qc) : (this (- x) == - this x)%Q.
Proof. unfold Qcopp, Q2Qc. cbn [this]. apply Qred_correct. Qed.

Lemma qc_this (n : Z) (d : positive) : (this (qc n d) == n # d)%Q.
Proof. unfold qc, Q2Qc. cbn [this]. apply Qred_correct. Qed.

(** Below [10^21], [parseFloat(x.toFixed(2))] is the number that a
    decimal of two digits denotes, and that decimal is within half a
    hundredth of [x]. *)
Lemma toFixed2_cents (x : Qc) :
  ~ (toFixedLimit <= x) -> ~ (toFixedLimit <= - x) ->
  exists n : Z,
    toFixed2 (Num x) = Num (double n 100)
    /\ (this x - (1 # 200) <= n # 100 <= this x + (1 # 200))%Q.
Proof.
  intros Hp Hn. unfold toFixed2, double.
  rewrite (bool_decide_eq_false_2 _ Hp), (bool_decide_eq_false_2 _ Hn).
  destruct (bool_decide (x < 0)).
  - destruct (round_half_up_2_two_decimals (- x)) as [n E].
    exists (- n)%Z. rewrite E, <- round64_opp, opp_two_decimals.
    split; [reflexivity|].
    pose proof (round_half_up_2_near (- x)) as [A B].
    rewrite E in A, B.
    pose proof (this_opp x) as E1.
    pose proof (qc_this n 100) as E2.
    assert (E3 : (- n # 100 == - (n # 100))%Q) by reflexivity.
    split; lra.
  - destruct (round_half_up_2_two_decimals x) as [n E].
    exists n. rewrite E. split; [reflexivity|].
    pose proof (round_half_up_2_near x) as [A B].
    rewrite E in A, B.
    pose proof (qc_this n 100) as E2.
    split; lra.
Qed.

Lemma not_two_decimals_eighth : ~ two_decimals (Num (qc (-81) 8)).
Proof.
  intros [n H]. unfold qc in H. apply Q2Qc_eq_iff in H.
  unfold Qeq in H; simpl in H. lia.
Qed.

(** C6 at the posted sample, whose net cash change is the making charges
    of 10.125.  Create adds [10.13] to the cash balance, the rounded
    amount; the reversal that delete (and the first half of update)
    issues through [updateTradeDebtorsBalances] is [-10.125], not
    rounded, and after create and delete the cash balance is the
    difference of the two, [0.00500000000000078...]. *)
Theorem C6_reversal_is_not_rounded :
  netCashChange (balanceChangesOf sampleUnfixPurchase) = Num (qc 81 8)
  /\ UpdateOps.inc_cashAmount
       (buildUpdateOperations (balanceChangesOf sampleUnfixPurchase))
     = Some (Num (double 1013 100))
  /\ UpdateOps.inc_cashAmount
       (tradeDebtorsOps true (balanceChangesOf sampleUnfixPurchase))
     = Some (Num (qc (-81) 8))
  /\ ~ two_decimals (Num (qc (-81) 8))
  /\ (Account.cashAmount <$> Store.accounts postedStore !! 7%nat)
     = Some (Num (double 1013 100))
  /\ (Account.cashAmount
        <$> Store.accounts
              (Store.committed
                 (snd (deleteMetalTransaction reliable 2 9
                         (Store.mkWorld postedStore [])))) !! 7%nat)
     = Some (Num (qc 2814749767107 562949953421312)).
Proof.
  split; [compute_done|]. split; [compute_done|]. split; [compute_done|].
  split; [exact not_two_decimals_eighth|].
  split; compute_done.
Qed.

End Rounding.

Section CancelExamples.

Import TransactionFixingService.

(** C8 at the sample fixing transaction: the cancel returns the document
    with status ["cancelled"], and the account and the posting are as
    before. *)
Lemma C8_cancel_is_status_only_witness :
  Store.transactionFixings fixingStore !! 3%nat = Some sampleFixing
  /\ reliable Store.TransactionFixing_findById = false
  /\ reliable Store.TransactionFixing_findByIdAndUpdate = false
  /\ fst (cancelTransaction reliable 3 9 (Store.mkWorld fixingStore []))
     = Ok (Some (Store.cancelled 9 sampleFixing))
  /\ Store.accounts
       (Store.committed
          (snd (cancelTransaction reliable 3 9
                  (Store.mkWorld fixingStore []))))
     = Store.accounts fixingStore
  /\ Store.registry
       (Store.committed
          (snd (cancelTransaction reliable 3 9
                  (Store.mkWorld fixingStore []))))
     = Store.registry fixingStore.
Proof.
  pose proof (C8_cancel_is_status_only reliable 3 9
                (Store.mkWorld fixingStore [])) as T.
  cbv zeta in T.
  destruct T as (A & R & _ & _ & _ & _ & _ & K).
  assert (L : Store.transactionFixings fixingStore !! 3%nat
              = Some sampleFixing) by (vm_compute; reflexivity).
  split; [exact L|]. split; [reflexivity|]. split; [reflexivity|].
  split; [exact (proj1 (K sampleFixing L eq_refl eq_refl))|].
  split; [exact A | exact R].
Defined.

(** In contrast, deleting the sample fixing transaction moves the
    balances of the party (10 g of gold back, 2500 of cash off), deletes
    the posting and the row. *)
Lemma fixing_delete_is_a_reversal :
  let run := deleteTransaction reliable 3 9 (Store.mkWorld fixingStore []) in
  fst run = Ok sampleFixing
  /\ Store.registry (Store.committed (snd run)) = []
  /\ Store.transactionFixings (Store.committed (snd run)) !! 3%nat = None
  /\ (Account.totalGrams
        <$> Store.accounts (Store.committed (snd run)) !! 7%nat)
     = Some (Num (qc 10 1))
  /\ (Account.cashAmount
        <$> Store.accounts (Store.committed (snd run)) !! 7%nat)
     = Some (Num (qc (-2500) 1)).
Proof.
  cbv zeta. split; [vm_compute; reflexivity|].
  split; [vm_compute; reflexivity|].
  split; [vm_compute; reflexivity|]. split; compute_done.
Qed.

End CancelExamples.

(* ================================================================== *)
(** * Further properties *)
(* ================================================================== *)

(** ** Validation of a request *)

Section Validation.

Lemma validateObjectIds_Ok (fields : list (string * reference)) :
  validateObjectIds fields = Ok tt
  <-> Forall (fun f => snd f <> InvalidReference) fields.
Proof.
  induction fields as [|[field value] rest IH]; simpl.
  - split; [constructor | reflexivity].
  - destruct value; simpl.
    + rewrite IH. split; [constructor; [discriminate | assumption]|].
      now inversion 1.
    + rewrite IH. split; [constructor; [discriminate | assumption]|].
      now inversion 1.
    + split; [discriminate|]. inversion 1; subst. simpl in *. congruence.
Qed.

Lemma validateObjectIds_throws (fields : list (string * reference))
    (e : exn) :
  validateObjectIds fields = Throw e -> badRequest e.
Proof.
  induction fields as [|[field value] rest IH]; simpl; [discriminate|].
  destruct (truthyReference value && negb (isValidObjectId value));
    [|exact IH].
  intros [= <-]. unfold badRequest. eauto.
Qed.

Lemma acceptableItem_checks (item : RawItem.t) :
  acceptableItem item
  <-> (negb (truthyReference (RawItem.stockCode item))
       || negb (isValidObjectId (RawItem.stockCode item)) = false)
      /\ truthyReference (RawItem.metalRate item)
         && negb (isValidObjectId (RawItem.metalRate item)) = false
      /\ notNumberOrNegative (RawItem.pureWeight item) = false
      /\ notNumberOrNegative (RawItem.grossWeight item) = false
      /\ notFraction (RawItem.purity item) = false.
Proof.
  unfold acceptableItem, notNumberOrNegative, notFraction.
  destruct item as [sc mr pw gw pu]; simpl. split.
  - intros ((id & ->) & Hmr & (w1 & -> & H1) & (w2 & -> & H2)
            & (f & -> & H3 & H4)).
    repeat split; try assumption; try reflexivity.
    + destruct mr; try reflexivity. contradiction.
    + now rewrite H3, H4.
  - intros (Hsc & Hmr & Hpw & Hgw & Hpu).
    split; [destruct sc; try discriminate; eauto|].
    split; [destruct mr; try discriminate; congruence|].
    split; [destruct pw; try discriminate; eauto|].
    split; [destruct gw; try discriminate; eauto|].
    destruct pu as [f|]; [|discriminate].
    apply orb_false_iff in Hpu. destruct Hpu. eauto.
Qed.

Lemma validateStockItems_Ok (items : list RawItem.t) :
  forall index : nat,
    validateStockItems items index = Ok tt <-> Forall acceptableItem items.
Proof.
  induction items as [|item rest IH]; intros index; simpl.
  - split; [constructor | reflexivity].
  - rewrite Forall_cons, acceptableItem_checks.
    destruct (negb (truthyReference (RawItem.stockCode item))
              || negb (isValidObjectId (RawItem.stockCode item)));
      [split; [discriminate | intros [[[=] _] _]]|].
    destruct (truthyReference (RawItem.metalRate item)
              && negb (isValidObjectId (RawItem.metalRate item)));
      [split; [discriminate | intros [(_ & [=] & _) _]]|].
    destruct (notNumberOrNegative (RawItem.pureWeight item));
      [split; [discriminate | intros [(_ & _ & [=] & _) _]]|].
    destruct (notNumberOrNegative (RawItem.grossWeight item));
      [split; [discriminate | intros [(_ & _ & _ & [=] & _) _]]|].
    destruct (notFraction (RawItem.purity item));
      [split; [discriminate | intros [(_ & _ & _ & _ & [=]) _]]|].
    rewrite IH. tauto.
Qed.

Lemma validateStockItems_throws (items : list RawItem.t) (e : exn) :
  forall index : nat,
    validateStockItems items index = Throw e -> badRequest e.
Proof.
  unfold badRequest.
  induction items as [|item rest IH]; intros index; simpl; [discriminate|].
  repeat (match goal with
          | |- context [if ?c then _ else _] => destruct c
          end; [intros [= <-]; eauto|]).
  apply IH.
Qed.

Lemma missingFields_nil (d : TransactionData.t) :
  length (missingFields d) = 0%nat
  <-> truthyReference (TransactionData.partyCode d) = true
      /\ truthyString (TransactionData.transactionType d) = true
      /\ truthyStockItems (TransactionData.stockItems d) = true
      /\ truthyString (TransactionData.voucherDate d) = true
      /\ truthyString (TransactionData.voucherNumber d) = true.
Proof.
  unfold missingFields.
  destruct (truthyReference _), (truthyString (TransactionData.transactionType d)),
    (truthyStockItems _), (truthyString (TransactionData.voucherDate d)),
    (truthyString (TransactionData.voucherNumber d)); simpl;
    intuition congruence.
Qed.

Lemma truthyString_kind (kind : string) :
  In kind kinds -> truthyString (Some kind) = true.
Proof.
  simpl. intros [<-|[<-|[<-|[<-|[]]]]]; reflexivity.
Qed.

(** X1. [validateTransactionData] returns [true] exactly for the requests
    that name a valid party, one of the four kinds, a voucher date and
    number, a non-empty array of stock items, no malformed currency or
    admin reference, and whose every stock item has a valid stock code, no
    malformed metal rate, weights that are numbers not below zero and a
    purity that is a number in (0, 1] (a [NaN] passes each numeric test).
    It never returns [false], and every error it throws has status 400. *)
Theorem X1_validation_accepts_exactly (transactionData : TransactionData.t)
    (adminId : reference) :
  (validateTransactionData transactionData adminId = Ok true
   <-> acceptable transactionData adminId)
  /\ validateTransactionData transactionData adminId <> Ok false
  /\ (forall e : exn,
        validateTransactionData transactionData adminId = Throw e ->
        badRequest e).
Proof.
  unfold validateTransactionData, acceptable.
  destruct (bool_decide (length (missingFields transactionData) = 0%nat))
    eqn:Hm; cbn [negb].
  2:{ split; [split; [discriminate|]|split; [discriminate|]].
      - intros ((id & Hp) & (kind & Hk & Hin) & Hd & Hn
                & (items & Hi & _) & _).
        apply bool_decide_eq_false in Hm. exfalso. apply Hm.
        apply missingFields_nil. rewrite Hp, Hk, Hi.
        repeat split; try assumption. now apply truthyString_kind.
      - intros e [= <-]. unfold badRequest. eauto. }
  apply bool_decide_eq_true in Hm. apply missingFields_nil in Hm.
  destruct Hm as (Tp & Tt & Ti & Td & Tn).
  match goal with
  | |- context [bool_decide (In ?x ?l)] =>
      destruct (bool_decide (In x l)) eqn:Hk
  end; cbn [negb].
  2:{ apply bool_decide_eq_false in Hk.
      split; [split; [discriminate|]|split; [discriminate|]].
      - intros (_ & (kind & Hkind & Hin) & _). exfalso. apply Hk.
        rewrite Hkind. exact Hin.
      - intros e [= <-]. unfold badRequest. eauto. }
  apply bool_decide_eq_true in Hk.
  destruct (TransactionData.stockItems transactionData)
    as [| |[|item rest]] eqn:Hi.
  1-3: (split; [split; [discriminate|]|split; [discriminate|]];
        [ intros (_ & _ & _ & _ & (items & [=] & Hne & _) & _);
          try (subst items; exfalso; now apply Hne)
        | intros e [= <-]; unfold badRequest; eauto ]).
  destruct (validateObjectIds _) as [[]|e0] eqn:Ho.
  2:{ split; [split; [discriminate|]|split; [discriminate|]].
      - intros ((id & Hp) & _ & _ & _ & _ & Hc1 & Hc2 & Hc3 & Ha).
        assert (F : validateObjectIds
                      [("partyCode", TransactionData.partyCode transactionData);
                       ("partyCurrency",
                        TransactionData.partyCurrency transactionData);
                       ("itemCurrency",
                        TransactionData.itemCurrency transactionData);
                       ("baseCurrency",
                        TransactionData.baseCurrency transactionData);
                       ("adminId", adminId)] = Ok tt).
        { apply validateObjectIds_Ok. repeat constructor; simpl;
            try assumption. rewrite Hp. discriminate. }
        rewrite F in Ho. discriminate.
      - intros e [= <-]. eapply validateObjectIds_throws. exact Ho. }
  apply validateObjectIds_Ok in Ho.
  destruct (validateStockItems (item :: rest) 0) as [[]|e1] eqn:Hs.
  2:{ split; [split; [discriminate|]|split; [discriminate|]].
      - intros (_ & _ & _ & _ & (items & [= <-] & _ & Hf) & _).
        apply (validateStockItems_Ok _ 0%nat) in Hf.
        rewrite Hf in Hs. discriminate.
      - intros e [= <-]. eapply validateStockItems_throws. exact Hs. }
  apply validateStockItems_Ok in Hs.
  split; [split; [intros _|reflexivity]|split; [discriminate|discriminate]].
  inversion Ho as [|? ? Hp Ho1]; subst. inversion Ho1 as [|? ? Hc1 Ho2]; subst.
  inversion Ho2 as [|? ? Hc2 Ho3]; subst. inversion Ho3 as [|? ? Hc3 Ho4]; subst.
  inversion Ho4 as [|? ? Ha _]; subst. simpl in *.
  split.
  { destruct (TransactionData.partyCode transactionData);
      [discriminate | eauto | contradiction]. }
  split.
  { destruct (TransactionData.transactionType transactionData) as [kind|];
      [|discriminate]. exists kind. split; [reflexivity | exact Hk]. }
  split; [exact Td|]. split; [exact Tn|].
  split; [exists (item :: rest); repeat split; [discriminate | exact Hs]|].
  repeat split; assumption.
Qed.

(** A request that passes: a purchase of one stock line of 100 g pure,
    105 g gross, purity 0.95. *)
Lemma X1_validation_accepts_exactly_witness :
  let request :=
    {| TransactionData.partyCode := ValidReference 7;
       TransactionData.transactionType := Some "purchase";
       TransactionData.stockItems :=
         StockItemsArray
           [{| RawItem.stockCode := ValidReference 11;
               RawItem.metalRate := NoReference;
               RawItem.pureWeight := Some (Num (qc 100 1));
               RawItem.grossWeight := Some (Num (qc 105 1));
               RawItem.purity := Some (Num (qc 95 100)) |}];
       TransactionData.voucherDate := Some "2025-01-31";
       TransactionData.voucherNumber := Some "PUR-0001";
       TransactionData.partyCurrency := ValidReference 5;
       TransactionData.itemCurrency := NoReference;
       TransactionData.baseCurrency := NoReference |} in
  acceptable request NoReference
  /\ validateTransactionData request NoReference = Ok true.
Proof.
  intros request.
  assert (A : acceptable request NoReference).
  { unfold acceptable, request; simpl.
    split; [eauto|]. split; [exists "purchase"; simpl; auto|].
    split; [reflexivity|]. split; [reflexivity|].
    split.
    { eexists. split; [reflexivity|]. split; [discriminate|].
      repeat constructor; simpl; try discriminate; eauto. }
    repeat split; discriminate. }
  split; [exact A|].
  exact (proj2 (proj1 (X1_validation_accepts_exactly request NoReference)) A).
Defined.

End Validation.

(** ** Premium and discount breakdown *)

Section BreakdownFacts.

Lemma gt0_not_lt0 (a : jsnum) : gt0 a = true -> lt0 a = false.
Proof.
  destruct a as [x|]; simpl; [|reflexivity].
  intros H. apply bool_decide_eq_true in H.
  apply bool_decide_eq_false. intros Hn.
  exact (Qclt_not_le _ _ H (Qclt_le_weak _ _ Hn)).
Qed.

Lemma lt0_abs_gt0 (a : jsnum) : lt0 a = true -> gt0 (abs a) = true.
Proof.
  destruct a as [x|]; simpl; [|discriminate].
  intros H. rewrite H. simpl.
  apply bool_decide_eq_true in H. apply bool_decide_eq_true.
  pose proof (Qcopp_le_compat _ _ (Qclt_le_weak _ _ H)) as H'.
  rewrite Qc_opp_zero in H'.
  destruct (Qcle_lt_or_eq _ _ H') as [Hlt|Heq]; [exact Hlt|].
  exfalso. rewrite <- (Qcopp_involutive x), <- Heq, Qc_opp_zero in H.
  exact (Qc_lt_irrefl _ H).
Qed.

(** What the reduction keeps: the two totals follow the totals
    calculator, and the listed items are positive amounts of their
    type. *)
Lemma breakdown_fold (stockItems : list StockLine.t) :
  forall (acc : Breakdown.t) (totals : Totals.t),
    Breakdown.totalPremium acc = Totals.premium totals ->
    Breakdown.totalDiscount acc = Totals.discount totals ->
    Breakdown.totalPremium (fold_left breakdownStep stockItems acc)
    = Totals.premium
        (fold_left reducer (map StockLine.item stockItems) totals)
    /\ Breakdown.totalDiscount (fold_left breakdownStep stockItems acc)
       = Totals.discount
           (fold_left reducer (map StockLine.item stockItems) totals).
Proof.
  induction stockItems as [|line rest IH]; intros acc totals Hp Hd;
    cbn [fold_left map]; [split; assumption|].
  apply IH; unfold breakdownStep, reducer; cbn [Totals.premium Totals.discount];
    set (pda := or_else (Item.premiumTotal (StockLine.item line))
                  (or_else (Item.premiumAmount (StockLine.item line)) zero));
    destruct (gt0 pda) eqn:G.
  - cbn. now rewrite Hp.
  - destruct (lt0 pda); cbn; now rewrite Hp, add_zero_r.
  - rewrite (gt0_not_lt0 _ G). cbn. now rewrite Hd, add_zero_r.
  - destruct (lt0 pda); cbn; [now rewrite Hd | now rewrite Hd, add_zero_r].
Qed.

Lemma breakdown_items (stockItems : list StockLine.t) :
  forall acc : Breakdown.t,
    let listed (kind : string) (e : Breakdown.entry) :=
      gt0 (Breakdown.amount e) = true /\ Breakdown.type e = kind in
    Forall (listed "premium") (Breakdown.premiumItems acc) ->
    Forall (listed "discount") (Breakdown.discountItems acc) ->
    Forall (listed "premium")
      (Breakdown.premiumItems (fold_left breakdownStep stockItems acc))
    /\ Forall (listed "discount")
         (Breakdown.discountItems (fold_left breakdownStep stockItems acc))
    /\ (length (Breakdown.premiumItems
                  (fold_left breakdownStep stockItems acc))
        + length (Breakdown.discountItems
                    (fold_left breakdownStep stockItems acc))
        <= length (Breakdown.premiumItems acc)
           + length (Breakdown.discountItems acc)
           + length stockItems)%nat.
Proof.
  cbv zeta.
  induction stockItems as [|line rest IH]; intros acc Hp Hd;
    cbn [fold_left length].
  - repeat split; [assumption | assumption | lia].
  - set (pda := or_else (Item.premiumTotal (StockLine.item line))
                  (or_else (Item.premiumAmount (StockLine.item line)) zero)).
    assert (S : let acc' := breakdownStep acc line in
              Forall (fun e => gt0 (Breakdown.amount e) = true
                               /\ Breakdown.type e = "premium")
                (Breakdown.premiumItems acc')
              /\ Forall (fun e => gt0 (Breakdown.amount e) = true
                                  /\ Breakdown.type e = "discount")
                   (Breakdown.discountItems acc')
              /\ (length (Breakdown.premiumItems acc')
                  + length (Breakdown.discountItems acc')
                  <= length (Breakdown.premiumItems acc)
                     + length (Breakdown.discountItems acc) + 1)%nat).
    { cbv zeta. unfold breakdownStep. fold pda.
      destruct (gt0 pda) eqn:G; [|destruct (lt0 pda) eqn:L]; cbn.
      - split; [|split; [assumption|rewrite length_app; simpl; lia]].
        apply Forall_app. split; [assumption|].
        constructor; [|constructor]. split; [exact G | reflexivity].
      - split; [assumption|].
        split; [|rewrite length_app; simpl; lia].
        apply Forall_app. split; [assumption|].
        constructor; [|constructor].
        split; [now apply lt0_abs_gt0 | reflexivity].
      - repeat split; [assumption | assumption | lia]. }
    cbv zeta in S. destruct S as (S1 & S2 & S3).
    destruct (IH (breakdownStep acc line) S1 S2) as (I1 & I2 & I3).
    repeat split; [assumption | assumption | lia].
Qed.

(** X2. The premium and discount totals of [getPremiumDiscountBreakdown]
    are the [premium] and [discount] of [calculateTotals] on the same
    stock items; its premium items and discount items carry positive
    amounts and together are no more than the stock items. *)
Theorem X2_breakdown_agrees_with_totals (stockItems : list StockLine.t)
    (totalAmountAED : option jsnum) :
  let breakdown := getPremiumDiscountBreakdown stockItems in
  let totals :=
    calculateTotals (map StockLine.item stockItems) totalAmountAED in
  Breakdown.totalPremium breakdown = Totals.premium totals
  /\ Breakdown.totalDiscount breakdown = Totals.discount totals
  /\ Forall (fun e => gt0 (Breakdown.amount e) = true
                      /\ Breakdown.type e = "premium")
       (Breakdown.premiumItems breakdown)
  /\ Forall (fun e => gt0 (Breakdown.amount e) = true
                      /\ Breakdown.type e = "discount")
       (Breakdown.discountItems breakdown)
  /\ (length (Breakdown.premiumItems breakdown)
      + length (Breakdown.discountItems breakdown)
      <= length stockItems)%nat.
Proof.
  cbv zeta. unfold getPremiumDiscountBreakdown, calculateTotals.
  set (start := {| Breakdown.totalPremium := zero;
                   Breakdown.totalDiscount := zero;
                   Breakdown.premiumItems := [];
                   Breakdown.discountItems := [] |}).
  destruct (breakdown_fold stockItems start initialTotals eq_refl eq_refl)
    as [Hp Hd].
  pose proof (breakdown_items stockItems start) as H. cbv zeta in H.
  destruct H as (I1 & I2 & I3); [constructor | constructor |].
  split; [exact Hp|]. split; [exact Hd|].
  split; [exact I1|]. split; [exact I2|]. simpl in I3. exact I3.
Qed.

End BreakdownFacts.

(** ** Allow-list of an update *)

Section AllowList.

Context {V : Type}.

Lemma applyTransactionUpdates_frame (updateData : list (string * V))
    (key : string) :
  ~ In key allowedFields \/ ~ In key (map fst updateData) ->
  forall transaction : gmap string V,
    applyTransactionUpdates transaction updateData !! key
    = transaction !! key.
Proof.
  unfold applyTransactionUpdates.
  induction updateData as [|[k v] rest IH]; intros Hkey transaction;
    cbn [fold_left]; [reflexivity|].
  rewrite IH.
  - destruct (bool_decide (In k allowedFields)) eqn:A; [|reflexivity].
    apply bool_decide_eq_true in A.
    apply lookup_insert_ne. intros ->.
    destruct Hkey as [Hkey|Hkey]; [now apply Hkey|].
    apply Hkey. now left.
  - destruct Hkey as [Hkey|Hkey]; [now left|].
    right. intros Hin. apply Hkey. now right.
Qed.

Lemma applyTransactionUpdates_set (updateData : list (string * V))
    (key : string) (value : V) :
  NoDup (map fst updateData) ->
  In (key, value) updateData ->
  In key allowedFields ->
  forall transaction : gmap string V,
    applyTransactionUpdates transaction updateData !! key = Some value.
Proof.
  unfold applyTransactionUpdates.
  induction updateData as [|[k v] rest IH]; intros Hnd Hin Hal transaction;
    cbn [fold_left]; [destruct Hin|].
  cbn [map fst] in Hnd. apply NoDup_cons in Hnd. destruct Hnd as [Hk Hnd].
  destruct Hin as [[= -> ->]|Hin].
  - rewrite (bool_decide_eq_true_2 _ Hal).
    pose proof (applyTransactionUpdates_frame rest key) as F.
    unfold applyTransactionUpdates in F. rewrite F.
    + apply lookup_insert_eq.
    + right. intros Hin. apply Hk. now apply list_elem_of_In.
  - now apply IH.
Qed.

(** X3. [applyTransactionUpdates] changes no property outside the allow
    list (party, stock items, session total, voucher date and number,
    kind, [fixed], [unfix]) and none that the update does not name; a
    property on the list that the update names takes the value given. *)
Theorem X3_update_allow_list (transaction : gmap string V)
    (updateData : list (string * V)) :
  (forall key : string,
     ~ In key allowedFields \/ ~ In key (map fst updateData) ->
     applyTransactionUpdates transaction updateData !! key
     = transaction !! key)
  /\ (forall (key : string) (value : V),
        NoDup (map fst updateData) ->
        In (key, value) updateData ->
        In key allowedFields ->
        applyTransactionUpdates transaction updateData !! key = Some value).
Proof.
  split.
  - intros key Hkey. now apply applyTransactionUpdates_frame.
  - intros key value Hnd Hin Hal. now apply applyTransactionUpdates_set.
Qed.

End AllowList.

(** An update that names [status] and [voucherNumber]: the status stays,
    the voucher number is taken. *)
Lemma X3_update_allow_list_witness :
  let transaction : gmap string string :=
    {[ "status" := "completed"; "voucherNumber" := "PUR-0001" ]} in
  let updateData :=
    [("status", "draft"); ("voucherNumber", "PUR-0002")] in
  (~ In "status" allowedFields \/ ~ In "status" (map fst updateData))
  /\ applyTransactionUpdates transaction updateData !! "status"
     = transaction !! "status"
  /\ NoDup (map fst updateData)
  /\ In ("voucherNumber", "PUR-0002") updateData
  /\ In "voucherNumber" allowedFields
  /\ applyTransactionUpdates transaction updateData !! "voucherNumber"
     = Some "PUR-0002".
Proof.
  intros transaction updateData.
  destruct (X3_update_allow_list transaction updateData) as [F S].
  assert (H1 : ~ In "status" allowedFields
               \/ ~ In "status" (map fst updateData)).
  { left. compute_done. }
  assert (H2 : NoDup (map fst updateData)) by compute_done.
  assert (H3 : In ("voucherNumber", "PUR-0002") updateData)
    by (right; left; reflexivity).
  assert (H4 : In "voucherNumber" allowedFields) by compute_done.
  split; [exact H1|]. split; [exact (F "status" H1)|].
  split; [exact H2|]. split; [exact H3|]. split; [exact H4|].
  exact (S "voucherNumber" "PUR-0002" H2 H3 H4).
Defined.

(** ** When the posting builder throws *)

Section BuilderThrows.

Lemma single_item_premium (item : Item.t) (totalAmountAED : option jsnum) :
  gt0 (Totals.premium (calculateTotals [item] totalAmountAED))
  = gt0 (premiumDiscount item).
Proof.
  unfold calculateTotals, setTotalAmount, premiumDiscount, amount.
  cbn [fold_left reducer Totals.premium initialTotals].
  rewrite add_zero_l.
  destruct (gt0 (or_else (Item.premiumTotal item)
                   (or_else (Item.premiumAmount item) zero))) eqn:G;
    [exact G | reflexivity].
Qed.

Lemma pushItems_throws (transactionType mode : string)
    (metalTransactionId : ObjectId) (totalAmountAED : option jsnum)
    (party : Party.t) (baseTransactionId voucherNumber : string)
    (adminId : ObjectId) (stockItems : list Item.t) (e : exn) :
  forall entries : list (option Entry.t),
    pushItems transactionType mode metalTransactionId totalAmountAED party
      baseTransactionId voucherNumber adminId stockItems entries = Throw e
    <-> transactionType = "purchaseReturn"
        /\ mode <> "fix"
        /\ Exists (fun item => gt0 (premiumDiscount item) = true) stockItems
        /\ e = ReferenceError "goldBidValue".
Proof.
  induction stockItems as [|item rest IH]; intros entries; cbn [pushItems].
  - split; [discriminate|]. intros (_ & _ & Hex & _). inversion Hex.
  - destruct (entriesOfItem _ _ _ _ _ _ _ _ _) as [pushed|e0] eqn:E.
    + rewrite IH. rewrite Exists_cons.
      split; [tauto|]. intros (Ht & Hm & [Hi|Hr] & He); [|tauto].
      exfalso.
      assert (T : entriesOfItem transactionType mode metalTransactionId
                    (calculateTotals [item] totalAmountAED) party
                    baseTransactionId voucherNumber adminId item
                  = Throw e).
      { apply entriesOfItem_throws. rewrite single_item_premium. tauto. }
      rewrite T in E. discriminate.
    + apply entriesOfItem_throws in E.
      rewrite single_item_premium in E. destruct E as (Ht & Hm & Hp & ->).
      rewrite Exists_cons. split.
      * intros [= <-]. tauto.
      * intros (_ & _ & _ & ->). reflexivity.
Qed.

Lemma mode_not_fix (fixed unfix : bool) :
  getTransactionMode fixed unfix <> "fix" <-> fixed = false.
Proof. destruct fixed, unfix; cbn; split; congruence. Qed.

(** X4. [buildRegistryEntries] throws exactly when the transaction is a
    purchase return that is not fixed and one of its stock items has a
    positive premium; what it throws then is the reference error on
    [goldBidValue].  For every other transaction it returns a list. *)
Theorem X4_builder_throws_exactly (currentYear : nat) (random : Qc)
    (metalTransaction : MetalTransaction.t) (party : Party.t)
    (adminId : ObjectId) (e : exn) :
  buildRegistryEntries currentYear random metalTransaction party adminId
  = Throw e
  <-> MetalTransaction.transactionType metalTransaction = "purchaseReturn"
      /\ MetalTransaction.fixed metalTransaction = false
      /\ Exists (fun item => gt0 (premiumDiscount item) = true)
           (MetalTransaction.stockItems metalTransaction)
      /\ e = ReferenceError "goldBidValue".
Proof.
  unfold buildRegistryEntries.
  rewrite <- mode_not_fix with (unfix := MetalTransaction.unfix metalTransaction).
  destruct (pushItems _ _ _ _ _ _ _ _ _ _) as [pushed|e0] eqn:P.
  - split; [discriminate|]. intros H.
    apply (pushItems_throws _ _ (MetalTransaction._id metalTransaction)
             (MetalTransaction.totalAmountAED metalTransaction) party
             (generateTransactionId currentYear random)
             (MetalTransaction.voucherNumber metalTransaction) adminId
             _ e []) in H.
    rewrite H in P. discriminate.
  - apply pushItems_throws in P. split.
    + intros [= <-]. exact P.
    + intros (_ & _ & _ & ->). destruct P as (_ & _ & _ & ->). reflexivity.
Qed.

(** An unfixed purchase return of a line with a premium of 12 throws. *)
Lemma X4_builder_throws_exactly_witness :
  let returned :=
    sampleTransaction "purchaseReturn" false true [samplePremiumItem] in
  (MetalTransaction.transactionType returned = "purchaseReturn"
   /\ MetalTransaction.fixed returned = false
   /\ Exists (fun item => gt0 (premiumDiscount item) = true)
        (MetalTransaction.stockItems returned)
   /\ ReferenceError "goldBidValue" = ReferenceError "goldBidValue")
  /\ buildRegistryEntries 2025 (qc 1 2) returned sampleParty 9
     = Throw (ReferenceError "goldBidValue").
Proof.
  intros returned.
  assert (H : MetalTransaction.transactionType returned = "purchaseReturn"
              /\ MetalTransaction.fixed returned = false
              /\ Exists (fun item => gt0 (premiumDiscount item) = true)
                   (MetalTransaction.stockItems returned)
              /\ ReferenceError "goldBidValue"
                 = ReferenceError "goldBidValue").
  { split; [reflexivity|]. split; [reflexivity|].
    split; [|reflexivity]. constructor. vm_compute. reflexivity. }
  split; [exact H|].
  exact (proj2 (X4_builder_throws_exactly 2025 (qc 1 2) returned sampleParty
                  9 (ReferenceError "goldBidValue")) H).
Defined.

End BuilderThrows.

(** ** What every posting carries *)

Section PostingFacts.

(** A property that every item's postings have is kept by the loop. *)
Lemma pushItems_Forall (P : option Entry.t -> Prop)
    (transactionType mode : string) (metalTransactionId : ObjectId)
    (totalAmountAED : option jsnum) (party : Party.t)
    (baseTransactionId voucherNumber : string) (adminId : ObjectId) :
  (forall (item : Item.t) (totals : Totals.t)
          (pushed : list (option Entry.t)),
      entriesOfItem transactionType mode metalTransactionId totals party
        baseTransactionId voucherNumber adminId item = Ok pushed ->
      Forall P pushed) ->
  forall (stockItems : list Item.t) (entries res : list (option Entry.t)),
    Forall P entries ->
    pushItems transactionType mode metalTransactionId totalAmountAED party
      baseTransactionId voucherNumber adminId stockItems entries = Ok res ->
    Forall P res.
Proof.
  intros Hitem stockItems.
  induction stockItems as [|item rest IH]; intros entries res Hacc;
    cbn [pushItems].
  - intros [= <-]. exact Hacc.
  - destruct (entriesOfItem _ _ _ _ _ _ _ _ _) as [pushed|e] eqn:E;
      [|discriminate].
    apply IH. apply Forall_app. split; [exact Hacc|].
    eapply Hitem. exact E.
Qed.

Lemma filterBoolean_Forall (P : Entry.t -> Prop)
    (pushed : list (option Entry.t)) :
  Forall (pushed_with P) pushed -> Forall P (filterBoolean pushed).
Proof.
  unfold filterBoolean.
  induction 1 as [|x l Hx Hl IH]; simpl; [constructor|].
  destruct x as [e|]; simpl; [constructor; assumption | assumption].
Qed.

(** The case analysis over the eight builders, with the tactic that
    settles their legs. *)
Ltac over_builders legs :=
  unfold entriesOfItem, buildPurchaseEntries, buildSaleEntries,
    buildPurchaseReturnEntries, buildSaleReturnEntries;
  match goal with
  | |- context [String.eqb ?k "purchase"] =>
      destruct (String.eqb k "purchase") eqn:?E1;
      [ apply String.eqb_eq in E1; subst k
      | destruct (String.eqb k "sale") eqn:?E2;
        [ apply String.eqb_eq in E2; subst k
        | destruct (String.eqb k "purchaseReturn") eqn:?E3;
          [ apply String.eqb_eq in E3; subst k
          | destruct (String.eqb k "saleReturn") eqn:?E4;
            [ apply String.eqb_eq in E4; subst k | ] ] ] ]
  end;
  [ match goal with
    | |- context [String.eqb ?m "fix"] =>
        destruct (String.eqb m "fix"); intros [= <-];
        [ unfold buildPurchaseFixEntries | unfold buildPurchaseUnfixEntries ]
    end; legs
  | match goal with
    | |- context [String.eqb ?m "fix"] =>
        destruct (String.eqb m "fix"); intros [= <-];
        [ unfold buildSaleFixEntries | unfold buildSaleUnfixEntries ]
    end; legs
  | match goal with
    | |- context [String.eqb ?m "fix"] =>
        destruct (String.eqb m "fix") eqn:?Em;
        [ intros [= <-]; unfold buildPurchaseReturnFixEntries
        | apply String.eqb_neq in Em;
          unfold buildPurchaseReturnUnfixEntries;
          match goal with
          | |- context [gt0 (Totals.premium ?t)] =>
              destruct (gt0 (Totals.premium t)); [discriminate|]
          end;
          intros [= <-]; rewrite <- !app_assoc ]
    end; legs
  | match goal with
    | |- context [String.eqb ?m "fix"] =>
        destruct (String.eqb m "fix"); intros [= <-];
        [ unfold buildSaleReturnFixEntries
        | unfold buildSaleReturnUnfixEntries ]
    end; legs
  | intros [= <-]; constructor ].

Lemma push_if_provenance (mt : ObjectId) (party : Party.t) (base : string)
    (sfx ty d : string) (p : option ObjectId) (ib : bool)
    (v c : jsnum) (o : options) (r : string) (a : ObjectId) :
  p = (if bool_decide (In ty houseTypes)
       then None else Some (Party._id party)) ->
  ib = bool_decide (In ty bullionTypes) ->
  Forall (pushed_with (provenance mt party r a))
    (push_if (gt0 v) (createRegistryEntry base mt sfx ty d p ib v c o r a)).
Proof.
  intros Hp Hb. unfold push_if. destruct (gt0 v); [|constructor].
  constructor; [|constructor].
  unfold createRegistryEntry. destruct (le0 v && _); [exact I|].
  unfold pushed_with, provenance; cbn [Entry.metalTransactionId
    Entry.reference Entry.createdBy Entry.party Entry.type Entry.isBullion].
  repeat split; assumption.
Qed.

Lemma entriesOfItem_provenance (transactionType mode : string)
    (metalTransactionId : ObjectId) (totals : Totals.t) (party : Party.t)
    (baseTransactionId voucherNumber : string) (adminId : ObjectId)
    (item : Item.t) (pushed : list (option Entry.t)) :
  entriesOfItem transactionType mode metalTransactionId totals party
    baseTransactionId voucherNumber adminId item = Ok pushed ->
  Forall (pushed_with
            (provenance metalTransactionId party voucherNumber adminId))
    pushed.
Proof.
  over_builders
    ltac:(repeat (apply Forall_app; split);
          apply push_if_provenance; reflexivity).
Qed.

Lemma buildRegistryEntries_provenance (currentYear : nat) (random : Qc)
    (metalTransaction : MetalTransaction.t) (party : Party.t)
    (adminId : ObjectId) (entries : list Entry.t) :
  buildRegistryEntries currentYear random metalTransaction party adminId
  = Ok entries ->
  Forall (provenance (MetalTransaction._id metalTransaction) party
            (MetalTransaction.voucherNumber metalTransaction) adminId)
    entries.
Proof.
  unfold buildRegistryEntries.
  destruct (pushItems _ _ _ _ _ _ _ _ _ _) as [pushed|x] eqn:P;
    [|discriminate].
  intros [= <-]. apply filterBoolean_Forall.
  eapply pushItems_Forall; [|constructor|exact P].
  intros item totals l. apply entriesOfItem_provenance.
Qed.

(** X5. Every posting that [buildRegistryEntries] returns links back to
    the transaction, carries its voucher number as reference and the
    acting admin as creator; it names the party unless its type is [GOLD]
    or [GOLD_STOCK], which name none; and it is flagged as bullion exactly
    when it is a fixing leg, [GOLD] or [GOLD_STOCK]. *)
Theorem X5_postings_provenance (currentYear : nat) (random : Qc)
    (metalTransaction : MetalTransaction.t) (party : Party.t)
    (adminId : ObjectId) (entries : list Entry.t) :
  buildRegistryEntries currentYear random metalTransaction party adminId
  = Ok entries ->
  forall e : Entry.t, In e entries ->
    Entry.metalTransactionId e = MetalTransaction._id metalTransaction
    /\ Entry.reference e = MetalTransaction.voucherNumber metalTransaction
    /\ Entry.createdBy e = adminId
    /\ Entry.party e
       = (if bool_decide (In (Entry.type e) houseTypes)
          then None else Some (Party._id party))
    /\ Entry.isBullion e = bool_decide (In (Entry.type e) bullionTypes).
Proof.
  intros E e He. apply buildRegistryEntries_provenance in E.
  rewrite Forall_forall in E. apply E. now apply list_elem_of_In.
Qed.

Lemma push_if_one_sided (k m : string) (base : string) (mt : ObjectId)
    (sfx ty d : string) (p : option ObjectId) (ib : bool)
    (v c : jsnum) (o : options) (r : string) (a : ObjectId) :
  (c = v /\ parseFloat_or0 (property "debit" o) = 0)
  \/ (c = zero /\ property "debit" o = Some v)
  \/ (c = zero /\ parseFloat_or0 (property "debit" o) = 0
      /\ k = "purchaseReturn" /\ m <> "fix" /\ ty = "OTHER_CHARGES") ->
  Forall (pushed_with (one_sided k m))
    (push_if (gt0 v) (createRegistryEntry base mt sfx ty d p ib v c o r a)).
Proof.
  intros H. unfold push_if. destruct (gt0 v) eqn:G; [|constructor].
  constructor; [|constructor].
  unfold createRegistryEntry. rewrite (le0_of_gt0 v G). cbn [andb].
  destruct (gt0_Num v G) as (q & -> & Hq).
  unfold pushed_with, one_sided;
    cbn [Entry.debit Entry.credit Entry.value Entry.type parseFloat_or0].
  destruct H as [[-> Hd]|[[-> Hd]|(-> & Hd & Hk & Hm & Ht)]].
  - right. left. split; [exact Hd | reflexivity].
  - left. rewrite Hd. split; reflexivity.
  - right. right. repeat split; assumption.
Qed.

Lemma entriesOfItem_one_sided (transactionType mode : string)
    (metalTransactionId : ObjectId) (totals : Totals.t) (party : Party.t)
    (baseTransactionId voucherNumber : string) (adminId : ObjectId)
    (item : Item.t) (pushed : list (option Entry.t)) :
  entriesOfItem transactionType mode metalTransactionId totals party
    baseTransactionId voucherNumber adminId item = Ok pushed ->
  Forall (pushed_with (one_sided transactionType mode)) pushed.
Proof.
  over_builders
    ltac:(repeat (apply Forall_app; split);
          apply push_if_one_sided;
          first [ left; split; reflexivity
                | right; left; split; reflexivity
                | right; right; repeat split;
                  first [reflexivity | assumption] ]).
Qed.

(** X6. Every posting that [buildRegistryEntries] returns carries its
    value on exactly one side, as debit with a credit of [0] or as credit
    with a debit of [0]; the only exception is the other-charges leg of an
    unfixed purchase return, whose debit and credit are both [0]. *)
Theorem X6_postings_one_sided (currentYear : nat) (random : Qc)
    (metalTransaction : MetalTransaction.t) (party : Party.t)
    (adminId : ObjectId) (entries : list Entry.t) :
  buildRegistryEntries currentYear random metalTransaction party adminId
  = Ok entries ->
  forall e : Entry.t, In e entries ->
    one_sided (MetalTransaction.transactionType metalTransaction)
      (getTransactionMode (MetalTransaction.fixed metalTransaction)
         (MetalTransaction.unfix metalTransaction))
      e.
Proof.
  unfold buildRegistryEntries.
  destruct (pushItems _ _ _ _ _ _ _ _ _ _) as [pushed|x] eqn:P;
    [|discriminate].
  intros [= <-] e He.
  assert (F : Forall
                (one_sided
                   (MetalTransaction.transactionType metalTransaction)
                   (getTransactionMode
                      (MetalTransaction.fixed metalTransaction)
                      (MetalTransaction.unfix metalTransaction)))
                (filterBoolean pushed)).
  { apply filterBoolean_Forall.
    eapply pushItems_Forall; [|constructor|exact P].
    intros item totals l. apply entriesOfItem_one_sided. }
  rewrite Forall_forall in F. apply F. now apply list_elem_of_In.
Qed.

End PostingFacts.

Section PostingFactsExamples.

(** X5 at the sample purchase: its first posting, the fixing leg, links to
    transaction 1, voucher [PUR-0001], admin 9 and party 7. *)
Lemma X5_postings_provenance_witness :
  exists (entries : list Entry.t) (e : Entry.t),
    buildRegistryEntries 2025 (qc 1 2) samplePurchase sampleParty 9
    = Ok entries
    /\ In e entries
    /\ Entry.type e = "purchase-fixing"
    /\ Entry.metalTransactionId e = 1%nat
    /\ Entry.reference e = "PUR-0001"
    /\ Entry.createdBy e = 9%nat
    /\ Entry.party e = Some 7%nat
    /\ Entry.isBullion e = true.
Proof.
  assert (H : exists (entries : list Entry.t) (e : Entry.t),
    buildRegistryEntries 2025 (qc 1 2) samplePurchase sampleParty 9
    = Ok entries
    /\ In e entries /\ Entry.type e = "purchase-fixing").
  { vm_compute. do 2 eexists.
    split; [reflexivity|]. split; [left; reflexivity | reflexivity]. }
  destruct H as (entries & e & E & I & T).
  exists entries, e.
  destruct (X5_postings_provenance _ _ _ _ _ _ E e I)
    as (H1 & H2 & H3 & H4 & H5).
  rewrite T in H4, H5.
  repeat split; assumption.
Defined.

(** X6 at the sample purchase: the fixing leg carries its 100 g as
    credit. *)
Lemma X6_postings_one_sided_witness :
  exists (entries : list Entry.t) (e : Entry.t),
    buildRegistryEntries 2025 (qc 1 2) samplePurchase sampleParty 9
    = Ok entries
    /\ In e entries
    /\ one_sided "purchase" "fix" e.
Proof.
  assert (H : exists (entries : list Entry.t) (e : Entry.t),
    buildRegistryEntries 2025 (qc 1 2) samplePurchase sampleParty 9
    = Ok entries
    /\ In e entries).
  { vm_compute. do 2 eexists. split; [reflexivity | left; reflexivity]. }
  destruct H as (entries & e & E & I).
  exists entries, e. split; [exact E|]. split; [exact I|].
  exact (X6_postings_one_sided _ _ _ _ _ _ E e I).
Defined.

End PostingFactsExamples.

(** ** The cash leg of the fixed kinds *)

Section CashLeg.

Lemma cash_values_app (l1 l2 : list (option Entry.t)) :
  cash_values (l1 ++ l2) = cash_values l1 ++ cash_values l2.
Proof.
  unfold cash_values, filterBoolean.
  now rewrite omap_app, List.filter_app, map_app.
Qed.

Lemma cash_values_other (c : bool) (base : string) (mt : ObjectId)
    (sfx ty d : string) (p : option ObjectId) (ib : bool) (v cr : jsnum)
    (o : options) (r : string) (a : ObjectId) :
  String.eqb ty "PARTY_CASH_BALANCE" = false ->
  cash_values
    (push_if c (createRegistryEntry base mt sfx ty d p ib v cr o r a))
  = [].
Proof.
  intros Hty. unfold cash_values, push_if, filterBoolean.
  destruct c; [|reflexivity].
  unfold createRegistryEntry. destruct (le0 v && _); [reflexivity|].
  cbn [omap id List.filter Entry.type]. simpl. now rewrite Hty.
Qed.

Lemma cash_values_cash (q : Qc) (base : string) (mt : ObjectId)
    (sfx d : string) (p : option ObjectId) (ib : bool) (cr : jsnum)
    (o : options) (r : string) (a : ObjectId) :
  0 < q ->
  cash_values
    (push_if (gt0 (Num q))
       (createRegistryEntry base mt sfx "PARTY_CASH_BALANCE" d p ib
          (Num q) cr o r a))
  = [q].
Proof.
  intros Hq.
  assert (G : gt0 (Num q) = true) by now apply bool_decide_eq_true.
  unfold cash_values, push_if, filterBoolean, createRegistryEntry.
  rewrite G, (le0_of_gt0 _ G). reflexivity.
Qed.

(** One stock item of a fixed sale, purchase return or sale return pushes
    one cash leg, of the session total. *)
Lemma entriesOfItem_cash (transactionType : string)
    (metalTransactionId : ObjectId) (totals : Totals.t) (party : Party.t)
    (baseTransactionId voucherNumber : string) (adminId : ObjectId)
    (item : Item.t) (q : Qc) :
  In transactionType ["sale"; "purchaseReturn"; "saleReturn"] ->
  Totals.totalAmount totals = Num q ->
  0 < q ->
  exists pushed : list (option Entry.t),
    entriesOfItem transactionType "fix" metalTransactionId totals party
      baseTransactionId voucherNumber adminId item = Ok pushed
    /\ cash_values pushed = [q].
Proof.
  intros Hk Ht Hq. simpl in Hk.
  destruct Hk as [<-|[<-|[<-|[]]]]; eexists; (split; [reflexivity|]);
    [ unfold buildSaleFixEntries
    | unfold buildPurchaseReturnFixEntries
    | unfold buildSaleReturnFixEntries ];
    rewrite Ht, !cash_values_app, (cash_values_cash q) by exact Hq;
    rewrite !cash_values_other by reflexivity; reflexivity.
Qed.

Lemma totalAmount_of_session (stockItems : list Item.t) (q : Qc) :
  Totals.totalAmount (calculateTotals stockItems (Some (Num q))) = Num q.
Proof.
  unfold calculateTotals, setTotalAmount; simpl.
  destruct (bool_decide (q <> 0)) eqn:E; [reflexivity|].
  apply bool_decide_eq_false in E.
  destruct (decide (q = 0)) as [->|Hne]; [reflexivity | contradiction].
Qed.

Lemma pushItems_cash (transactionType : string)
    (metalTransactionId : ObjectId) (party : Party.t)
    (baseTransactionId voucherNumber : string) (adminId : ObjectId)
    (q : Qc) (stockItems : list Item.t) :
  In transactionType ["sale"; "purchaseReturn"; "saleReturn"] ->
  0 < q ->
  forall entries : list (option Entry.t),
  exists res : list (option Entry.t),
    pushItems transactionType "fix" metalTransactionId (Some (Num q)) party
      baseTransactionId voucherNumber adminId stockItems entries = Ok res
    /\ cash_values res
       = cash_values entries ++ repeat q (length stockItems).
Proof.
  intros Hk Hq.
  induction stockItems as [|item rest IH]; intros entries;
    cbn [pushItems length repeat].
  - exists entries. split; [reflexivity|]. now rewrite app_nil_r.
  - destruct (entriesOfItem_cash transactionType metalTransactionId
                (calculateTotals [item] (Some (Num q))) party
                baseTransactionId voucherNumber adminId item q Hk
                (totalAmount_of_session [item] q) Hq)
      as (pushed & E & C).
    rewrite E.
    destruct (IH (entries ++ pushed)) as (res & R & V).
    exists res. split; [exact R|].
    rewrite V, cash_values_app, C, <- app_assoc. reflexivity.
Qed.

(** X7. A fixed sale, purchase return or sale return with a positive
    session total posts one [PARTY_CASH_BALANCE] entry per stock item, and
    the value of each of them is the whole session total
    ([totalAmountSession.totalAmountAED]), not a share of it. *)
Theorem X7_fixed_cash_leg_per_item (currentYear : nat) (random : Qc)
    (metalTransaction : MetalTransaction.t) (party : Party.t)
    (adminId : ObjectId) (q : Qc) :
  In (MetalTransaction.transactionType metalTransaction)
    ["sale"; "purchaseReturn"; "saleReturn"] ->
  MetalTransaction.fixed metalTransaction = true ->
  MetalTransaction.totalAmountAED metalTransaction = Some (Num q) ->
  0 < q ->
  exists entries : list Entry.t,
    buildRegistryEntries currentYear random metalTransaction party adminId
    = Ok entries
    /\ map Entry.value
         (List.filter
            (fun e => String.eqb (Entry.type e) "PARTY_CASH_BALANCE")
            entries)
       = repeat q (length (MetalTransaction.stockItems metalTransaction)).
Proof.
  intros Hk Hf Ht Hq. unfold buildRegistryEntries.
  rewrite Hf, Ht.
  replace (getTransactionMode true (MetalTransaction.unfix metalTransaction))
    with "fix" by (destruct (MetalTransaction.unfix metalTransaction);
                   reflexivity).
  destruct (pushItems_cash
              (MetalTransaction.transactionType metalTransaction)
              (MetalTransaction._id metalTransaction) party
              (generateTransactionId currentYear random)
              (MetalTransaction.voucherNumber metalTransaction) adminId q
              (MetalTransaction.stockItems metalTransaction) Hk Hq [])
    as (res & R & V).
  rewrite R. eexists. split; [reflexivity|]. exact V.
Qed.

(** A fixed sale of two lines with a session total of 2100: two cash
    legs of 2100 each. *)
Lemma X7_fixed_cash_leg_per_item_witness :
  let sale := sampleTransaction "sale" true false [sampleItem; sampleItem] in
  In (MetalTransaction.transactionType sale)
    ["sale"; "purchaseReturn"; "saleReturn"]
  /\ MetalTransaction.fixed sale = true
  /\ MetalTransaction.totalAmountAED sale = Some (Num (qc 2100 1))
  /\ 0 < qc 2100 1
  /\ exists entries : list Entry.t,
       buildRegistryEntries 2025 (qc 1 2) sale sampleParty 9 = Ok entries
       /\ map Entry.value
            (List.filter
               (fun e => String.eqb (Entry.type e) "PARTY_CASH_BALANCE")
               entries)
          = [qc 2100 1; qc 2100 1].
Proof.
  intros sale.
  assert (H1 : In (MetalTransaction.transactionType sale)
                 ["sale"; "purchaseReturn"; "saleReturn"])
    by (left; reflexivity).
  assert (H4 : 0 < qc 2100 1) by reflexivity.
  split; [exact H1|]. split; [reflexivity|]. split; [reflexivity|].
  split; [exact H4|].
  exact (X7_fixed_cash_leg_per_item 2025 (qc 1 2) sale sampleParty 9
           (qc 2100 1) H1 eq_refl eq_refl H4).
Defined.

End CashLeg.

(** ** Identifiers of the postings of one call *)

Section IdentifierFacts.

(** X8. The postings that one call builds for a transaction with a single
    stock item have pairwise distinct identifiers: each leg of the
    builder has its own suffix. *)
Theorem X8_single_item_ids_distinct (currentYear : nat) (random : Qc)
    (metalTransaction : MetalTransaction.t) (party : Party.t)
    (adminId : ObjectId) (item : Item.t) (entries : list Entry.t) :
  MetalTransaction.stockItems metalTransaction = [item] ->
  buildRegistryEntries currentYear random metalTransaction party adminId
  = Ok entries ->
  NoDup (map Entry.transactionId entries).
Proof.
  intros Hitems E.
  exact (single_item_ids_NoDup currentYear random metalTransaction party
           adminId item entries Hitems E).
Qed.

(** The unfixed sample purchase has one line; its four postings have four
    identifiers. *)
Lemma X8_single_item_ids_distinct_witness :
  exists entries : list Entry.t,
    MetalTransaction.stockItems sampleUnfixPurchase = [sampleUnfixItem]
    /\ buildRegistryEntries 2025 (qc 1 2) sampleUnfixPurchase sampleParty 9
       = Ok entries
    /\ length entries = 4%nat
    /\ NoDup (map Entry.transactionId entries).
Proof.
  assert (H : exists entries : list Entry.t,
    buildRegistryEntries 2025 (qc 1 2) sampleUnfixPurchase sampleParty 9
    = Ok entries /\ length entries = 4%nat).
  { vm_compute. eexists. split; reflexivity. }
  destruct H as (entries & E & L).
  exists entries. split; [reflexivity|]. split; [exact E|].
  split; [exact L|].
  exact (X8_single_item_ids_distinct 2025 (qc 1 2) sampleUnfixPurchase
           sampleParty 9 sampleUnfixItem entries eq_refl E).
Defined.



End IdentifierFacts.

(** ** Totals as running sums, rounding of the cash increment *)

Section TotalsFacts.

(** X10. Every summed field of [calculateTotals] is the running sum of one
    amount per stock item, from [0], in the order of the items, each
    addition rounded: [x || 0] for making charges (total, else amount),
    gold value, pure weight, gross weight and purity; the positive part of
    the premium/discount amount for [premium] and the magnitude of its
    negative part for [discount]; the amount as it is for [vatAmount] and
    [otherChargesAmount], an absent one counting as [NaN].
    [goldBidValue] is the first rate that is not zero and [totalAmount]
    the session total. *)
Theorem X10_totals_are_running_sums (stockItems : list Item.t)
    (totalAmountAED : option jsnum) :
  let totals := calculateTotals stockItems totalAmountAED in
  Totals.makingCharges totals
  = runningSum (map (fun i => or_else (Item.makingChargesTotal i)
                                (amount (Item.makingChargesAmount i)))
                  stockItems)
  /\ Totals.premium totals
     = runningSum (map (fun i => positive_part (premiumDiscount i))
                     stockItems)
  /\ Totals.discount totals
     = runningSum (map (fun i => negative_magnitude (premiumDiscount i))
                     stockItems)
  /\ Totals.vatAmount totals
     = runningSum (map (fun i => numberOf (Item.vatAmount i)) stockItems)
  /\ Totals.otherChargesAmount totals
     = runningSum (map (fun i => numberOf (Item.otherChargesAmount i))
                     stockItems)
  /\ Totals.goldValue totals
     = runningSum (map (fun i => amount (Item.baseAmount i)) stockItems)
  /\ Totals.pureWeight totals
     = runningSum (map (fun i => amount (Item.pureWeight i)) stockItems)
  /\ Totals.grossWeight totals
     = runningSum (map (fun i => amount (Item.grossWeight i)) stockItems)
  /\ Totals.purity totals
     = runningSum (map (fun i => amount (Item.purity i)) stockItems)
  /\ Totals.goldBidValue totals = first_rate stockItems
  /\ Totals.totalAmount totals = amount totalAmountAED.
Proof.
  cbv zeta. unfold calculateTotals, setTotalAmount, runningSum.
  rewrite fold_left_reducer.
  cbn [Totals.makingCharges Totals.premium Totals.discount Totals.vatAmount
       Totals.otherChargesAmount Totals.goldValue Totals.pureWeight
       Totals.grossWeight Totals.purity Totals.goldBidValue
       Totals.totalAmount initialTotals].
  rewrite !fold_left_add, !fold_left_add_undef, fold_left_rate.
  repeat split; reflexivity.
Qed.

(** X11. The cash increment of [buildUpdateOperations].  When the net
    cash change (cash + premium + discount balance, as the code adds
    them) is [0] no increment is issued.  When it is another number,
    below [10^21] in magnitude, the increment is the number that a decimal
    of two digits denotes, and that decimal lies within half a hundredth
    of the net change; the increment itself can be [0].  When the net
    change is [NaN] the increment is [NaN]. *)
Theorem X11_cash_increment_is_rounded_net (balanceChanges : Changes.t) :
  match netCashChange balanceChanges with
  | Num net =>
      if bool_decide (net = 0)
      then UpdateOps.inc_cashAmount (buildUpdateOperations balanceChanges)
           = None
      else ~ (toFixedLimit <= net) -> ~ (toFixedLimit <= - net) ->
           exists n : Z,
             UpdateOps.inc_cashAmount (buildUpdateOperations balanceChanges)
             = Some (Num (double n 100))
             /\ (this net - (1 # 200) <= n # 100 <= this net + (1 # 200))%Q
  | NaN =>
      UpdateOps.inc_cashAmount (buildUpdateOperations balanceChanges)
      = Some NaN
  end.
Proof.
  unfold buildUpdateOperations. cbn [UpdateOps.inc_cashAmount].
  destruct (netCashChange balanceChanges) as [net|]; [|reflexivity].
  cbn [ne0].
  destruct (decide (net = 0)) as [Hz|Hz].
  - rewrite (bool_decide_eq_true_2 _ Hz).
    rewrite bool_decide_eq_false_2 by (intros H; exact (H Hz)).
    reflexivity.
  - rewrite (bool_decide_eq_false_2 _ Hz), (bool_decide_eq_true_2 _ Hz).
    intros Hp Hn.
    destruct (toFixed2_cents net Hp Hn) as (n & Hr & Hb).
    exists n. split; [now rewrite Hr | exact Hb].
Qed.

(** Cash 0.1, premium 0.2 and a discount of 0.3: the net change is
    [2^-54], not [0], and the increment that is issued is [0]. *)
Lemma X11_cash_increment_is_rounded_net_witness :
  let balanceChanges :=
    {| Changes.goldBalance := zero;
       Changes.goldValue := zero;
       Changes.cashBalance := Num (double 1 10);
       Changes.premiumBalance := Num (double 2 10);
       Changes.discountBalance := Num (- double 3 10);
       Changes.otherCharges := zero |} in
  netCashChange balanceChanges = Num (qc 1 18014398509481984)
  /\ UpdateOps.inc_cashAmount (buildUpdateOperations balanceChanges)
     = Some (Num 0)
  /\ exists n : Z,
       UpdateOps.inc_cashAmount (buildUpdateOperations balanceChanges)
       = Some (Num (double n 100))
       /\ (this (qc 1 18014398509481984) - (1 # 200) <= n # 100
           <= this (qc 1 18014398509481984) + (1 # 200))%Q.
Proof.
  intros balanceChanges.
  assert (Hnet : netCashChange balanceChanges
                 = Num (qc 1 18014398509481984)) by compute_done.
  split; [exact Hnet|]. split; [compute_done|].
  pose proof (X11_cash_increment_is_rounded_net balanceChanges) as H.
  rewrite Hnet in H.
  rewrite bool_decide_eq_false_2 in H by (intros E; discriminate E).
  apply H; intros L; apply L; reflexivity.
Defined.

End TotalsFacts.

(** ** Delete of a metal transaction, by outcome *)

Section MetalDelete.

Variable faulty : Store.call -> bool.

(** X12. What [deleteMetalTransaction] does to the committed store, by
    outcome.  When it returns, the transaction existed, its postings and
    its row are gone and the account of its party carries the increments
    of the reversal.  When it throws, the accounts and the transaction
    rows are as before, and the postings are as before or those of the
    transaction are already deleted.  Either way no write is left in the
    session and the fixing transactions are untouched. *)
Theorem X12_metal_delete_by_outcome (transactionId adminId : ObjectId)
    (s : Store.t) :
  let run :=
    deleteMetalTransaction faulty transactionId adminId
      (Store.mkWorld s []) in
  let s' := Store.committed (snd run) in
  Store.pending (snd run) = []
  /\ Store.transactionFixings s' = Store.transactionFixings s
  /\ match fst run with
     | Ok _ =>
         exists (t : MetalTransaction.t) (party : Account.t),
           Store.metalTransactions s !! transactionId = Some t
           /\ Store.accounts s !! MetalTransaction.partyCode t = Some party
           /\ Store.registry s'
              = filter (fun r => Registry.metalTransactionId r
                                 <> Some (MetalTransaction._id t))
                  (Store.registry s)
           /\ Store.metalTransactions s'
              = delete transactionId (Store.metalTransactions s)
           /\ Store.accounts s'
              = alter (Store.applyOps
                         (tradeDebtorsOps true (balanceChangesOf t)))
                  (Account._id party) (Store.accounts s)
     | Throw _ =>
         Store.accounts s' = Store.accounts s
         /\ Store.metalTransactions s' = Store.metalTransactions s
         /\ (Store.registry s' = Store.registry s
             \/ exists t : MetalTransaction.t,
                  Store.metalTransactions s !! transactionId = Some t
                  /\ Store.registry s'
                     = filter (fun r => Registry.metalTransactionId r
                                        <> Some (MetalTransaction._id t))
                         (Store.registry s))
     end.
Proof. exact (deleteMetalTransaction_outcome faulty transactionId adminId s). Qed.

(** X13. A delete of a transaction that is not stored, or that is stored
    as inactive, throws the 404 error [TRANSACTION_NOT_FOUND] and leaves
    the store as it was, postings included. *)
Theorem X13_metal_delete_of_missing (transactionId adminId : ObjectId)
    (s : Store.t) :
  faulty Store.MetalTransaction_findById = false ->
  (MetalTransaction.isActive <$> Store.metalTransactions s !! transactionId)
  <> Some true ->
  deleteMetalTransaction faulty transactionId adminId (Store.mkWorld s [])
  = (Throw (AppError "Metal transaction not found" 404
              "TRANSACTION_NOT_FOUND"),
     Store.mkWorld s []).
Proof.
  intros F H.
  unfold deleteMetalTransaction, Store.try_catch, Store.bind, Store.await,
    Store.read, Store.throw, Store.startTransaction,
    Store.abortTransaction, Store.view.
  rewrite F. cbn [Store.committed Store.pending fold_left fst snd].
  destruct (Store.metalTransactions s !! transactionId) as [t|];
    [|reflexivity].
  destruct (MetalTransaction.isActive t) eqn:A; [|reflexivity].
  exfalso. apply H. cbn. now rewrite A.
Qed.

End MetalDelete.

(** Transaction 5 is not in the store of the posted sample. *)
Lemma X13_metal_delete_of_missing_witness :
  reliable Store.MetalTransaction_findById = false
  /\ (MetalTransaction.isActive <$> Store.metalTransactions postedStore !! 5%nat)
     <> Some true
  /\ deleteMetalTransaction reliable 5 9 (Store.mkWorld postedStore [])
     = (Throw (AppError "Metal transaction not found" 404
                 "TRANSACTION_NOT_FOUND"),
        Store.mkWorld postedStore []).
Proof.
  assert (H : (MetalTransaction.isActive
                 <$> Store.metalTransactions postedStore !! 5%nat)
              <> Some true) by (vm_compute; discriminate).
  split; [reflexivity|]. split; [exact H|].
  exact (X13_metal_delete_of_missing reliable 5 9 postedStore eq_refl H).
Defined.

(** ** Delete of a fixing transaction *)

Section FixingDelete.

Import TransactionFixingService.

Variable faulty : Store.call -> bool.

Lemma deleteTransaction_outcome (id adminId : ObjectId) (s : Store.t) :
  let run := deleteTransaction faulty id adminId (Store.mkWorld s []) in
  Store.pending (snd run) = []
  /\ match fst run with
     | Ok f =>
         Store.transactionFixings s !! id = Some f
         /\ exists account : Account.t,
              Store.accounts s !! TransactionFixing.partyId f = Some account
              /\ Store.committed (snd run)
                 = Store.mk
                     (<[Account._id account :=
                          reversedAccount account (TransactionFixing.type f)
                            (TransactionFixing.orders f)]>
                        (Store.accounts s))
                     (filter (fun r => Registry.fixingTransactionId r
                                       <> Some (TransactionFixing._id f))
                        (Store.registry s))
                     (Store.metalTransactions s)
                     (delete (TransactionFixing._id f)
                        (Store.transactionFixings s))
     | Throw _ => Store.committed (snd run) = s
     end.
Proof.
  cbv zeta.
  unfold deleteTransaction, Store.commitTransaction, Store.try_catch,
    Store.bind, Store.await, Store.read, Store.store, Store.throw,
    Store.ret, Store.startTransaction, Store.abortTransaction, Store.view.
  cbn [Store.committed Store.pending fold_left fst snd].
  destruct (faulty Store.TransactionFixing_findById);
    cbn [Store.committed Store.pending fold_left fst snd app];
    [now auto|].
  destruct (Store.transactionFixings s !! id) as [f|] eqn:Lf;
    cbn [Store.committed Store.pending fold_left fst snd app];
    [|now auto].
  destruct (faulty Store.Account_findById);
    cbn [Store.committed Store.pending fold_left fst snd app];
    [now auto|].
  destruct (Store.accounts s !! TransactionFixing.partyId f)
    as [account|] eqn:La;
    cbn [Store.committed Store.pending fold_left fst snd app];
    [|now auto].
  destruct (reverseChanges (TransactionFixing.type f)
              (TransactionFixing.orders f)) as [gold cash] eqn:R.
  destruct (faulty Store.Account_save);
    cbn [Store.committed Store.pending fold_left fst snd app];
    [now auto|].
  destruct (faulty Store.Registry_deleteMany);
    cbn [Store.committed Store.pending fold_left fst snd app];
    [now auto|].
  destruct (faulty Store.TransactionFixing_deleteOne);
    cbn [Store.committed Store.pending fold_left fst snd app];
    [now auto|].
  destruct (faulty Store.Session_commitTransaction);
    cbn [Store.committed Store.pending fold_left fst snd app Store.apply
         Store.accounts Store.registry Store.metalTransactions
         Store.transactionFixings Account._id];
    [now auto|].
  split; [reflexivity|]. split; [reflexivity|].
  exists account. split; [exact La|].
  unfold reversedAccount. now rewrite R.
Qed.

(** X14. The delete of a fixing transaction is all or nothing.  When it
    throws, for a missing transaction or account or for any rejected
    store call, the committed store is the one it started from.  When it
    returns, the account of the party is saved with the reverse changes,
    the postings linked to the transaction and its row are gone, and
    nothing else has changed.  No write is left in the session. *)
Theorem X14_fixing_delete_is_atomic (id adminId : ObjectId) (s : Store.t) :
  let run := deleteTransaction faulty id adminId (Store.mkWorld s []) in
  Store.pending (snd run) = []
  /\ match fst run with
     | Ok f =>
         Store.transactionFixings s !! id = Some f
         /\ exists account : Account.t,
              Store.accounts s !! TransactionFixing.partyId f = Some account
              /\ Store.committed (snd run)
                 = Store.mk
                     (<[Account._id account :=
                          reversedAccount account (TransactionFixing.type f)
                            (TransactionFixing.orders f)]>
                        (Store.accounts s))
                     (filter (fun r => Registry.fixingTransactionId r
                                       <> Some (TransactionFixing._id f))
                        (Store.registry s))
                     (Store.metalTransactions s)
                     (delete (TransactionFixing._id f)
                        (Store.transactionFixings s))
     | Throw _ => Store.committed (snd run) = s
     end.
Proof. exact (deleteTransaction_outcome id adminId s). Qed.

End FixingDelete.

(** ** Create and delete of a fixing transaction *)

Section FixingRoundTrip.

Import TransactionFixingService.

Lemma or_else_Num (x : Qc) : or_else (Some (Num x)) zero = Num x.
Proof.
  unfold or_else, truthy.
  destruct (decide (x <> 0)) as [H|H].
  - now rewrite (bool_decide_eq_true_2 _ H).
  - rewrite (bool_decide_eq_false_2 _ H).
    destruct (decide (x = 0)) as [->|Hne]; [reflexivity | contradiction].
Qed.

Lemma neg_sub (a b : jsnum) : neg (sub a b) = add (neg a) b.
Proof. unfold sub. now rewrite neg_add, neg_neg. Qed.

Lemma sub_neg (a b : jsnum) : sub (neg a) b = neg (add a b).
Proof. unfold sub. now rewrite neg_add. Qed.

(** The loop of the delete accumulates the negation of what the loop of
    the create accumulates, step by step. *)
Lemma fixing_changes_opposite (type : string)
    (orders : list TransactionFixing.order) :
  forall g c : jsnum,
    fold_left
      (fun '(totalGoldGramsChange, totalCashBalanceChange) order =>
         let totalValue :=
           mul (TransactionFixing.price order)
               (TransactionFixing.quantityGm order) in
         if String.eqb (toUpperCase type) "PURCHASE" then
           (add totalGoldGramsChange (TransactionFixing.quantityGm order),
            sub totalCashBalanceChange totalValue)
         else if String.eqb (toUpperCase type) "SELL" then
           (sub totalGoldGramsChange (TransactionFixing.quantityGm order),
            add totalCashBalanceChange totalValue)
         else (totalGoldGramsChange, totalCashBalanceChange))
      orders (neg g, neg c)
    = (let '(g', c') :=
         fold_left
           (fun '(totalGoldGramsChange, totalCashBalanceChange) order =>
              let totalValue :=
                mul (TransactionFixing.price order)
                    (TransactionFixing.quantityGm order) in
              if String.eqb (toUpperCase type) "PURCHASE" then
                (sub totalGoldGramsChange
                   (TransactionFixing.quantityGm order),
                 add totalCashBalanceChange totalValue)
              else if String.eqb (toUpperCase type) "SELL" then
                (add totalGoldGramsChange
                   (TransactionFixing.quantityGm order),
                 sub totalCashBalanceChange totalValue)
              else (totalGoldGramsChange, totalCashBalanceChange))
           orders (g, c) in
       (neg g', neg c')).
Proof.
  induction orders as [|order rest IH]; intros g c; [reflexivity|].
  cbn [fold_left].
  destruct (String.eqb (toUpperCase type) "PURCHASE").
  - rewrite <- neg_sub, sub_neg. apply IH.
  - destruct (String.eqb (toUpperCase type) "SELL").
    + rewrite sub_neg, <- neg_sub. apply IH.
    + apply IH.
Qed.

(** X15. The delete of a fixing transaction takes off what its create put
    on.  Over the same orders, whatever their prices and quantities, the
    changes of gold grams and of cash that [deleteTransaction] accumulates
    are the negations of those that [createTransaction] accumulated; so
    the account that the delete saves has the balances of the created
    account ([x || 0]) minus the changes of the create, each of the two
    additions on a balance being rounded on its own.  Both functions
    write [0] to the gold value. *)
Theorem X15_fixing_delete_negates_create (type : string)
    (orders : list TransactionFixing.order) (account : Account.t) :
  let changes := creationChanges type orders in
  let created := createdAccount account type orders in
  let restored := reversedAccount created type orders in
  reverseChanges type orders = (neg (fst changes), neg (snd changes))
  /\ Account.totalGrams restored
     = sub (or_else (Some (Account.totalGrams created)) zero) (fst changes)
  /\ Account.cashAmount restored
     = sub (or_else (Some (Account.cashAmount created)) zero) (snd changes)
  /\ Account.totalValue created = zero
  /\ Account.totalValue restored = zero.
Proof.
  cbv zeta.
  assert (R : reverseChanges type orders
              = (neg (fst (creationChanges type orders)),
                 neg (snd (creationChanges type orders)))).
  { pose proof (fixing_changes_opposite type orders zero zero) as H.
    rewrite neg_zero in H.
    unfold reverseChanges, creationChanges. cbv zeta in H |- *.
    rewrite H. clear H.
    destruct (fold_left _ orders (zero, zero)). reflexivity. }
  split; [exact R|].
  unfold reversedAccount. rewrite R.
  unfold createdAccount.
  destruct (creationChanges type orders) as [g c].
  cbn [fst snd Account.totalGrams Account.cashAmount Account.totalValue].
  repeat split; reflexivity.
Qed.

End FixingRoundTrip.

(** Grams 0.1 and cash 0.1, then two grams bought at 0.1 and the
    transaction deleted: the changes are exact negations, and the balances
    end a few units in the last place off where they started. *)
Lemma X15_fixing_delete_negates_create_witness :
  let account :=
    {| Account._id := 7;
       Account.isActive := true;
       Account.customerName := "Acme";
       Account.accountCode := "AC1";
       Account.totalGrams := Num (double 1 10);
       Account.totalValue := zero;
       Account.cashAmount := Num (double 1 10) |} in
  let orders := [TransactionFixing.mkOrder (Num (double 1 10)) (Num 2)] in
  let restored :=
    reversedAccount
      (TransactionFixingService.createdAccount account "purchase" orders)
      "purchase" orders in
  TransactionFixingService.creationChanges "purchase" orders
  = (Num (- 2), Num (double 2 10))
  /\ TransactionFixingService.reverseChanges "purchase" orders
     = (Num 2, Num (- double 2 10))
  /\ Account.totalGrams restored
     = Num (double 1 10 + qc 3 36028797018963968)
  /\ Account.cashAmount restored
     = Num (double 1 10 + qc 1 36028797018963968).
Proof.
  cbv zeta.
  set (account := {| Account._id := 7%nat;
                     Account.totalGrams := Num (double 1 10) |}).
  set (orders := [TransactionFixing.mkOrder (Num (double 1 10)) (Num 2)]).
  assert (C : TransactionFixingService.creationChanges "purchase" orders
              = (Num (- 2), Num (double 2 10))).
  { unfold TransactionFixingService.creationChanges, orders.
    cbn [fold_left toUpperCase]. f_equal; compute_done. }
  destruct (X15_fixing_delete_negates_create "purchase" orders account)
    as (R & G & K & _).
  rewrite C in R, G, K. cbn [fst snd neg] in R, G, K.
  split; [exact C|].
  split; [rewrite R; f_equal; f_equal; apply Qcopp_involutive|].
  split; [rewrite G | rewrite K]; compute_done.
Defined.

(** ** A kind that is none of the four *)

Section UnknownKind.

Variable faulty : Store.call -> bool.

Lemma pushItems_unknown (transactionType mode : string)
    (metalTransactionId : ObjectId) (totalAmountAED : option jsnum)
    (party : Party.t) (baseTransactionId voucherNumber : string)
    (adminId : ObjectId) (stockItems : list Item.t) :
  ~ In transactionType kinds ->
  forall entries : list (option Entry.t),
    pushItems transactionType mode metalTransactionId totalAmountAED party
      baseTransactionId voucherNumber adminId stockItems entries
    = Ok entries.
Proof.
  intros Hk.
  assert (E : forall totals item,
    entriesOfItem transactionType mode metalTransactionId totals party
      baseTransactionId voucherNumber adminId item = Ok []).
  { intros totals item. unfold entriesOfItem.
    repeat match goal with
    | |- context [String.eqb transactionType ?k] =>
        destruct (String.eqb_spec transactionType k) as [->|_];
          [exfalso; apply Hk; unfold kinds; simpl; tauto|]
    end.
    reflexivity. }
  induction stockItems as [|item rest IH]; intros entries;
    cbn [pushItems]; [reflexivity|].
  rewrite E, app_nil_r. apply IH.
Qed.

Lemma balanceMatrix_unknown (totals : Totals.t)
    (transactionType mode : string) :
  ~ In transactionType kinds ->
  balanceMatrix totals transactionType mode = None.
Proof.
  intros Hk. unfold balanceMatrix.
  repeat match goal with
  | |- context [String.eqb transactionType ?k] =>
      destruct (String.eqb_spec transactionType k) as [->|_];
        [exfalso; apply Hk; unfold kinds; simpl; tauto|]
  end.
  reflexivity.
Qed.

(** X16. A transaction whose kind is none of [purchase], [sale],
    [purchaseReturn] and [saleReturn] is posted nowhere and moves no
    balance: [createRegistryEntries] returns the empty list without a
    store call, and neither [buildUpdateOperations] nor
    [updateTradeDebtorsBalances] puts a key in [$inc]. *)
Theorem X16_unknown_kind_moves_nothing (currentYear : nat) (random : Qc)
    (metalTransaction : MetalTransaction.t) (party : Party.t)
    (adminId : ObjectId) (session : bool) (w : Store.world) :
  ~ In (MetalTransaction.transactionType metalTransaction) kinds ->
  createRegistryEntries faulty currentYear random metalTransaction party
    adminId session w = (Ok [], w)
  /\ buildUpdateOperations (balanceChangesOf metalTransaction) = noIncrements
  /\ forall isReversal : bool,
       tradeDebtorsOps isReversal (balanceChangesOf metalTransaction)
       = noIncrements.
Proof.
  intros Hk.
  assert (B : balanceChangesOf metalTransaction = noChanges).
  { unfold balanceChangesOf, calculateBalanceChanges.
    now rewrite balanceMatrix_unknown. }
  split.
  - unfold createRegistryEntries, buildRegistryEntries.
    rewrite pushItems_unknown by exact Hk. reflexivity.
  - rewrite B. split; [vm_compute; reflexivity|].
    intros [|]; vm_compute; reflexivity.
Qed.

End UnknownKind.

Lemma X16_unknown_kind_moves_nothing_witness :
  let exchange := sampleTransaction "exchange" true false [sampleItem] in
  ~ In (MetalTransaction.transactionType exchange) kinds
  /\ createRegistryEntries reliable 2025 (qc 1 2) exchange sampleParty 9 true
       (Store.mkWorld savedStore [])
     = (Ok [], Store.mkWorld savedStore [])
  /\ buildUpdateOperations (balanceChangesOf exchange) = noIncrements.
Proof.
  intros exchange.
  assert (Hk : ~ In (MetalTransaction.transactionType exchange) kinds).
  { unfold exchange, kinds. simpl. intros [H|[H|[H|[H|[]]]]]; discriminate H. }
  split; [exact Hk|].
  destruct (X16_unknown_kind_moves_nothing reliable 2025 (qc 1 2) exchange
              sampleParty 9 true (Store.mkWorld savedStore []) Hk)
    as (H1 & H2 & _).
  split; [exact H1 | exact H2].
Defined.

(** ** Posting and deleting the postings of a transaction *)

Section PostThenDelete.

Variable faulty : Store.call -> bool.

Lemma filter_other_rows (id : ObjectId) (registry : list Registry.t) :
  rowsOf id registry = [] ->
  filter (fun r => Registry.metalTransactionId r <> Some id) registry
  = registry.
Proof.
  unfold rowsOf. induction registry as [|r rest IH]; [reflexivity|].
  cbn [List.filter]. case_bool_decide as H; [discriminate|].
  intros E. rewrite filter_cons_True by exact H. f_equal. exact (IH E).
Qed.

Lemma filter_own_rows (id : ObjectId) (entries : list Entry.t) :
  Forall (fun e => Entry.metalTransactionId e = id) entries ->
  filter (fun r => Registry.metalTransactionId r <> Some id)
    (map Registry.ofEntry entries)
  = [].
Proof.
  induction 1 as [|e rest He _ IH]; [reflexivity|].
  cbn [map]. rewrite filter_cons_False; [exact IH|].
  intros H. apply H. cbn. now rewrite He.
Qed.

(** X17. Posting a transaction and deleting its postings is a round trip
    on the store.  When no earlier row links to the transaction, the
    builder returns and no call is rejected, then creating the postings
    in a session, committing it and calling [deleteRegistryEntry] leaves
    the store as it was; in between, the registry holds the old rows
    followed by one row per built posting. *)
Theorem X17_post_then_delete_postings (currentYear : nat) (random : Qc)
    (metalTransaction : MetalTransaction.t) (party : Party.t)
    (adminId : ObjectId) (s : Store.t) (entries : list Entry.t) :
  faulty Store.Registry_insertMany = false ->
  faulty Store.Session_commitTransaction = false ->
  faulty Store.Registry_deleteMany = false ->
  rowsOf (MetalTransaction._id metalTransaction) (Store.registry s) = [] ->
  buildRegistryEntries currentYear random metalTransaction party adminId
  = Ok entries ->
  let post :=
    Store.startTransaction ;;;
    createRegistryEntries faulty currentYear random metalTransaction party
      adminId true ;;;
    Store.commitTransaction faulty in
  fst (post (Store.mkWorld s [])) = Ok tt
  /\ Store.registry (Store.committed (snd (post (Store.mkWorld s []))))
     = Store.registry s ++ map Registry.ofEntry entries
  /\ (post ;;; deleteRegistryEntry faulty metalTransaction false)
       (Store.mkWorld s [])
     = (Ok tt, Store.mkWorld s []).
Proof.
  intros F1 F2 F3 Hrows E. cbv zeta.
  pose proof (buildRegistryEntries_provenance _ _ _ _ _ _ E) as P.
  assert (Own : Forall (fun e => Entry.metalTransactionId e
                                 = MetalTransaction._id metalTransaction)
                  entries).
  { eapply Forall_impl; [exact P|]. intros e He. exact (proj1 He). }
  unfold createRegistryEntries, deleteRegistryEntry,
    Store.commitTransaction, Store.try_catch, Store.bind, Store.await,
    Store.store, Store.ret, Store.throw, Store.startTransaction, Store.view.
  rewrite E, F1, F2, F3.
  destruct s as [accounts registry metalTransactions transactionFixings].
  cbn [Store.registry] in Hrows.
  destruct entries as [|e rest].
  - cbn [length bool_decide]. rewrite bool_decide_eq_true_2 by reflexivity.
    cbn [Store.committed Store.pending fold_left fst snd app Store.apply
         Store.accounts Store.registry Store.metalTransactions
         Store.transactionFixings map].
    rewrite app_nil_r, (filter_other_rows _ _ Hrows).
    split; [reflexivity|]. split; reflexivity.
  - rewrite bool_decide_eq_false_2 by discriminate.
    cbn [Store.committed Store.pending fold_left fst snd app Store.apply
         Store.accounts Store.registry Store.metalTransactions
         Store.transactionFixings].
    rewrite filter_app, (filter_other_rows _ _ Hrows),
      (filter_own_rows _ _ Own), app_nil_r.
    split; [reflexivity|]. split; reflexivity.
Qed.

End PostThenDelete.

(** The postings of the unfixed sample purchase on the store that holds
    its row and no postings. *)
Lemma X17_post_then_delete_postings_witness :
  exists entries : list Entry.t,
    buildRegistryEntries 2025 (qc 1 2) sampleUnfixPurchase sampleParty 9
    = Ok entries
    /\ length entries = 4%nat
    /\ rowsOf (MetalTransaction._id sampleUnfixPurchase)
         (Store.registry savedStore) = []
    /\ ((Store.startTransaction ;;;
         createRegistryEntries reliable 2025 (qc 1 2) sampleUnfixPurchase
           sampleParty 9 true ;;;
         Store.commitTransaction reliable) ;;;
        deleteRegistryEntry reliable sampleUnfixPurchase false)
         (Store.mkWorld savedStore [])
       = (Ok tt, Store.mkWorld savedStore []).
Proof.
  assert (H : exists entries : list Entry.t,
    buildRegistryEntries 2025 (qc 1 2) sampleUnfixPurchase sampleParty 9
    = Ok entries /\ length entries = 4%nat).
  { vm_compute. eexists. split; reflexivity. }
  destruct H as (entries & E & L).
  exists entries. split; [exact E|]. split; [exact L|].
  split; [reflexivity|].
  exact (proj2 (proj2 (X17_post_then_delete_postings reliable 2025 (qc 1 2)
                         sampleUnfixPurchase sampleParty 9 savedStore
                         entries eq_refl eq_refl eq_refl eq_refl E))).
Defined.

(** ** Balances over a create and its reversal *)

Section CreateThenReverse.

(** X18. The reversal is not the inverse of the create on the gold
    value.  When the balance changes move gold value but no gold grams
    ([goldBalance] is [0], [goldValue] is not), [buildUpdateOperations]
    issues no gold key at all, since it tests the grams only, while
    [updateTradeDebtorsBalances] tests both: the create leaves grams and
    value of the account as they are, and the reversal then takes the gold
    value off the account.  The grams are as before. *)
Theorem X18_reversal_takes_unposted_gold_value (balanceChanges : Changes.t)
    (account : Account.t) (goldValue : Qc) :
  Changes.goldBalance balanceChanges = zero ->
  Changes.goldValue balanceChanges = Num goldValue ->
  goldValue <> 0 ->
  let created :=
    Store.applyOps (buildUpdateOperations balanceChanges) account in
  let after := createdThenReversed balanceChanges account in
  Account.totalGrams created = Account.totalGrams account
  /\ Account.totalValue created = Account.totalValue account
  /\ Account.totalGrams after = Account.totalGrams account
  /\ Account.totalValue after
     = sub (Account.totalValue account) (Num goldValue).
Proof.
  intros Hg Hv Hne. cbv zeta.
  unfold createdThenReversed, Store.applyOps, buildUpdateOperations,
    tradeDebtorsOps.
  cbn [Account.totalGrams Account.totalValue Account.cashAmount
       UpdateOps.inc_totalGrams UpdateOps.inc_totalValue
       UpdateOps.inc_cashAmount].
  rewrite Hg, Hv.
  assert (Z : ne0 zero = false) by reflexivity.
  assert (N : ne0 (Num goldValue) = true)
    by (cbn [ne0]; now apply bool_decide_eq_true_2).
  rewrite Z, N. cbn [orb Store.inc neg].
  split; [reflexivity|]. split; [reflexivity|].
  split; [rewrite neg_zero; apply add_zero_r | reflexivity].
Qed.

(** An unfixed purchase of a line without pure weight and with a base
    amount of 1000, on the sample account: the create leaves the gold
    value at 0, the reversal makes it -1000. *)
Lemma X18_reversal_takes_unposted_gold_value_witness :
  let item :=
    {| Item.makingChargesTotal := Some zero;
       Item.makingChargesAmount := Some zero;
       Item.premiumTotal := Some zero;
       Item.premiumAmount := Some zero;
       Item.vatAmount := Some zero;
       Item.otherChargesAmount := Some zero;
       Item.otherChargesDescription := "null";
       Item.baseAmount := Some (Num (qc 1000 1));
       Item.pureWeight := Some zero;
       Item.purity := Some (Num 1);
       Item.grossWeight := Some (Num (qc 105 1));
       Item.rate := Some (Num (qc 250 1)) |} in
  let changes :=
    balanceChangesOf (sampleTransaction "purchase" false true [item]) in
  Changes.goldBalance changes = zero
  /\ Changes.goldValue changes = Num (qc 1000 1)
  /\ qc 1000 1 <> 0
  /\ Account.totalValue
       (Store.applyOps (buildUpdateOperations changes) sampleAccount)
     = zero
  /\ Account.totalValue (createdThenReversed changes sampleAccount)
     = Num (qc (-1000) 1).
Proof.
  cbv zeta.
  match goal with
  | |- Changes.goldBalance ?c = _ /\ _ => set (changes := c)
  end.
  assert (Hg : Changes.goldBalance changes = zero) by compute_done.
  assert (Hv : Changes.goldValue changes = Num (qc 1000 1)) by compute_done.
  assert (Hne : qc 1000 1 <> 0) by discriminate.
  destruct (X18_reversal_takes_unposted_gold_value changes sampleAccount (qc 1000 1)
              Hg Hv Hne) as (_ & V1 & _ & V2).
  split; [exact Hg|]. split; [exact Hv|]. split; [exact Hne|].
  split; [rewrite V1; reflexivity|].
  rewrite V2. compute_done.
Defined.

End CreateThenReverse.

(** ** Validation of an update *)

Section UpdateValidation.

(** X19. [validateUpdateInputs] returns exactly for the acceptable
    requests: a well-formed transaction id and admin id, an update object
    with at least one key, a party code that is absent or well-formed,
    and stock items that are absent or a non-empty array.  Unlike the
    validation of a create, the admin id may not be absent.  Every
    rejection is an error of status 400. *)
Theorem X19_update_validation_accepts_exactly (transactionId : reference)
    (updateData : updateDataValue) (adminId : reference) :
  (validateUpdateInputs transactionId updateData adminId = Ok tt
   <-> acceptableUpdate transactionId updateData adminId)
  /\ forall e : exn,
       validateUpdateInputs transactionId updateData adminId = Throw e ->
       badRequest e.
Proof.
  unfold validateUpdateInputs, acceptableUpdate, badRequest.
  destruct transactionId as [|tid|], adminId as [|aid|];
    cbn [isValidObjectId negb];
    try (split; [split; [discriminate | intros ((? & ?) & (? & ?) & _);
                                          discriminate]
                | intros e [= <-]; eauto]).
  destruct updateData as [|[keys pc si]].
  { split; [split; [discriminate | intros (_ & _ & o & ? & _); discriminate]
           | intros e [= <-]; eauto]. }
  cbn [UpdateData.keys UpdateData.partyCode UpdateData.stockItems].
  destruct keys as [|k ks].
  { rewrite bool_decide_eq_true_2 by reflexivity.
    split; [split; [discriminate|]| intros e [= <-]; eauto].
    intros (_ & _ & o & [= <-] & Hk & _). exfalso. now apply Hk. }
  rewrite bool_decide_eq_false_2 by discriminate.
  destruct pc as [|pid|]; cbn [truthyReference isValidObjectId negb andb];
    try (split; [split; [discriminate|]| intros e [= <-]; eauto];
         intros (_ & _ & o & [= <-] & _ & Hp & _); exfalso; now apply Hp).
  - destruct si as [| |[|item rest]];
      cbn [truthyStockItems notNonEmptyArray andb length].
    + split; [split; [|reflexivity] | discriminate].
      intros _. split; [eauto|]. split; [eauto|].
      eexists. split; [reflexivity|]. split; [discriminate|].
      split; [discriminate | now left].
    + split; [split; [discriminate|]| intros e [= <-]; eauto].
      intros (_ & _ & o & [= <-] & _ & _ & [H|(i & r & H)]); discriminate H.
    + rewrite bool_decide_eq_true_2 by reflexivity.
      split; [split; [discriminate|]| intros e [= <-]; eauto].
      intros (_ & _ & o & [= <-] & _ & _ & [H|(i & r & H)]); discriminate H.
    + rewrite bool_decide_eq_false_2 by discriminate.
      split; [split; [|reflexivity] | discriminate].
      intros _. split; [eauto|]. split; [eauto|].
      eexists. split; [reflexivity|]. split; [discriminate|].
      split; [discriminate | right; eauto].
  - destruct si as [| |[|item rest]];
      cbn [truthyStockItems notNonEmptyArray andb length].
    + split; [split; [|reflexivity] | discriminate].
      intros _. split; [eauto|]. split; [eauto|].
      eexists. split; [reflexivity|]. split; [discriminate|].
      split; [discriminate | now left].
    + split; [split; [discriminate|]| intros e [= <-]; eauto].
      intros (_ & _ & o & [= <-] & _ & _ & [H|(i & r & H)]); discriminate H.
    + rewrite bool_decide_eq_true_2 by reflexivity.
      split; [split; [discriminate|]| intros e [= <-]; eauto].
      intros (_ & _ & o & [= <-] & _ & _ & [H|(i & r & H)]); discriminate H.
    + rewrite bool_decide_eq_false_2 by discriminate.
      split; [split; [|reflexivity] | discriminate].
      intros _. split; [eauto|]. split; [eauto|].
      eexists. split; [reflexivity|]. split; [discriminate|].
      split; [discriminate | right; eauto].
Qed.

(** An update of the voucher number alone is accepted; one with an empty
    array of stock items is rejected with [INVALID_STOCK_ITEMS]. *)
Lemma X19_update_validation_accepts_exactly_witness :
  validateUpdateInputs (ValidReference 2)
    (UpdateDataObject (UpdateData.mk ["voucherNumber"] NoReference
                         NoStockItems))
    (ValidReference 9)
  = Ok tt
  /\ badRequest
       (AppError "Stock items must be a non-empty array" 400
          "INVALID_STOCK_ITEMS").
Proof.
  split.
  - apply (proj1 (X19_update_validation_accepts_exactly _ _ _)).
    split; [eauto|]. split; [eauto|].
    eexists. split; [reflexivity|]. split; [discriminate|].
    split; [discriminate | now left].
  - apply (proj2 (X19_update_validation_accepts_exactly (ValidReference 2)
                    (UpdateDataObject
                       (UpdateData.mk ["stockItems"] NoReference
                          (StockItemsArray [])))
                    (ValidReference 9))).
    reflexivity.
Defined.

End UpdateValidation.

(** ** The draw only names the postings *)

Section DrawIndependence.

Lemma push_if_anonymous (c : bool) (base base' : string) (mt : ObjectId)
    (sfx ty d : string) (p : option ObjectId) (ib : bool) (v cr : jsnum)
    (o : options) (r : string) (a : ObjectId) :
  map (option_map anonymous)
    (push_if c (createRegistryEntry base mt sfx ty d p ib v cr o r a))
  = map (option_map anonymous)
      (push_if c (createRegistryEntry base' mt sfx ty d p ib v cr o r a)).
Proof.
  unfold push_if, createRegistryEntry. destruct c; [|reflexivity].
  destruct (le0 v && _); reflexivity.
Qed.

Lemma app_eq {A : Type} (a a' b b' : list A) :
  a = a' -> b = b' -> a ++ b = a' ++ b'.
Proof. now intros -> ->. Qed.

Ltac same_legs :=
  cbv zeta; rewrite <- ?app_assoc; rewrite !map_app;
  repeat (apply app_eq; [apply push_if_anonymous|]);
  apply push_if_anonymous.

Lemma entriesOfItem_anonymous (transactionType mode : string)
    (metalTransactionId : ObjectId) (totals : Totals.t) (party : Party.t)
    (base base' voucherNumber : string) (adminId : ObjectId)
    (item : Item.t) :
  mapResult (map (option_map anonymous))
    (entriesOfItem transactionType mode metalTransactionId totals party
       base voucherNumber adminId item)
  = mapResult (map (option_map anonymous))
      (entriesOfItem transactionType mode metalTransactionId totals party
         base' voucherNumber adminId item).
Proof.
  unfold entriesOfItem.
  destruct (String.eqb transactionType "purchase").
  { unfold buildPurchaseEntries.
    destruct (String.eqb mode "fix"); cbn [mapResult]; f_equal.
    - unfold buildPurchaseFixEntries. same_legs.
    - unfold buildPurchaseUnfixEntries. same_legs. }
  destruct (String.eqb transactionType "sale").
  { unfold buildSaleEntries.
    destruct (String.eqb mode "fix"); cbn [mapResult]; f_equal.
    - unfold buildSaleFixEntries. same_legs.
    - unfold buildSaleUnfixEntries. same_legs. }
  destruct (String.eqb transactionType "purchaseReturn").
  { unfold buildPurchaseReturnEntries.
    destruct (String.eqb mode "fix").
    - cbn [mapResult]; f_equal.
      unfold buildPurchaseReturnFixEntries. same_legs.
    - unfold buildPurchaseReturnUnfixEntries.
      destruct (gt0 (Totals.premium totals)); [reflexivity|].
      cbn [mapResult]; f_equal. same_legs. }
  destruct (String.eqb transactionType "saleReturn").
  { unfold buildSaleReturnEntries.
    destruct (String.eqb mode "fix"); cbn [mapResult]; f_equal.
    - unfold buildSaleReturnFixEntries. same_legs.
    - unfold buildSaleReturnUnfixEntries. same_legs. }
  reflexivity.
Qed.

Lemma pushItems_anonymous (transactionType mode : string)
    (metalTransactionId : ObjectId) (totalAmountAED : option jsnum)
    (party : Party.t) (base base' voucherNumber : string)
    (adminId : ObjectId) (stockItems : list Item.t) :
  forall entries entries' : list (option Entry.t),
    map (option_map anonymous) entries
    = map (option_map anonymous) entries' ->
    mapResult (map (option_map anonymous))
      (pushItems transactionType mode metalTransactionId totalAmountAED
         party base voucherNumber adminId stockItems entries)
    = mapResult (map (option_map anonymous))
        (pushItems transactionType mode metalTransactionId totalAmountAED
           party base' voucherNumber adminId stockItems entries').
Proof.
  induction stockItems as [|item rest IH]; intros entries entries' H;
    cbn [pushItems].
  - cbn [mapResult]. now rewrite H.
  - pose proof (entriesOfItem_anonymous transactionType mode
                  metalTransactionId (calculateTotals [item] totalAmountAED)
                  party base base' voucherNumber adminId item) as E.
    destruct (entriesOfItem _ _ _ _ _ base _ _ _) as [pushed|e];
      destruct (entriesOfItem _ _ _ _ _ base' _ _ _) as [pushed'|e'];
      cbn [mapResult] in E; try discriminate E.
    + apply IH. rewrite !map_app. injection E as E. now rewrite H, E.
    + cbn [mapResult]. exact E.
Qed.

Lemma filterBoolean_anonymous (pushed : list (option Entry.t)) :
  map anonymous (filterBoolean pushed)
  = filterBoolean (map (option_map anonymous) pushed).
Proof.
  unfold filterBoolean.
  induction pushed as [|[e|] rest IH]; cbn; [reflexivity | | exact IH].
  now rewrite <- IH.
Qed.

(** The fields of the postings of a transaction, identifiers apart, do
    not depend on the year or on the draw. *)
Lemma buildRegistryEntries_anonymous (currentYear currentYear' : nat)
    (random random' : Qc) (metalTransaction : MetalTransaction.t)
    (party : Party.t) (adminId : ObjectId) :
  mapResult (map anonymous)
    (buildRegistryEntries currentYear random metalTransaction party adminId)
  = mapResult (map anonymous)
      (buildRegistryEntries currentYear' random' metalTransaction party
         adminId).
Proof.
  unfold buildRegistryEntries. cbv zeta.
  pose proof (pushItems_anonymous
                (MetalTransaction.transactionType metalTransaction)
                (getTransactionMode (MetalTransaction.fixed metalTransaction)
                   (MetalTransaction.unfix metalTransaction))
                (MetalTransaction._id metalTransaction)
                (MetalTransaction.totalAmountAED metalTransaction) party
                (generateTransactionId currentYear random)
                (generateTransactionId currentYear' random')
                (MetalTransaction.voucherNumber metalTransaction) adminId
                (MetalTransaction.stockItems metalTransaction) [] []
                eq_refl) as E.
  destruct (pushItems _ _ _ _ _ (generateTransactionId currentYear random)
              _ _ _ _) as [pushed|e];
    destruct (pushItems _ _ _ _ _
                (generateTransactionId currentYear' random') _ _ _ _)
      as [pushed'|e'];
    cbn [mapResult] in E |- *; try discriminate E.
  - injection E as E. now rewrite !filterBoolean_anonymous, E.
  - injection E as ->. reflexivity.
Qed.

(** X21. The year of the clock and the draw of [Math.random()] only name
    the postings: two calls of [buildRegistryEntries] on the same
    transaction, party and admin throw the same error or return postings
    that agree, in the same order, on every field other than
    [transactionId] and the two time stamps ([transactionDate] and
    [createdAt], which are read off the clock and are not part of
    [Entry.t]). *)
Theorem X21_draw_only_names_postings (currentYear currentYear' : nat)
    (random random' : Qc) (metalTransaction : MetalTransaction.t)
    (party : Party.t) (adminId : ObjectId) :
  mapResult (map anonymous)
    (buildRegistryEntries currentYear random metalTransaction party adminId)
  = mapResult (map anonymous)
      (buildRegistryEntries currentYear' random' metalTransaction party
         adminId).
Proof.
  exact (buildRegistryEntries_anonymous currentYear currentYear' random
           random' metalTransaction party adminId).
Qed.

End DrawIndependence.

(** ** Reversal postings *)

Section ReversalPostings.

Variable faulty : Store.call -> bool.

Lemma totalDebit_app (l1 l2 : list Registry.t) :
  totalDebit (l1 ++ l2) = totalDebit l1 + totalDebit l2.
Proof.
  unfold totalDebit. induction l1 as [|r rest IH]; cbn [app foldr].
  - ring.
  - rewrite IH. ring.
Qed.

Lemma totalCredit_app (l1 l2 : list Registry.t) :
  totalCredit (l1 ++ l2) = totalCredit l1 + totalCredit l2.
Proof.
  unfold totalCredit. induction l1 as [|r rest IH]; cbn [app foldr].
  - ring.
  - rewrite IH. ring.
Qed.

Lemma anonymous_Forall2 (l l' : list Entry.t) :
  map anonymous l = map anonymous l' ->
  Forall2 (fun e e' => anonymous e = anonymous e') l l'.
Proof.
  revert l'. induction l as [|e rest IH]; intros [|e' rest'] H;
    try discriminate H; constructor; cbn [map] in H.
  - congruence.
  - apply IH. congruence.
Qed.

(** The sides of the reversals are the opposite sides of the
    originals. *)
Lemma reversal_sides (entries reversals : list Entry.t) :
  Forall2 (fun e r => Entry.debit r = Entry.credit e
                      /\ Entry.credit r = Entry.debit e)
    entries reversals ->
  totalDebit (map Registry.ofEntry reversals)
  = totalCredit (map Registry.ofEntry entries)
  /\ totalCredit (map Registry.ofEntry reversals)
     = totalDebit (map Registry.ofEntry entries).
Proof.
  unfold totalDebit, totalCredit.
  induction 1 as [|e r es rs [Hd Hc] _ [IHd IHc]]; [split; reflexivity|].
  cbn [map foldr Registry.ofEntry Registry.debit Registry.credit].
  rewrite Hd, Hc, IHd, IHc. split; reflexivity.
Qed.

(** X22. The reversal postings of a posted transaction.  Let the
    postings of the transaction be those that [buildRegistryEntries]
    returned when it was posted.  A later call of
    [createReversalRegistryEntries] in a session, with its own draw and
    the insert not rejected, returns and logs one reversal per posting, in
    order, after the rows of the registry.  Each reversal has the debit
    and the credit of its posting swapped, the same value, type, party
    and transaction, and the reference prefixed by [REV-]; so over the
    postings and their reversals together the debits equal the
    credits.  Nothing is written outside the session. *)
Theorem X22_reversal_postings_balance (currentYear currentYear' : nat)
    (random random' : Qc) (transaction : MetalTransaction.t)
    (party : Party.t) (adminId : ObjectId) (s : Store.t)
    (entries : list Entry.t) :
  faulty Store.Registry_insertMany = false ->
  buildRegistryEntries currentYear random transaction party adminId
  = Ok entries ->
  exists reversals : list Entry.t,
    let run :=
      createReversalRegistryEntries faulty currentYear' random' transaction
        party adminId true (Store.mkWorld s []) in
    fst run = Ok tt
    /\ Store.committed (snd run) = s
    /\ Store.registry (Store.view (snd run))
       = Store.registry s ++ map Registry.ofEntry reversals
    /\ Forall2
         (fun e r =>
            Entry.debit r = Entry.credit e
            /\ Entry.credit r = Entry.debit e
            /\ Entry.value r = Entry.value e
            /\ Entry.type r = Entry.type e
            /\ Entry.party r = Entry.party e
            /\ Entry.metalTransactionId r = Entry.metalTransactionId e
            /\ Entry.reference r = "REV-" +:+ Entry.reference e)
         entries reversals
    /\ totalDebit (map Registry.ofEntry (entries ++ reversals))
       = totalCredit (map Registry.ofEntry (entries ++ reversals)).
Proof.
  intros F E.
  pose proof (buildRegistryEntries_anonymous currentYear currentYear'
                random random' transaction party adminId) as A.
  rewrite E in A. cbn [mapResult] in A.
  destruct (buildRegistryEntries currentYear' random' transaction party
              adminId) as [entries'|x] eqn:E'; [|discriminate A].
  cbn [mapResult] in A. injection A as A.
  apply anonymous_Forall2 in A.
  exists (map reversalOf entries').
  assert (Pairs : Forall2
            (fun e r =>
               Entry.debit r = Entry.credit e
               /\ Entry.credit r = Entry.debit e
               /\ Entry.value r = Entry.value e
               /\ Entry.type r = Entry.type e
               /\ Entry.party r = Entry.party e
               /\ Entry.metalTransactionId r = Entry.metalTransactionId e
               /\ Entry.reference r = "REV-" +:+ Entry.reference e)
            entries (map reversalOf entries')).
  { apply Forall2_fmap_r. eapply Forall2_impl; [exact A|].
    intros e e' H. cbn.
    pose proof (f_equal Entry.credit H) as H1.
    pose proof (f_equal Entry.debit H) as H2.
    pose proof (f_equal Entry.value H) as H3.
    pose proof (f_equal Entry.type H) as H4.
    pose proof (f_equal Entry.party H) as H5.
    pose proof (f_equal Entry.metalTransactionId H) as H6.
    pose proof (f_equal Entry.reference H) as H7.
    cbn in H1, H2, H3, H4, H5, H6, H7.
    rewrite H1, H2, H3, H4, H5, H6, H7. repeat split; reflexivity. }
  cbv zeta.
  unfold createReversalRegistryEntries. rewrite E'.
  unfold Store.await, Store.store, Store.ret, Store.view. rewrite F.
  rewrite !map_app, totalDebit_app, totalCredit_app.
  destruct (reversal_sides entries (map reversalOf entries')) as [Hd Hc].
  { eapply Forall2_impl; [exact Pairs|]. intros e r H.
    split; [exact (proj1 H) | exact (proj1 (proj2 H))]. }
  rewrite Hd, Hc.
  destruct entries' as [|e' rest'].
  - cbn [map length]. rewrite bool_decide_eq_false_2 by (cbn; lia).
    cbn [fst snd Store.committed Store.pending fold_left].
    split; [reflexivity|]. split; [reflexivity|].
    split; [now rewrite app_nil_r|]. split; [exact Pairs | ring].
  - rewrite bool_decide_eq_true_2 by (cbn; lia).
    cbn [fst snd Store.committed Store.pending fold_left app Store.apply
         Store.registry].
    split; [reflexivity|]. split; [reflexivity|].
    split; [reflexivity|]. split; [exact Pairs | ring].
Qed.

End ReversalPostings.

(** The fixed sample purchase, posted with a draw of one half and
    reversed with a draw of one quarter. *)
Lemma X22_reversal_postings_balance_witness :
  exists entries reversals : list Entry.t,
    reliable Store.Registry_insertMany = false
    /\ buildRegistryEntries 2025 (qc 1 2) samplePurchase sampleParty 9
       = Ok entries
    /\ fst (createReversalRegistryEntries reliable 2026 (qc 1 4)
              samplePurchase sampleParty 9 true
              (Store.mkWorld savedStore []))
       = Ok tt
    /\ length reversals = length entries
    /\ totalDebit (map Registry.ofEntry (entries ++ reversals))
       = totalCredit (map Registry.ofEntry (entries ++ reversals)).
Proof.
  assert (H : exists entries : list Entry.t,
    buildRegistryEntries 2025 (qc 1 2) samplePurchase sampleParty 9
    = Ok entries).
  { vm_compute. eexists. reflexivity. }
  destruct H as (entries & E).
  destruct (X22_reversal_postings_balance reliable 2025 2026 (qc 1 2)
              (qc 1 4) samplePurchase sampleParty 9 savedStore entries
              eq_refl E) as (reversals & R & _ & _ & P & B).
  exists entries, reversals.
  split; [reflexivity|]. split; [exact E|]. split; [exact R|].
  split; [symmetry; exact (Forall2_length _ _ _ P) | exact B].
Defined.

(** ** The two reversals of the balances *)

Section BalanceReversals.

Variable faulty : Store.call -> bool.

Lemma sub_zero (a : jsnum) : sub a zero = a.
Proof. destruct a as [x|]; cbn; [f_equal; ring | reflexivity]. Qed.

Lemma inc_reversal (a b : jsnum) (c : bool) :
  (c = false -> b = zero) ->
  Store.inc a (if c then Some (neg b) else None) = sub a b.
Proof.
  intros H. destruct c; cbn [Store.inc].
  - destruct a as [x|], b as [y|]; reflexivity.
  - rewrite (H eq_refl). symmetry. apply sub_zero.
Qed.

(** What [updateReverseAccountBalances] writes on the party is what the
    reversal increments of [updateTradeDebtorsBalances] make of it. *)
Lemma reversedBalances_applyOps (party : Account.t)
    (originalData : MetalTransaction.t) :
  reversedBalances party originalData
  = Store.applyOps (tradeDebtorsOps true (balanceChangesOf originalData))
      party.
Proof.
  unfold reversedBalances, Store.applyOps, tradeDebtorsOps, netCashChange.
  cbv zeta.
  cbn [UpdateOps.inc_totalGrams UpdateOps.inc_totalValue
       UpdateOps.inc_cashAmount].
  rewrite !inc_reversal; [reflexivity | | |].
  - apply ne0_false.
  - intros H. apply orb_false_iff in H. apply ne0_false. exact (proj2 H).
  - intros H. apply orb_false_iff in H. apply ne0_false. exact (proj1 H).
Qed.

(** X23. The service has two ways to take the balance changes of a
    transaction off a party: [updateReverseAccountBalances] subtracts
    them on the loaded document and saves it, and
    [updateTradeDebtorsBalances] with [isReversal] issues negated
    increments that leave out a change of [0].  On a party that is
    stored as loaded, in a session and with no call rejected, both
    return and the session then shows the same store; neither rounds the
    cash change. *)
Theorem X23_two_reversals_agree (party : Account.t)
    (originalData : MetalTransaction.t) (s : Store.t) :
  faulty Store.Account_findById = false ->
  faulty Store.Account_findByIdAndUpdate = false ->
  faulty Store.Account_save = false ->
  Store.accounts s !! Account._id party = Some party ->
  let saved :=
    updateReverseAccountBalances faulty party originalData true
      (Store.mkWorld s []) in
  let updated :=
    updateTradeDebtorsBalances faulty (Account._id party) originalData
      true false true (Store.mkWorld s []) in
  fst saved = Ok tt
  /\ fst updated = Ok tt
  /\ Store.view (snd saved) = Store.view (snd updated)
  /\ Store.accounts (Store.view (snd saved)) !! Account._id party
     = Some (reversedBalances party originalData).
Proof.
  intros F1 F2 F3 L. cbv zeta.
  unfold updateReverseAccountBalances, updateTradeDebtorsBalances,
    Store.try_catch, Store.bind, Store.await, Store.read, Store.store,
    Store.ret, Store.throw, Store.view.
  rewrite F1, F2, F3.
  cbn [Store.committed Store.pending fold_left fst snd app].
  rewrite L.
  cbn [Store.committed Store.pending fold_left fst snd app Store.apply
       Store.accounts].
  split; [reflexivity|]. split; [reflexivity|].
  assert (M : <[Account._id (reversedBalances party originalData) :=
                  reversedBalances party originalData]> (Store.accounts s)
              = alter (Store.applyOps
                         (tradeDebtorsOps true
                            (balanceChangesOf originalData)))
                  (Account._id party) (Store.accounts s)).
  { apply map_eq. intros j. cbn [reversedBalances Account._id].
    destruct (decide (Account._id party = j)) as [<-|Hne].
    - rewrite lookup_insert_eq, lookup_alter_eq, L. cbn.
      now rewrite reversedBalances_applyOps.
    - now rewrite lookup_insert_ne, lookup_alter_ne. }
  split; [now rewrite M|].
  cbn [reversedBalances Account._id]. apply lookup_insert_eq.
Qed.

End BalanceReversals.

(** The unfixed sample purchase taken off the account of the posted
    store. *)
Lemma X23_two_reversals_agree_witness :
  let posted :=
    Store.applyOps
      (buildUpdateOperations (balanceChangesOf sampleUnfixPurchase))
      sampleAccount in
  Store.accounts postedStore !! Account._id posted = Some posted
  /\ Store.view
       (snd (updateReverseAccountBalances reliable posted
               sampleUnfixPurchase true (Store.mkWorld postedStore [])))
     = Store.view
         (snd (updateTradeDebtorsBalances reliable (Account._id posted)
                 sampleUnfixPurchase true false true
                 (Store.mkWorld postedStore []))).
Proof.
  intros posted.
  assert (L : Store.accounts postedStore !! Account._id posted
              = Some posted) by (vm_compute; reflexivity).
  split; [exact L|].
  exact (proj1 (proj2 (proj2
           (X23_two_reversals_agree reliable posted sampleUnfixPurchase
              postedStore eq_refl eq_refl eq_refl L)))).
Defined.

(** ** Gold in the postings and in the balances *)

Section GoldPostings.

Lemma values_of_app (type : string) (l1 l2 : list (option Entry.t)) :
  values_of type (filterBoolean (l1 ++ l2))
  = values_of type (filterBoolean l1) ++ values_of type (filterBoolean l2).
Proof.
  unfold values_of, filterBoolean.
  now rewrite omap_app, List.filter_app, map_app.
Qed.

Lemma values_of_other (type : string) (c : bool) (base : string)
    (mt : ObjectId) (sfx ty d : string) (p : option ObjectId) (ib : bool)
    (v cr : jsnum) (o : options) (r : string) (a : ObjectId) :
  String.eqb ty type = false ->
  values_of type
    (filterBoolean
       (push_if c (createRegistryEntry base mt sfx ty d p ib v cr o r a)))
  = [].
Proof.
  intros Hty. unfold values_of, push_if, filterBoolean.
  destruct c; [|reflexivity].
  unfold createRegistryEntry. destruct (le0 v && _); [reflexivity|].
  cbn [omap id List.filter Entry.type]. simpl. now rewrite Hty.
Qed.

Lemma values_of_leg (type : string) (q : Qc) (base : string)
    (mt : ObjectId) (sfx d : string) (p : option ObjectId) (ib : bool)
    (cr : jsnum) (o : options) (r : string) (a : ObjectId) :
  values_of type
    (filterBoolean
       (push_if (gt0 (Num q))
          (createRegistryEntry base mt sfx type d p ib (Num q) cr o r a)))
  = if bool_decide (0 < q) then [q] else [].
Proof.
  cbn [gt0]. destruct (bool_decide (0 < q)) eqn:G; [|reflexivity].
  assert (G' : gt0 (Num q) = true) by exact G.
  unfold values_of, push_if, filterBoolean, createRegistryEntry.
  rewrite (le0_of_gt0 _ G'). cbn [andb omap id List.filter Entry.type].
  simpl. now rewrite String.eqb_refl.
Qed.

(** Without fixing, one stock item posts its pure weight on the party's
    gold balance, when it is above zero. *)
Lemma entriesOfItem_gold (transactionType mode : string)
    (metalTransactionId : ObjectId) (totals : Totals.t) (party : Party.t)
    (baseTransactionId voucherNumber : string) (adminId : ObjectId)
    (item : Item.t) (q : Qc) (pushed : list (option Entry.t)) :
  In transactionType kinds ->
  String.eqb mode "fix" = false ->
  Totals.pureWeight totals = Num q ->
  entriesOfItem transactionType mode metalTransactionId totals party
    baseTransactionId voucherNumber adminId item = Ok pushed ->
  values_of "PARTY_GOLD_BALANCE" (filterBoolean pushed)
  = if bool_decide (0 < q) then [q] else [].
Proof.
  intros Hk Hm Hw. unfold kinds in Hk. simpl in Hk.
  destruct Hk as [<-|[<-|[<-|[<-|[]]]]]; unfold entriesOfItem;
    cbn [String.eqb Ascii.eqb Bool.eqb];
    [ unfold buildPurchaseEntries | unfold buildSaleEntries
    | unfold buildPurchaseReturnEntries | unfold buildSaleReturnEntries ];
    rewrite Hm;
    [ unfold buildPurchaseUnfixEntries | unfold buildSaleUnfixEntries
    | unfold buildPurchaseReturnUnfixEntries;
      destruct (gt0 (Totals.premium totals)); [discriminate|]
    | unfold buildSaleReturnUnfixEntries ];
    intros [= <-]; cbv zeta; rewrite <- ?app_assoc; rewrite Hw;
    rewrite !values_of_app, values_of_leg;
    rewrite !values_of_other by reflexivity;
    cbn [app]; apply app_nil_r.
Qed.

Lemma pureWeight_total (stockItems : list Item.t)
    (totalAmountAED : option jsnum) :
  Totals.pureWeight (calculateTotals stockItems totalAmountAED)
  = runningSum (map (fun i => amount (Item.pureWeight i)) stockItems).
Proof.
  unfold calculateTotals, setTotalAmount, runningSum.
  rewrite fold_left_reducer.
  cbn [Totals.pureWeight initialTotals].
  apply fold_left_add.
Qed.

Lemma weighed_amount (item : Item.t) (q : Qc) :
  Item.pureWeight item = Some (Num q) ->
  amount (Item.pureWeight item) = Num q.
Proof. intros ->. apply or_else_Num. Qed.

(** The running sum of the posted weights keeps step with the running sum
    of the items' weights: a weight of [0] is not posted and adds
    nothing. *)
Lemma pushItems_gold (transactionType mode : string)
    (metalTransactionId : ObjectId) (totalAmountAED : option jsnum)
    (party : Party.t) (baseTransactionId voucherNumber : string)
    (adminId : ObjectId) (stockItems : list Item.t) :
  In transactionType kinds ->
  String.eqb mode "fix" = false ->
  Forall weighed stockItems ->
  forall (entries res : list (option Entry.t)) (start : jsnum),
    pushItems transactionType mode metalTransactionId totalAmountAED party
      baseTransactionId voucherNumber adminId stockItems entries = Ok res ->
    fold_left add
      (map Num (values_of "PARTY_GOLD_BALANCE" (filterBoolean res))) start
    = fold_left add
        (map (fun i => amount (Item.pureWeight i)) stockItems)
        (fold_left add
           (map Num (values_of "PARTY_GOLD_BALANCE"
                       (filterBoolean entries)))
           start).
Proof.
  intros Hk Hm.
  induction 1 as [|item rest (q & Hw & Hq) _ IH]; intros entries res start;
    cbn [pushItems map fold_left].
  - intros [= <-]. reflexivity.
  - destruct (entriesOfItem _ _ _ _ _ _ _ _ _) as [pushed|e] eqn:E;
      [|discriminate].
    intros P. rewrite (IH _ _ start P).
    assert (T : Totals.pureWeight (calculateTotals [item] totalAmountAED)
                = Num q).
    { rewrite pureWeight_total. unfold runningSum. cbn [map fold_left].
      rewrite (weighed_amount item q Hw). apply add_zero_l. }
    rewrite values_of_app, map_app, fold_left_app.
    rewrite (entriesOfItem_gold _ _ _ _ _ _ _ _ _ q pushed Hk Hm T E).
    rewrite (weighed_amount item q Hw).
    f_equal. case_bool_decide as Pq; cbn [map fold_left]; [reflexivity|].
    assert (Z : q = 0)
      by (apply Qcle_antisym; [now apply Qcnot_lt_le | exact Hq]).
    rewrite Z. symmetry. apply add_zero_r.
Qed.

(** X24. Registry and balances agree on the gold of a transaction that is
    not fixed.  For one of the four kinds whose stock items have pure
    weights that are numbers not below zero, the pure weight of the whole
    transaction is the running sum (from [0], in order, each addition
    rounded as the code rounds it) of the values of the
    [PARTY_GOLD_BALANCE] postings that [buildRegistryEntries] returns, and
    the gold balance change of the party is that number for a purchase and
    a sale return and its negation for a sale and a purchase return. *)
Theorem X24_unfixed_gold_postings_match_balance (currentYear : nat)
    (random : Qc) (metalTransaction : MetalTransaction.t) (party : Party.t)
    (adminId : ObjectId) (entries : list Entry.t) :
  In (MetalTransaction.transactionType metalTransaction) kinds ->
  MetalTransaction.fixed metalTransaction = false ->
  Forall weighed (MetalTransaction.stockItems metalTransaction) ->
  buildRegistryEntries currentYear random metalTransaction party adminId
  = Ok entries ->
  let posted :=
    runningSum (map Num (values_of "PARTY_GOLD_BALANCE" entries)) in
  Totals.pureWeight
    (calculateTotals (MetalTransaction.stockItems metalTransaction)
       (MetalTransaction.totalAmountAED metalTransaction))
  = posted
  /\ Changes.goldBalance (balanceChangesOf metalTransaction)
     = (if bool_decide (In (MetalTransaction.transactionType metalTransaction)
                          ["purchase"; "saleReturn"])
        then posted else neg posted).
Proof.
  intros Hk Hf Hw E. cbv zeta.
  assert (Hm : getTransactionMode (MetalTransaction.fixed metalTransaction)
                 (MetalTransaction.unfix metalTransaction) = "unfix").
  { rewrite Hf. now destruct (MetalTransaction.unfix metalTransaction). }
  assert (T : Totals.pureWeight
                (calculateTotals (MetalTransaction.stockItems metalTransaction)
                   (MetalTransaction.totalAmountAED metalTransaction))
              = runningSum
                  (map Num (values_of "PARTY_GOLD_BALANCE" entries))).
  { unfold buildRegistryEntries in E. cbv zeta in E. rewrite Hm in E.
    destruct (pushItems _ _ _ _ _ _ _ _ _ _) as [res|x] eqn:P;
      [|discriminate].
    injection E as <-. unfold runningSum.
    rewrite (pushItems_gold _ "unfix" _ _ _ _ _ _ _ Hk eq_refl Hw _ _ zero P).
    rewrite pureWeight_total. reflexivity. }
  split; [exact T|].
  unfold balanceChangesOf, calculateBalanceChanges, balanceMatrix.
  rewrite Hm, T. unfold kinds in Hk. simpl in Hk.
  destruct Hk as [<-|[<-|[<-|[<-|[]]]]]; reflexivity.
Qed.

(** An unfixed purchase of three lines of 0.1, 0.2 and 0.3 g: the three
    postings carry the three weights, and the balance moves by their
    running sum, 0.6000000000000001. *)
Lemma X24_unfixed_gold_postings_match_balance_witness :
  let line (tenths : Z) : Item.t :=
    {| Item.makingChargesTotal := Some zero;
       Item.makingChargesAmount := Some zero;
       Item.premiumTotal := Some zero;
       Item.premiumAmount := Some zero;
       Item.vatAmount := Some zero;
       Item.otherChargesAmount := Some zero;
       Item.otherChargesDescription := "null";
       Item.baseAmount := Some zero;
       Item.pureWeight := Some (Num (double tenths 10));
       Item.purity := Some (Num 1);
       Item.grossWeight := Some (Num (double tenths 10));
       Item.rate := Some (Num (qc 250 1)) |} in
  let purchase :=
    sampleTransaction "purchase" false true
      [line 1%Z; line 2%Z; line 3%Z] in
  exists entries : list Entry.t,
    buildRegistryEntries 2025 (qc 1 2) purchase sampleParty 9 = Ok entries
    /\ values_of "PARTY_GOLD_BALANCE" entries
       = [double 1 10; double 2 10; double 3 10]
    /\ Changes.goldBalance (balanceChangesOf purchase)
       = runningSum (map Num (values_of "PARTY_GOLD_BALANCE" entries))
    /\ Changes.goldBalance (balanceChangesOf purchase)
       = Num (qc 1351079888211149 2251799813685248).
Proof.
  cbv zeta.
  match goal with
  | |- exists entries, buildRegistryEntries _ _ ?t _ _ = _ /\ _ =>
      set (purchase := t)
  end.
  assert (H : exists entries : list Entry.t,
    buildRegistryEntries 2025 (qc 1 2) purchase sampleParty 9 = Ok entries
    /\ values_of "PARTY_GOLD_BALANCE" entries
       = [double 1 10; double 2 10; double 3 10]).
  { vm_compute. eexists. split; reflexivity. }
  destruct H as (entries & E & V).
  assert (Hk : In (MetalTransaction.transactionType purchase) kinds)
    by (left; reflexivity).
  assert (Hw : Forall weighed (MetalTransaction.stockItems purchase)).
  { repeat constructor; eexists; (split; [reflexivity|]);
      intros H; vm_compute in H; discriminate H. }
  destruct (X24_unfixed_gold_postings_match_balance 2025 (qc 1 2)
              purchase sampleParty 9 entries Hk eq_refl Hw E) as (_ & B).
  exists entries. split; [exact E|]. split; [exact V|].
  split; [exact B | compute_done].
Defined.

End GoldPostings.

(** ** Create and delete of a metal transaction, end to end *)

Section CreateThenDelete.

Variable faulty : Store.call -> bool.

Hypothesis reliable_calls : forall c : Store.call, faulty c = false.

(** The rest of the create unit on a saved transaction: postings,
    balances, commit. *)
Lemma post_returns (currentYear : nat) (random : Qc)
    (metalTransaction : MetalTransaction.t) (party : Party.t)
    (adminId : ObjectId) (s : Store.t) (entries : list Entry.t) :
  buildRegistryEntries currentYear random metalTransaction party adminId
  = Ok entries ->
  (Store.startTransaction ;;;
   createRegistryEntries faulty currentYear random metalTransaction party
     adminId true ;;;
   updateAccountBalances faulty party metalTransaction true ;;;
   Store.commitTransaction faulty) (Store.mkWorld s [])
  = (Ok tt,
     Store.mkWorld
       (Store.mk
          (alter (Store.applyOps
                    (buildUpdateOperations
                       (balanceChangesOf metalTransaction)))
             (Party._id party) (Store.accounts s))
          (Store.registry s ++ map Registry.ofEntry entries)
          (Store.metalTransactions s) (Store.transactionFixings s))
       []).
Proof.
  intros E.
  unfold createRegistryEntries, updateAccountBalances,
    Store.commitTransaction, Store.bind, Store.await, Store.store,
    Store.ret, Store.startTransaction, Store.view.
  rewrite E, !reliable_calls.
  destruct entries as [|e rest].
  - rewrite bool_decide_eq_true_2 by reflexivity.
    cbn [Store.committed Store.pending fold_left fst snd app Store.apply
         Store.accounts Store.registry Store.metalTransactions
         Store.transactionFixings map].
    now rewrite app_nil_r.
  - rewrite bool_decide_eq_false_2 by discriminate.
    reflexivity.
Qed.

(** With no call rejected, the delete of a stored, active transaction
    whose party has an account returns. *)
Lemma deleteMetalTransaction_returns (transactionId adminId : ObjectId)
    (s : Store.t) (t : MetalTransaction.t) (party : Account.t) :
  Store.metalTransactions s !! transactionId = Some t ->
  MetalTransaction.isActive t = true ->
  Store.accounts s !! MetalTransaction.partyCode t = Some party ->
  Account._id party = MetalTransaction.partyCode t ->
  deleteMetalTransaction faulty transactionId adminId (Store.mkWorld s [])
  = (Ok "Metal transaction deleted successfully",
     Store.mkWorld
       (Store.mk
          (alter (Store.applyOps (tradeDebtorsOps true (balanceChangesOf t)))
             (MetalTransaction.partyCode t) (Store.accounts s))
          (filter (fun r => Registry.metalTransactionId r
                            <> Some (MetalTransaction._id t))
             (Store.registry s))
          (delete transactionId (Store.metalTransactions s))
          (Store.transactionFixings s))
       []).
Proof.
  intros Lt Ha Lp Hid.
  unfold deleteMetalTransaction, deleteRegistryEntry,
    updateTradeDebtorsBalances, Store.commitTransaction, Store.try_catch,
    Store.bind, Store.await, Store.read, Store.store, Store.throw,
    Store.ret, Store.startTransaction, Store.abortTransaction, Store.view.
  rewrite !reliable_calls.
  cbn [Store.committed Store.pending fold_left fst snd].
  rewrite Lt. cbv beta iota. rewrite Ha.
  cbn [negb Store.committed Store.pending fold_left fst snd app Store.apply
       Store.accounts Store.registry Store.metalTransactions
       Store.transactionFixings].
  rewrite Lp. cbv beta iota.
  cbn [Store.committed Store.pending fold_left fst snd app Store.apply
       Store.accounts Store.registry Store.metalTransactions
       Store.transactionFixings].
  rewrite Hid, Lp. reflexivity.
Qed.

(** X25. Create and delete of a metal transaction, end to end.  Take a
    store that holds the saved, active transaction and the account of its
    party, and no posting linked to the transaction.  With no call
    rejected and a builder that returns, posting the transaction
    (postings and balances in a session, commit) and then deleting it
    returns; afterwards the registry and the fixing transactions are as
    before, the transaction row is gone, and the only account that
    differs is the party's, which carries the increments of the create
    followed by those of the reversal. *)
Theorem X25_create_then_delete (currentYear : nat) (random : Qc)
    (transactionId adminId : ObjectId) (t : MetalTransaction.t)
    (party : Party.t) (account : Account.t) (s : Store.t)
    (entries : list Entry.t) :
  Store.metalTransactions s !! transactionId = Some t ->
  MetalTransaction.isActive t = true ->
  Store.accounts s !! MetalTransaction.partyCode t = Some account ->
  Account._id account = MetalTransaction.partyCode t ->
  Party._id party = MetalTransaction.partyCode t ->
  rowsOf (MetalTransaction._id t) (Store.registry s) = [] ->
  buildRegistryEntries currentYear random t party adminId = Ok entries ->
  ((Store.startTransaction ;;;
    createRegistryEntries faulty currentYear random t party adminId true ;;;
    updateAccountBalances faulty party t true ;;;
    Store.commitTransaction faulty) ;;;
   deleteMetalTransaction faulty transactionId adminId)
    (Store.mkWorld s [])
  = (Ok "Metal transaction deleted successfully",
     Store.mkWorld
       (Store.mk
          (<[MetalTransaction.partyCode t :=
               createdThenReversed (balanceChangesOf t) account]>
             (Store.accounts s))
          (Store.registry s)
          (delete transactionId (Store.metalTransactions s))
          (Store.transactionFixings s))
       []).
Proof.
  intros Lt Ha Lp Hid Hp Hrows E.
  pose proof (buildRegistryEntries_provenance _ _ _ _ _ _ E) as P.
  assert (Own : Forall (fun e => Entry.metalTransactionId e
                                 = MetalTransaction._id t) entries).
  { eapply Forall_impl; [exact P|]. intros e He. exact (proj1 He). }
  unfold Store.bind at 1.
  rewrite (post_returns currentYear random t party adminId s entries E).
  rewrite (deleteMetalTransaction_returns transactionId adminId _ t
             (Store.applyOps (buildUpdateOperations (balanceChangesOf t))
                account)).
  - cbn [Store.accounts Store.registry Store.metalTransactions
         Store.transactionFixings].
    rewrite filter_app, (filter_other_rows _ _ Hrows),
      (filter_own_rows _ _ Own), app_nil_r, Hp.
    do 3 f_equal.
    apply map_eq. intros j.
    destruct (decide (MetalTransaction.partyCode t = j)) as [<-|Hne].
    + now rewrite lookup_insert_eq, !lookup_alter_eq, Lp.
    + now rewrite lookup_insert_ne, !lookup_alter_ne.
  - exact Lt.
  - exact Ha.
  - cbn [Store.accounts]. now rewrite Hp, lookup_alter_eq, Lp.
  - exact Hid.
Qed.

End CreateThenDelete.

(** The unfixed sample purchase on the store that holds its row: after
    create and delete the row is gone, no posting is left, and the cash
    amount of the party is what the rounding of the create left behind,
    [10.13 - 10.125] in binary64. *)
Lemma X25_create_then_delete_witness :
  exists entries : list Entry.t,
    buildRegistryEntries 2025 (qc 1 2) sampleUnfixPurchase sampleParty 9
    = Ok entries
    /\ ((Store.startTransaction ;;;
         createRegistryEntries reliable 2025 (qc 1 2) sampleUnfixPurchase
           sampleParty 9 true ;;;
         updateAccountBalances reliable sampleParty sampleUnfixPurchase
           true ;;;
         Store.commitTransaction reliable) ;;;
        deleteMetalTransaction reliable 2 9)
         (Store.mkWorld savedStore [])
       = (Ok "Metal transaction deleted successfully",
          Store.mkWorld
            (Store.mk
               (<[7%nat :=
                    createdThenReversed
                      (balanceChangesOf sampleUnfixPurchase) sampleAccount]>
                  (Store.accounts savedStore))
               []
               (delete 2%nat (Store.metalTransactions savedStore))
               ∅)
            [])
    /\ Account.cashAmount
         (createdThenReversed (balanceChangesOf sampleUnfixPurchase)
            sampleAccount)
       = Num (qc 2814749767107 562949953421312).
Proof.
  assert (H : exists entries : list Entry.t,
    buildRegistryEntries 2025 (qc 1 2) sampleUnfixPurchase sampleParty 9
    = Ok entries).
  { vm_compute. eexists. reflexivity. }
  destruct H as (entries & E).
  exists entries. split; [exact E|]. split; [|compute_done].
  exact (X25_create_then_delete reliable (fun c => eq_refl) 2025 (qc 1 2)
           2 9 sampleUnfixPurchase sampleParty sampleAccount savedStore
           entries eq_refl eq_refl eq_refl eq_refl eq_refl eq_refl E).
Defined.
